(** * esgprep drs: the per-file workers, the scan and the checkpoint

    A shallow embedding of the builder of the DRS tree of esgprep:

    - [main.process] and [main.run], from [esgprep/drs/main.py];
    - [make.__call__], the method [Process.__call__] of
      [esgprep/drs/make.py];
    - the constants of [esgprep/drs/constants.py].

    Both workers run their body inside [try ... except KeyboardInterrupt ...
    except Exception ... finally]: they are written in a state-and-exception
    monad over the tree they share, and a state reached before a raise is
    kept.  What lives outside these files (the file and path handlers, the
    path helpers, the checksums, the tree class, the filesystem) is a field
    of an environment record: a statement holds for every behaviour of
    these collaborators, an example fixes one.  The tree keeps the queue of
    the [create_leaf] requests in the order of the calls.

    The file has two parts: the definitions (Python primitives, the monad,
    the two modules, the vocabulary of the statements, a dataset for the
    examples), then the properties. *)

From Stdlib Require Import ZArith String Ascii List Bool Lia.
From stdpp Require Import base option list strings gmap.

Local Open Scope string_scope.
Local Open Scope Z_scope.
Local Open Scope list_scope.

(** ** Python values and primitives *)

(** What a worker returns: [True], [False] or [None]. *)
Inductive pyresult := PyTrue | PyFalse | PyNone.

Global Instance pyresult_eq_dec : EqDecision pyresult.
Proof. solve_decision. Defined.

(** [results.count(None)] *)
Definition count_None (results : list pyresult) : nat :=
  length (filter (fun r => r = PyNone) results).

(** Truth value of a string or [None] ([if x:]). *)
Definition truthy (x : option string) : bool :=
  match x with
  | Some s => negb (String.eqb s "")
  | None => false
  end.

(** [x or default] on a string or [None]. *)
Definition py_or (x : option string) (default : string) : string :=
  match x with
  | Some s => if String.eqb s "" then default else s
  | None => default
  end.

(** The double quote, for the messages that hold one. *)
Definition dquote : string := String (ascii_of_nat 34) EmptyString.

(** [s[1:]] *)
Definition py_tail (s : string) : string :=
  match s with
  | EmptyString => EmptyString
  | String _ t => t
  end.

Definition ascii_lower (c : ascii) : ascii :=
  let n := nat_of_ascii c in
  if (Nat.leb 65 n && Nat.leb n 90)%bool then ascii_of_nat (n + 32) else c.

(** [s.lower()] on a byte string. *)
Fixpoint py_lower (s : string) : string :=
  match s with
  | EmptyString => EmptyString
  | String c t => String (ascii_lower c) (py_lower t)
  end.

(** [s.startswith(p)] *)
Definition py_startswith (s p : string) : bool := String.prefix p s.

(** [s.endswith('/')] *)
Fixpoint ends_with_slash (s : string) : bool :=
  match s with
  | EmptyString => false
  | String c EmptyString => Ascii.eqb c "/"
  | String _ t => ends_with_slash t
  end.

(** [a < b] on strings: lexicographic on the character codes. *)
Definition py_str_lt (a b : string) : bool := String.ltb a b.

(** [posixpath.join(a, *p)] *)
Fixpoint os_path_join (a : string) (p : list string) : string :=
  match p with
  | [] => a
  | b :: p' =>
      if py_startswith b "/" then os_path_join b p'
      else if (String.eqb a "" || ends_with_slash a)%bool
           then os_path_join (a +:+ b) p'
           else os_path_join (a +:+ "/" +:+ b) p'
  end.

(** Decimal digits, as [int] reads them. *)
Definition digit_of (c : ascii) : option Z :=
  let n := nat_of_ascii c in
  if (Nat.leb 48 n && Nat.leb n 57)%bool then Some (Z.of_nat (n - 48)) else None.

Fixpoint digits_value (acc : Z) (s : string) : option Z :=
  match s with
  | EmptyString => Some acc
  | String c t =>
      match digit_of c with
      | Some d => digits_value (10 * acc + d) t
      | None => None
      end
  end.

Definition is_space (c : ascii) : bool :=
  let n := nat_of_ascii c in
  (Nat.eqb n 32 || (Nat.leb 9 n && Nat.leb n 13))%bool.

Fixpoint lstrip (s : string) : string :=
  match s with
  | String c t => if is_space c then lstrip t else s
  | EmptyString => EmptyString
  end.

Fixpoint rstrip (s : string) : string :=
  match s with
  | EmptyString => EmptyString
  | String c t =>
      match rstrip t with
      | EmptyString => if is_space c then EmptyString else String c EmptyString
      | t' => String c t'
      end
  end.

(** [int(s)] in base ten: surrounding white space, an optional sign, then at
    least one digit; [None] stands for [ValueError]. *)
Definition py_int (s : string) : option Z :=
  match rstrip (lstrip s) with
  | EmptyString => None
  | String c t =>
      if Ascii.eqb c "-" then
        match t with
        | EmptyString => None
        | _ => Z.opp <$> digits_value 0 t
        end
      else if Ascii.eqb c "+" then
        match t with
        | EmptyString => None
        | _ => digits_value 0 t
        end
      else digits_value 0 (String c t)
  end.

(** ** Exceptions and the worker monad *)

(** Python's hierarchy, cut to what a worker can meet: [KeyboardInterrupt]
    derives from [BaseException] only, everything in [E] derives from
    [Exception]. *)
Inductive BaseException (E : Type) :=
  | KeyboardInterrupt
  | Exception (e : E).
Arguments KeyboardInterrupt {E}.
Arguments Exception {E} e.

(** Outcome of a call: an exception in flight, or a value. *)
Definition res (E A : Type) : Type := BaseException E + A.

(** State-and-exception monad: the state survives a raise, as the mutations
    of a shared Python object do. *)
Definition M (E S A : Type) : Type := S -> S * res E A.

Section Monad.
Context {E S : Type}.

Definition ret {A} (a : A) : M E S A := fun s => (s, inr a).

Definition bind {A B} (m : M E S A) (k : A -> M E S B) : M E S B :=
  fun s =>
    match m s with
    | (s', inl e) => (s', inl e)
    | (s', inr a) => k a s'
    end.

Definition raise {A} (e : E) : M E S A := fun s => (s, inl (Exception e)).

(** A collaborator's result enters the monad. *)
Definition call {A} (r : res E A) : M E S A := fun s => (s, r).

Definition get : M E S S := fun s => (s, inr s).

Definition modify (f : S -> S) : M E S unit := fun s => (f s, inr tt).

(** [for x in l: body(x)] *)
Fixpoint for_ {A} (l : list A) (body : A -> M E S unit) : M E S unit :=
  match l with
  | [] => ret tt
  | x :: l' => bind (body x) (fun _ => for_ l' body)
  end.

(** [try: body / except KeyboardInterrupt: on_interrupt; raise /
    except Exception as e: on_error(e); return None / finally: final] *)
Definition try_worker (body : M E S pyresult)
    (on_interrupt : S -> S) (on_error : E -> S -> S) (final : S -> S)
  : M E S pyresult :=
  fun s =>
    match body s with
    | (s', inl KeyboardInterrupt) => (final (on_interrupt s'), inl KeyboardInterrupt)
    | (s', inl (Exception e)) => (final (on_error e s'), inr PyNone)
    | (s', inr v) => (final s', inr v)
    end.
End Monad.

Notation "'let*' x ':=' m 'in' k" := (bind m (fun x => k))
  (at level 10, x binder, k at level 200).
Notation "'do' m 'in' k" := (bind m (fun _ => k))
  (at level 10, k at level 200).

(** ** constants.py *)

Definition LINK_SEPARATOR : string := " --> ".

Definition CONTROLLED_ARGS : list string :=
  ["directory"; "set_values"; "set_keys"; "mode"; "version"; "root";
   "no_checksum"; "checksums_from"; "upgrade_from_latest";
   "ignore_from_latest"; "ignore_from_incoming"].

(** [TREE_FILE = '/tmp/DRSTree_{}.pkl'.format(environ['USER'])] *)
Definition TREE_FILE (user : string) : string :=
  "/tmp/DRSTree_" +:+ user +:+ ".pkl".

(** ** main.py *)

Module main.

(** The exceptions [process] meets: the two of [custom_exceptions] it
    raises itself, those of the statements it runs, and any other
    [Exception] a collaborator raises. *)
Inductive exception :=
  | OlderUpgrade (current : string) (latest : option string)
  | DuplicatedFile (latest_file ffp : string)
  | AssertionError (msg : string)
  | ValueError
  | StopIteration
  | Raised (name : string).

(** The file handler [File(ffp)] of [handler], as far as [process] reads
    it. *)
Record File := {
  ffp : string;
  filename : string;
  size : Z }.

(** Keyword arguments of [DRSPath.items] and [DRSPath.path], as written at
    the call site. *)
Definition kwargs : Type := list (string * bool).

(** The path handler [DRSPath(parts)] of [handler]: what its methods and
    attributes return for this file. *)
Record DRSPath := {
  items : kwargs -> list string;
  path : kwargs -> string;
  v_latest : option string;
  v_upgrade : string }.

(** A [create_leaf] request. *)
Record DRSLeaf := {
  nodes : list string;
  leaf : string;
  label : string;
  src : string;
  mode : string;
  origin : option string }.

(** The entry recorded for [list()]. *)
Record incoming := {
  in_src : string;
  in_dst : string;
  in_filename : string;
  in_latest : string;
  in_size : Z }.

(** The shared tree.  [leaves] is the queue of [create_leaf] requests in
    call order (the tree class itself is in [handler]); [hash] is
    [tree.hash[dset_nid]['latest'][filename]]. *)
Record DRSTree := {
  leaves : list DRSLeaf;
  duplicates : list string;
  paths : gmap string (list incoming);
  hash : gmap string (gmap string (gmap string string));
  commands_file : option string }.

Inductive log_record :=
  | LogInfo (drs_path file : string)
  | LogError (ffp : string) (e : exception).

(** What a worker mutates: the tree, the progress bar ([None] when the run
    has none) and the log. *)
Record State := {
  tree : DRSTree;
  pbar : option nat;
  log : list log_record }.

(** The process context [cctx], restricted to what [process] itself
    branches on; the other entries are only handed to collaborators. *)
Record ProcessContext := {
  ignore_from_incoming : list string;
  project : string;
  no_checksum : bool;
  checksum_type : string;
  cctx_mode : string;
  upgrade_from_latest : bool;
  ignore_from_latest : list string }.

(** Collaborators of [process]: the methods of the file handler
    ([get_drs_parts] stands for [fh.get_drs_parts(cctx.facets)] followed by
    [DRSPath(parts)]), the class attribute [DRSPath.TREE_VERSION], [checksum]
    of [esgprep.utils.misc] and the calls of [os]. *)
Record Env := {
  File_attributes : string -> res exception (string * Z);
  load_attributes : File -> res exception unit;
  check_facets : File -> res exception unit;
  get_drs_parts : File -> res exception DRSPath;
  TREE_VERSION : string;
  checksum : string -> string -> res exception string;
  os_walk : string -> list (string * list string);
  os_path_exists : string -> bool;
  os_readlink : string -> res exception string;
  os_path_realpath : string -> string }.

Definition with_tree (f : DRSTree -> DRSTree) (s : State) : State :=
  {| tree := f (tree s); pbar := pbar s; log := log s |}.

(** [cctx.tree.create_leaf(...)] *)
Definition create_leaf (l : DRSLeaf) : M exception State unit :=
  modify (with_tree (fun t =>
    {| leaves := leaves t ++ [l]; duplicates := duplicates t;
       paths := paths t; hash := hash t; commands_file := commands_file t |})).

(** [cctx.tree.duplicates.append(x)] *)
Definition duplicates_append (x : string) : M exception State unit :=
  modify (with_tree (fun t =>
    {| leaves := leaves t; duplicates := duplicates t ++ [x];
       paths := paths t; hash := hash t; commands_file := commands_file t |})).

Definition set_hash (f : gmap string (gmap string (gmap string string)) ->
                         gmap string (gmap string (gmap string string)))
  : M exception State unit :=
  modify (with_tree (fun t =>
    {| leaves := leaves t; duplicates := duplicates t;
       paths := paths t; hash := f (hash t); commands_file := commands_file t |})).

Definition set_paths (f : gmap string (list incoming) -> gmap string (list incoming))
  : M exception State unit :=
  modify (with_tree (fun t =>
    {| leaves := leaves t; duplicates := duplicates t;
       paths := f (paths t); hash := hash t; commands_file := commands_file t |})).

Definition logging (r : log_record) (s : State) : State :=
  {| tree := tree s; pbar := pbar s; log := log s ++ [r] |}.

(** [if cctx.pbar: cctx.pbar.update()] *)
Definition pbar_update (s : State) : State :=
  {| tree := tree s; pbar := (fun n => S n) <$> pbar s; log := log s |}.

(** [int(v[1:])] *)
Definition int_of_version (v : string) : M exception State Z :=
  match py_int (py_tail v) with
  | Some n => ret n
  | None => raise ValueError
  end.

(** [os.path.join] applied to the list [src]; every call site passes at
    least the file name. *)
Definition join_all (l : list string) : string :=
  match l with
  | [] => ""
  | a :: p => os_path_join a p
  end.

Section process.
Variable env : Env.
Variable cctx : ProcessContext.

(** [File(ffp)]: the handler keeps the path it is given and reads the file
    name and the size. *)
Definition new_File (ffp : string) : M exception State File :=
  let* '(name, sz) := call (File_attributes env ffp) in
  ret {| ffp := ffp; filename := name; size := sz |}.

(** Lines 65-67: the latest version should be older than the upgrade
    version. *)
Definition version_check (fph : DRSPath) : M exception State unit :=
  let* upgrade := int_of_version (TREE_VERSION env) in
  let* latest := int_of_version (default "" (v_latest fph)) in
  if upgrade <=? latest
  then raise (OlderUpgrade (TREE_VERSION env) (v_latest fph))
  else ret tt.

(** Lines 68-77: the checksums of the latest dataset version, computed once
    per dataset. *)
Definition hash_latest (fph : DRSPath) : M exception State unit :=
  if no_checksum cctx then ret tt
  else
    let dset_nid := path fph [("f_part", false); ("latest", true); ("root", true)] in
    let* s := get in
    if bool_decide (is_Some (hash (tree s) !! dset_nid)) then ret tt
    else
      do set_hash (fun h => <[dset_nid := {["latest" := ∅]}]> h) in
      for_ (os_walk env (path fph [("f_part", false); ("latest", true); ("root", true)]))
        (fun '(root, filenames) =>
           for_ filenames (fun filename =>
             let* c := call (checksum env (os_path_join root [filename])
                                      (checksum_type cctx)) in
             set_hash (alter (alter (fun d => <[filename := c]> d) "latest")
                             dset_nid))).

(** Lines 78-86: the file against the one of the same name in the latest
    version; the result is [fh.is_duplicate]. *)
Definition compare_latest (fh : File) (fph : DRSPath) : M exception State bool :=
  let latest_file :=
    os_path_join (path fph [("latest", true); ("root", true)]) [filename fh] in
  if os_path_exists env latest_file then
    let* latest_checksum := call (checksum env latest_file (checksum_type cctx)) in
    let* current_checksum := call (checksum env (ffp fh) (checksum_type cctx)) in
    ret (bool_decide (latest_checksum = current_checksum))
  else ret false.

(** Lines 64-86: the checks made when a latest version exists. *)
Definition check_latest (fh : File) (fph : DRSPath) : M exception State bool :=
  if truthy (v_latest fph) then
    do version_check fph in
    do hash_latest fph in
    compare_latest fh fph
  else ret false.

(** Lines 89-110: the three leaves of a file that is no duplicate. *)
Definition version_leaf (fh : File) (fph : DRSPath) : DRSLeaf :=
  let src := repeat ".." (length (items fph [("d_part", false)]))
             ++ items fph [("d_part", false); ("file_folder", true)]
             ++ [filename fh] in
  {| nodes := items fph [("root", true)];
     leaf := filename fh;
     label := filename fh +:+ LINK_SEPARATOR +:+ join_all src;
     src := join_all src;
     mode := "symlink";
     origin := Some (ffp fh) |}.

Definition latest_leaf (fph : DRSPath) : DRSLeaf :=
  {| nodes := items fph [("f_part", false); ("version", false); ("root", true)];
     leaf := "latest";
     label := "latest" +:+ LINK_SEPARATOR +:+ v_upgrade fph;
     src := v_upgrade fph;
     mode := "symlink";
     origin := None |}.

Definition files_leaf (fh : File) (fph : DRSPath) : DRSLeaf :=
  {| nodes := items fph [("file_folder", true); ("root", true)];
     leaf := filename fh;
     label := filename fh;
     src := ffp fh;
     mode := cctx_mode cctx;
     origin := None |}.

(** Lines 111-126: the leaves copied from the latest version. *)
Definition upgrade_leaves (fh : File) (fph : DRSPath) : M exception State unit :=
  for_ (os_walk env (path fph [("f_part", false); ("latest", true); ("root", true)]))
    (fun '(root, filenames) =>
       for_ filenames (fun name =>
         if (negb (bool_decide (name = filename fh))
             && negb (bool_decide (name ∈ ignore_from_latest cctx)))%bool
         then
           let src := os_path_join root [name] in
           let* target := call (os_readlink env src) in
           let* target' := call (os_readlink env src) in
           create_leaf {| nodes := items fph [("root", true)];
                          leaf := name;
                          label := name +:+ LINK_SEPARATOR +:+ target;
                          src := target';
                          mode := "symlink";
                          origin := Some (os_path_realpath env src) |}
         else ret tt)).

(** Lines 127-148: a duplicate. *)
Definition duplicate_leaf (fh : File) (fph : DRSPath) : M exception State unit :=
  let latest_file :=
    os_path_join (path fph [("latest", true); ("root", true)]) [filename fh] in
  if upgrade_from_latest cctx
  then raise (DuplicatedFile latest_file (ffp fh))
  else
    let* src := call (os_readlink env latest_file) in
    do create_leaf {| nodes := items fph [("root", true)];
                      leaf := filename fh;
                      label := filename fh +:+ LINK_SEPARATOR +:+ src;
                      src := src;
                      mode := "symlink";
                      origin := Some (ffp fh) |} in
    if String.eqb (cctx_mode cctx) "move"
    then duplicates_append (ffp fh)
    else ret tt.

(** Lines 150-158. *)
Definition record_incoming (fh : File) (fph : DRSPath) : M exception State unit :=
  let incoming := {| in_src := ffp fh;
                     in_dst := path fph [("root", true)];
                     in_filename := filename fh;
                     in_latest := py_or (v_latest fph) "Initial";
                     in_size := size fh |} in
  let key := path fph [("f_part", false)] in
  set_paths (fun p =>
    match p !! key with
    | Some l => <[key := l ++ [incoming]]> p
    | None => <[key := [incoming]]> p
    end).

(** The body of the [try] block, lines 42-160. *)
Definition process_body (ffp : string) : M exception State pyresult :=
  let* fh := new_File ffp in
  if bool_decide (filename fh ∈ ignore_from_incoming cctx) then ret PyFalse
  else
    do call (load_attributes env fh) in
    do call (check_facets env fh) in
    let* fph := call (get_drs_parts env fh) in
    do (if py_startswith (py_lower (path fph [])) (py_lower (project cctx))
        then ret tt
        else raise (AssertionError
               ("Inconsistent DRS path. Must start with " +:+ dquote
                +:+ project cctx +:+ "/" +:+ dquote +:+ " (case-insensitive)"))) in
    let* is_duplicate := check_latest fh fph in
    do (if negb is_duplicate then
          do create_leaf (version_leaf fh fph) in
          do create_leaf (latest_leaf fph) in
          do create_leaf (files_leaf fh fph) in
          if upgrade_from_latest cctx then upgrade_leaves fh fph else ret tt
        else duplicate_leaf fh fph) in
    do record_incoming fh fph in
    do modify (logging (LogInfo (path fph [("f_part", false)]) (filename fh))) in
    ret PyTrue.

(** [process(ffp)] *)
Definition process (ffp : string) : M exception State pyresult :=
  try_worker (process_body ffp)
    (fun s => s)
    (fun e s => logging (LogError ffp e) s)
    pbar_update.
End process.

(** *** run *)

(** Values of command-line arguments. *)
Inductive pyval :=
  | VNone
  | VBool (b : bool)
  | VStr (s : string)
  | VList (l : list string).

(** The objects [store] pickles, one after the other. *)
Inductive pickled :=
  | PArgs (snapshot : list (string * pyval))
  | PTree (t : DRSTree)
  | PLog (l : pyval)
  | PResults (r : list pyresult).

(** The processing context [ctx] as [run] reads it: [getattribute] is
    [ctx.__getattribute__], [process_vars] the entries named by
    [PROCESS_VARS]. *)
Record ProcessingContext := {
  use_pool : bool;
  scan : bool;
  sources : list string;
  ctx_commands_file : option string;
  ctx_no_checksum : bool;
  ctx_checksum_type : string;
  action : string;
  getattribute : string -> pyval;
  process_vars : ProcessContext }.

(** Collaborators of [run]: the process manager, [evaluate] of
    [esgprep.utils.misc], the tree methods called in the action phase and
    the invoking user. *)
Record RunEnv := {
  USER : string;
  manager_tree : DRSTree;
  manager_pbar : option nat;
  evaluate : list pyresult -> bool;
  check_uniqueness : DRSTree -> string -> res exception DRSTree;
  get_display_lengths : DRSTree -> DRSTree }.

(** What [run] mutates: the files written by [store], the attributes it
    sets on [ctx], the state shared with the workers, and the tree actions
    invoked, each with the tree it ran on. *)
Record World := {
  files : gmap string (list pickled);
  scan_files : nat;
  scan_errors : nat;
  scan_err_log : pyval;
  shared : State;
  invoked : list (string * DRSTree) }.

Definition with_shared (f : State -> State) (w : World) : World :=
  {| files := files w; scan_files := scan_files w; scan_errors := scan_errors w;
     scan_err_log := scan_err_log w; shared := f (shared w); invoked := invoked w |}.

(** A worker step inside [run]. *)
Definition lift {A} (m : M exception State A) : M exception World A :=
  fun w => let '(s, r) := m (shared w) in (with_shared (fun _ => s) w, r).

(** [store(path, data=...)]: one pickle per element, the file is
    overwritten. *)
Definition store (path : string) (data : list pickled) : M exception World unit :=
  modify (fun w =>
    {| files := <[path := data]> (files w); scan_files := scan_files w;
       scan_errors := scan_errors w; scan_err_log := scan_err_log w;
       shared := shared w; invoked := invoked w |}).

(** [load(path)]: the reader over the pickles of the file. *)
Definition load (path : string) : M exception World (list pickled) :=
  let* w := get in
  match files w !! path with
  | Some data => ret data
  | None => raise (Raised "IOError")
  end.

(** [reader.next()] *)
Definition next (reader : list pickled) : M exception World (pickled * list pickled) :=
  match reader with
  | x :: reader' => ret (x, reader')
  | [] => raise StopIteration
  end.

Definition set_tree (t : DRSTree) : M exception World unit :=
  modify (with_shared (fun s => {| tree := t; pbar := pbar s; log := log s |})).

Definition set_commands_file (c : option string) (t : DRSTree) : DRSTree :=
  {| leaves := leaves t; duplicates := duplicates t; paths := paths t;
     hash := hash t; commands_file := c |}.

Definition invoke (name : string) : M exception World unit :=
  modify (fun w =>
    {| files := files w; scan_files := scan_files w;
       scan_errors := scan_errors w; scan_err_log := scan_err_log w;
       shared := shared w; invoked := invoked w ++ [(name, tree (shared w))] |}).

Section run.
Variable env : Env.
Variable renv : RunEnv.

(** [results = [x for x in itertools.imap(process, ctx.sources)]]: the
    worker runs on a source when its result is asked for, so a source that
    raises keeps the later ones from being processed. *)
Fixpoint scan_sources (cctx : ProcessContext) (l : list string)
  : M exception State (list pyresult) :=
  match l with
  | [] => ret []
  | ffp :: l' =>
      let* x := process env cctx ffp in
      let* xs := scan_sources cctx l' in
      ret (x :: xs)
  end.

(** [pool.imap(process, ctx.sources)], [pool.close()], [pool.join()]: every
    source is dispatched and the pool is joined before a result is read, so
    a worker that raises does not keep the later sources from being
    processed.  The outcome of each worker is kept in the order of the
    sources; the workers are taken to touch the shared tree in that order
    too, how a pool interleaves them is not modelled. *)
Fixpoint pool_imap (cctx : ProcessContext) (l : list string) (s : State)
  : State * list (res exception pyresult) :=
  match l with
  | [] => (s, [])
  | ffp :: l' =>
      let '(s1, x) := process env cctx ffp s in
      let '(s2, xs) := pool_imap cctx l' s1 in
      (s2, x :: xs)
  end.

(** [[x for x in processes]] over the outcomes of a pool: reading the
    outcome of a worker that raised raises it again. *)
Fixpoint read_results (outcomes : list (res exception pyresult))
  : res exception (list pyresult) :=
  match outcomes with
  | [] => inr []
  | inl e :: _ => inl e
  | inr x :: outcomes' =>
      match read_results outcomes' with
      | inl e => inl e
      | inr xs => inr (x :: xs)
      end
  end.

(** Lines 221-226 and 231. *)
Definition pool_sources (cctx : ProcessContext) (l : list string)
  : M exception State (list pyresult) :=
  fun s => let '(s1, outcomes) := pool_imap cctx l s in (s1, read_results outcomes).

(** The checkpoint list of lines 240-243. *)
Definition checkpoint (ctx : ProcessingContext) (w : World) (results : list pyresult)
  : list pickled :=
  [PArgs (map (fun key => (key, getattribute ctx key)) CONTROLLED_ARGS);
   PTree (tree (shared w));
   PLog (scan_err_log w);
   PResults results].

(** Lines 210-234: the results, read back from the checkpoint or produced
    by a scan, with or without a pool.  Closing the progress bar is left
    out. *)
Definition gather (ctx : ProcessingContext) : M exception World (list pyresult) :=
  if negb (scan ctx) then
    let* reader := load (TREE_FILE (USER renv)) in
    let* '(_, reader) := next reader in
    let* '(t, reader) := next reader in
    let* '(l, reader) := next reader in
    let* '(r, reader) := next reader in
    match t, l, r with
    | PTree t, PLog l, PResults r =>
        do modify (fun w =>
             {| files := files w; scan_files := scan_files w;
                scan_errors := scan_errors w; scan_err_log := l;
                shared := shared w; invoked := invoked w |}) in
        do set_tree (set_commands_file (ctx_commands_file ctx) t) in
        ret r
    | _, _, _ => raise (Raised "AttributeError")
    end
  else if use_pool ctx then
    lift (pool_sources (process_vars ctx) (sources ctx))
  else
    lift (scan_sources (process_vars ctx) (sources ctx)).

(** Lines 236-252: the counts, the checkpoint and the gated action. *)
Definition conclude (ctx : ProcessingContext) (results : list pyresult)
  : M exception World unit :=
  do modify (fun w =>
       {| files := files w; scan_files := length results;
          scan_errors := count_None results; scan_err_log := scan_err_log w;
          shared := shared w; invoked := invoked w |}) in
  let* w := get in
  do store (TREE_FILE (USER renv)) (checkpoint ctx w results) in
  if evaluate renv results then
    do (if negb (ctx_no_checksum ctx) then
          let* w := get in
          let* t := call (check_uniqueness renv (tree (shared w)) (ctx_checksum_type ctx)) in
          set_tree t
        else ret tt) in
    do (let* w := get in set_tree (get_display_lengths renv (tree (shared w)))) in
    invoke (action ctx)
  else ret tt.

(** Lines 200-209: the manager hands out a fresh tree and progress bar. *)
Definition start (w : World) : World :=
  with_shared (fun _ =>
    {| tree := manager_tree renv; pbar := manager_pbar renv; log := [] |}) w.

(** [run(args)], from the processing context on. *)
Definition run (ctx : ProcessingContext) : M exception World unit :=
  do modify start in
  let* results := gather ctx in
  conclude ctx results.
End run.

End main.

(** ** make.py *)

Module make.

(** A [pathlib] path, as the tuple of its parts; an absolute path starts
    with the part ["/"]. *)
Definition Path : Type := list string.

Definition is_absolute (p : Path) : bool :=
  match p with
  | root :: _ => String.eqb root "/"
  | [] => false
  end.

(** [Path(a, b)]: an absolute [b] replaces [a]. *)
Definition joinpath (a b : Path) : Path :=
  if is_absolute b then b else a ++ b.

(** [p.name] *)
Definition name (p : Path) : string :=
  match p with
  | [] => ""
  | [root] => if is_absolute p then "" else root
  | _ => List.last p ""
  end.

(** [p.parent] *)
Definition parent (p : Path) : Path :=
  match p with
  | [root] => if is_absolute p then p else []
  | _ => removelast p
  end.

(** [str(p)] *)
Definition str (p : Path) : string :=
  match p with
  | [] => "."
  | root :: rest =>
      if is_absolute p then "/" +:+ String.concat "/" rest
      else String.concat "/" p
  end.

(** The path of a file name, which holds no separator. *)
Definition of_name (n : string) : Path :=
  if String.eqb n "" then [] else [n].

Inductive exception :=
  | OlderUpgrade (current_version latest_version : string)
  | UnchangedTrackingID (latest_path : Path) (latest_tracking_id : option string)
                        (current_path : Path) (current_tracking_id : option string)
  | DuplicatedFile (latest_path : option Path) (source : Path)
  | AssertionError
  | AttributeError (msg : string)
  | TypeError
  | Raised (name : string).

(** The [src] of a leaf is a string or a path. *)
Inductive leaf_src :=
  | SrcStr (s : string)
  | SrcPath (p : Path).

(** A [create_leaf] request; [force] is [False] unless given. *)
Record DRSLeaf := {
  nodes : list string;
  label : string;
  src : leaf_src;
  mode : string;
  force : bool }.

(** The entry recorded for [list()] and the uniqueness checkup. *)
Record record := {
  rec_src : Path;
  rec_dst : Path;
  rec_is_duplicate : bool }.

(** [tree.paths[key]] *)
Record entry := {
  files : list record;
  latest : string }.

(** The shared tree; [leaves] is the queue of [create_leaf] requests in call
    order. *)
Record DRSTree := {
  leaves : list DRSLeaf;
  duplicates : list Path;
  paths : gmap string entry;
  drs_version : string }.

(** What a worker mutates: the tree and the two shared counters.  The
    printing and the message length, which only serve the display, are left
    out. *)
Record State := {
  tree : DRSTree;
  errors : nat;
  progress : nat }.

(** The attributes [Process.__init__] copies from the context, as far as
    [__call__] itself branches on them. *)
Record Process := {
  root : Path;
  no_checksum : bool;
  checksum_type : string;
  checksums_from : option string;
  self_mode : string;
  upgrade_from_latest : bool;
  ignore_from_latest : list string;
  ignore_from_incoming : list string }.

(** Collaborators of [__call__]: [esgprep._utils] and the filesystem. *)
Record Env := {
  get_ncattrs : Path -> res exception (gmap string string);
  drs_path : gmap string string -> res exception (option Path);
  with_latest_version : Path -> res exception (option Path);
  exists_ : Path -> bool;
  get_version : Path -> string;
  get_tracking_id : gmap string string -> option string;
  st_size : Path -> res exception Z;
  get_checksum : Path -> string -> option string -> res exception string;
  os_walk : Path -> list (string * list string);
  os_readlink : Path -> res exception string;
  get_drs_down : Path -> Path;
  get_drs_up : Path -> Path;
  with_file_folder : Path -> Path;
  dataset_path : Path -> Path }.

Definition with_tree (f : DRSTree -> DRSTree) (s : State) : State :=
  {| tree := f (tree s); errors := errors s; progress := progress s |}.

(** [self.tree.create_leaf(...)] *)
Definition create_leaf (l : DRSLeaf) : M exception State unit :=
  modify (with_tree (fun t =>
    {| leaves := leaves t ++ [l]; duplicates := duplicates t;
       paths := paths t; drs_version := drs_version t |})).

(** [self.tree.duplicates.append(x)] *)
Definition duplicates_append (x : Path) : M exception State unit :=
  modify (with_tree (fun t =>
    {| leaves := leaves t; duplicates := duplicates t ++ [x];
       paths := paths t; drs_version := drs_version t |})).

Definition set_paths (f : gmap string entry -> gmap string entry)
  : M exception State unit :=
  modify (with_tree (fun t =>
    {| leaves := leaves t; duplicates := duplicates t;
       paths := f (paths t); drs_version := drs_version t |})).

(** [self.errors.value += 1] *)
Definition errors_incr (s : State) : State :=
  {| tree := tree s; errors := S (errors s); progress := progress s |}.

(** [self.progress.value += 1] *)
Definition progress_incr (s : State) : State :=
  {| tree := tree s; errors := errors s; progress := S (progress s) |}.

(** [os.path.join] applied to a list that holds at least ['files']. *)
Definition join_all (l : list string) : string :=
  match l with
  | [] => ""
  | a :: p => os_path_join a p
  end.

Section Process.
Variable env : Env.
Variable self : Process.

(** [latest_path and latest_path.exists()] *)
Definition latest_exists (latest_path : option Path) : bool :=
  match latest_path with
  | Some p => exists_ env p
  | None => false
  end.

(** Lines 140-181: the checks against the latest version of the file; the
    result is [(latest_version, is_duplicate)]. *)
Definition check_latest (current_attrs : gmap string string)
    (current_path : Path) (latest_path : option Path)
  : M exception State (string * bool) :=
  match latest_path with
  | Some lp =>
      if exists_ env lp then
        let current_version := get_version env current_path in
        let latest_version := get_version env lp in
        if py_str_lt latest_version current_version
        then raise (OlderUpgrade current_version latest_version)
        else
          let* latest_attrs := call (get_ncattrs env lp) in
          let current_tracking_id := get_tracking_id env current_attrs in
          let latest_tracking_id := get_tracking_id env latest_attrs in
          if bool_decide (current_tracking_id = latest_tracking_id) then
            let* current_size := call (st_size env current_path) in
            let* latest_size := call (st_size env lp) in
            if ((current_size =? latest_size) && negb (no_checksum self))%bool then
              let* current_checksum :=
                call (get_checksum env current_path (checksum_type self)
                                   (checksums_from self)) in
              let* latest_checksum :=
                call (get_checksum env lp (checksum_type self) (checksums_from self)) in
              if bool_decide (current_checksum = latest_checksum)
              then ret (latest_version, true)
              else if (truthy current_tracking_id && truthy latest_tracking_id)%bool
              then raise (UnchangedTrackingID lp latest_tracking_id
                                              current_path current_tracking_id)
              else ret (latest_version, false)
            else if (truthy current_tracking_id && truthy latest_tracking_id)%bool
            then raise (UnchangedTrackingID lp latest_tracking_id
                                            current_path current_tracking_id)
            else ret (latest_version, false)
          else ret (latest_version, false)
      else ret ("Initial", false)
  | None => ret ("Initial", false)
  end.

(** Lines 189-211: the three leaves of a file that is no duplicate. *)
Definition version_leaf (current_path : Path) : DRSLeaf :=
  let src := repeat ".." (length (get_drs_down env current_path))
             ++ ["files"]
             ++ get_drs_down env (with_file_folder env current_path) in
  {| nodes := current_path;
     label := name current_path +:+ LINK_SEPARATOR +:+ join_all src;
     src := SrcStr (join_all src);
     mode := "symlink";
     force := true |}.

Definition latest_leaf (t : DRSTree) (current_path : Path) : DRSLeaf :=
  {| nodes := parent (dataset_path env current_path) ++ ["latest"];
     label := "latest" +:+ LINK_SEPARATOR +:+ drs_version t;
     src := SrcStr (drs_version t);
     mode := "symlink";
     force := false |}.

Definition files_leaf (current_path : Path) : DRSLeaf :=
  {| nodes := with_file_folder env current_path;
     label := name current_path;
     src := SrcPath current_path;
     mode := self_mode self;
     force := false |}.

(** Lines 213-232: the walk through the latest version.  [parts] is a
    tuple, which has no [append]: the [nodes] argument of the first leaf to
    copy raises [AttributeError] before any other argument is evaluated. *)
Definition upgrade_leaves (current_path : Path) (latest_path : option Path)
  : M exception State unit :=
  match latest_path with
  | Some lp =>
      if (exists_ env lp && upgrade_from_latest self)%bool then
        for_ (os_walk env lp)
          (fun '(root, filenames) =>
             for_ filenames (fun latest_name =>
               if (negb (bool_decide (latest_name = name current_path))
                   && negb (bool_decide (latest_name ∈ ignore_from_latest self)))%bool
               then raise (AttributeError "'tuple' object has no attribute 'append'")
               else ret tt))
      else ret tt
  | None => ret tt
  end.

(** Lines 236-255: a duplicate. *)
Definition duplicate_leaf (source current_path : Path) (latest_path : option Path)
  : M exception State unit :=
  if upgrade_from_latest self
  then raise (DuplicatedFile latest_path source)
  else
    let* src :=
      match latest_path with
      | Some lp => call (os_readlink env lp)
      | None => raise TypeError
      end in
    do create_leaf {| nodes := current_path;
                      label := name current_path +:+ LINK_SEPARATOR +:+ src;
                      src := SrcStr src;
                      mode := "symlink";
                      force := false |} in
    if String.eqb (self_mode self) "move"
    then duplicates_append source
    else ret tt.

(** Lines 257-268. *)
Definition record_entry (source current_path : Path) (is_duplicate : bool)
    (latest_version : string) : M exception State unit :=
  let record := {| rec_src := source; rec_dst := current_path;
                   rec_is_duplicate := is_duplicate |} in
  let key := str (parent (get_drs_up env current_path)) in
  let* s := get in
  match paths (tree s) !! key with
  | Some e =>
      do set_paths (fun p => <[key := {| files := files e ++ [record];
                                         latest := latest e |}]> p) in
      if String.eqb latest_version (latest e) then ret tt
      else raise AssertionError
  | None =>
      set_paths (fun p => <[key := {| files := [record];
                                      latest := latest_version |}]> p)
  end.

(** [Path(self.root, drs_path(...), source.name)] inside its own
    [try ... except TypeError]: [None] stands for the [return False]. *)
Definition build_path (current_attrs : gmap string string) (source : Path)
  : M exception State (option Path) :=
  fun s =>
    match drs_path env current_attrs with
    | inr (Some drs) => (s, inr (Some (joinpath (joinpath (root self) drs)
                                                (of_name (name source)))))
    | inr None => (s, inr None)
    | inl (Exception TypeError) => (s, inr None)
    | inl e => (s, inl e)
    end.

(** The body of the [try] block, lines 111-276. *)
Definition call_body (source : Path) : M exception State pyresult :=
  if bool_decide (name source ∈ ignore_from_incoming self) then ret PyNone
  else
    let* attrs := call (get_ncattrs env source) in
    let* s := get in
    let current_attrs :=
      <["dataset-version" := drs_version (tree s)]>
        (<["filename" := name source]> attrs) in
    let* built := build_path current_attrs source in
    match built with
    | None => ret PyFalse
    | Some current_path =>
        let* latest_path := call (with_latest_version env current_path) in
        let* '(latest_version, is_duplicate) :=
          check_latest current_attrs current_path latest_path in
        do (if negb is_duplicate then
              do create_leaf (version_leaf current_path) in
              do (let* s := get in create_leaf (latest_leaf (tree s) current_path)) in
              do create_leaf (files_leaf current_path) in
              upgrade_leaves current_path latest_path
            else duplicate_leaf source current_path latest_path) in
        do record_entry source current_path is_duplicate latest_version in
        ret PyTrue
    end.

(** [Process.__call__(source)] *)
Definition __call__ (source : Path) : M exception State pyresult :=
  try_worker (call_body source)
    errors_incr
    (fun _ s => errors_incr s)
    progress_incr.
End Process.

End make.


(** ** A dataset on disk, for the worked examples

    One project layout, [/data/CMIP6/tas/<version>/<file>], with the shared
    folder [/data/CMIP6/tas/files/d<stamp>/<file>]: the path helpers of
    [esgprep._utils.path] read the parts by position, the filesystem calls
    look the path up in a list of files. *)

Module example.

Record efile := {
  f_path : make.Path;
  f_tracking_id : option string;
  f_size : Z;
  f_digest : string }.

Definition lookup_file (disk : list efile) (p : make.Path) : option efile :=
  List.find (fun f => bool_decide (f_path f = p)) disk.

Definition io {A} (o : option A) : res make.exception A :=
  match o with
  | Some a => inr a
  | None => inl (Exception (make.Raised "FileNotFoundError"))
  end.

(** [os.walk(p)]: the file names right under [p]; nothing when [p] is no
    directory. *)
Definition walk (disk : list efile) (p : make.Path) : list (string * list string) :=
  match List.filter (fun f => bool_decide (make.parent (f_path f) = p)) disk with
  | [] => []
  | fs => [(make.str p, map (fun f => make.name (f_path f)) fs)]
  end.

Definition attrs_of (f : efile) : gmap string string :=
  match f_tracking_id f with
  | Some t => {["tracking_id" := t]}
  | None => ∅
  end.

(** The environment of [make.__call__] over a disk; [latest] is the
    version the [latest] link of the dataset points at. *)
Definition make_env (latest : option string) (disk : list efile) : make.Env :=
  {| make.get_ncattrs := fun p => io (attrs_of <$> lookup_file disk p);
     make.drs_path := fun attrs =>
       inr ((fun v => ["CMIP6"; "tas"; v]) <$> attrs !! "dataset-version");
     make.with_latest_version := fun p =>
       inr ((fun v => take 4 p ++ [v] ++ drop 5 p) <$> latest);
     make.exists_ := fun p => bool_decide (is_Some (lookup_file disk p));
     make.get_version := fun p => nth 4 p "";
     make.get_tracking_id := fun attrs => attrs !! "tracking_id";
     make.st_size := fun p => io (f_size <$> lookup_file disk p);
     make.get_checksum := fun p _ _ => io (f_digest <$> lookup_file disk p);
     make.os_walk := walk disk;
     make.os_readlink := fun p =>
       inr ("../files/d" +:+ py_tail (nth 4 p "") +:+ "/" +:+ make.name p);
     make.get_drs_down := fun p => drop 5 p;
     make.get_drs_up := fun p => take 5 p;
     make.with_file_folder := fun p =>
       take 4 p ++ ["files"; "d" +:+ py_tail (nth 4 p "")] ++ drop 5 p;
     make.dataset_path := fun p => take 5 p |}.

Definition make_self (no_checksum upgrade_from_latest : bool) (mode : string)
  : make.Process :=
  {| make.root := ["/"; "data"];
     make.no_checksum := no_checksum;
     make.checksum_type := "sha256";
     make.checksums_from := None;
     make.self_mode := mode;
     make.upgrade_from_latest := upgrade_from_latest;
     make.ignore_from_latest := [];
     make.ignore_from_incoming := [] |}.

(** The state before the first file of a run for [version]. *)
Definition make_start (version : string) : make.State :=
  {| make.tree := {| make.leaves := []; make.duplicates := [];
                     make.paths := ∅; make.drs_version := version |};
     make.errors := 0;
     make.progress := 0 |}.

Definition tas (version file : string) : make.Path :=
  ["/"; "data"; "CMIP6"; "tas"; version; file].

Definition incoming_file (file : string) : make.Path :=
  ["/"; "incoming"; file].

(** *** The same dataset for [main.process] *)

Record mfile := {
  m_dir : string;
  m_name : string;
  m_size : Z;
  m_digest : string;
  m_link : option string }.

Definition m_path (f : mfile) : string := os_path_join (m_dir f) [m_name f].

Definition lookup_mfile (disk : list mfile) (p : string) : option mfile :=
  List.find (fun f => String.eqb (m_path f) p) disk.

Definition mio {A} (err : string) (o : option A) : res main.exception A :=
  match o with
  | Some a => inr a
  | None => inl (Exception (main.Raised err))
  end.

Definition mwalk (disk : list mfile) (p : string) : list (string * list string) :=
  match List.filter (fun f => String.eqb (m_dir f) p) disk with
  | [] => []
  | fs => [(p, map m_name fs)]
  end.

(** A keyword argument, or its default. *)
Definition kw (args : main.kwargs) (name : string) (default : bool) : bool :=
  match List.find (fun a => String.eqb (fst a) name) args with
  | Some a => snd a
  | None => default
  end.

(** The path handler of a file of the dataset [CMIP6/tas] under [/data]. *)
Definition tas_items (latest : option string) (upgrade : string) (args : main.kwargs)
  : list string :=
  (if kw args "root" false then ["/data"] else [])
  ++ (if kw args "d_part" true then ["CMIP6"; "tas"] else [])
  ++ (if kw args "version" true then
        [if kw args "file_folder" false then "files"
         else if kw args "latest" false then default "" latest
         else upgrade]
      else [])
  ++ (if kw args "file_folder" false then ["d" +:+ py_tail upgrade] else []).

Definition tas_path (latest : option string) (upgrade : string) : main.DRSPath :=
  {| main.items := tas_items latest upgrade;
     main.path := fun args => main.join_all (tas_items latest upgrade args);
     main.v_latest := latest;
     main.v_upgrade := upgrade |}.

(** The environment of [main.process] over a disk. *)
Definition main_env (latest : option string) (upgrade : string) (disk : list mfile)
  : main.Env :=
  {| main.File_attributes := fun p =>
       mio "IOError" ((fun f => (m_name f, m_size f)) <$> lookup_mfile disk p);
     main.load_attributes := fun _ => inr tt;
     main.check_facets := fun _ => inr tt;
     main.get_drs_parts := fun _ => inr (tas_path latest upgrade);
     main.TREE_VERSION := upgrade;
     main.checksum := fun p _ => mio "ChecksumFail" (m_digest <$> lookup_mfile disk p);
     main.os_walk := mwalk disk;
     main.os_path_exists := fun p => bool_decide (is_Some (lookup_mfile disk p));
     main.os_readlink := fun p => mio "OSError" (lookup_mfile disk p ≫= m_link);
     main.os_path_realpath := fun p => p |}.

Definition main_cctx (no_checksum upgrade_from_latest : bool) (mode : string)
  : main.ProcessContext :=
  {| main.ignore_from_incoming := [];
     main.project := "cmip6";
     main.no_checksum := no_checksum;
     main.checksum_type := "sha256";
     main.cctx_mode := mode;
     main.upgrade_from_latest := upgrade_from_latest;
     main.ignore_from_latest := [] |}.

Definition main_start : main.State :=
  {| main.tree := {| main.leaves := []; main.duplicates := []; main.paths := ∅;
                     main.hash := ∅; main.commands_file := None |};
     main.pbar := None;
     main.log := [] |}.

(** Version v20200101 on disk, with [a.nc] and [b.nc] linked into the shared
    folder, and an incoming [a.nc] of the given digest. *)
Definition upgrade_disk (digest : string) : list mfile :=
  [{| m_dir := "/data/CMIP6/tas/v20200101"; m_name := "a.nc"; m_size := 10;
      m_digest := "aa"; m_link := Some "../files/d20200101/a.nc" |};
   {| m_dir := "/data/CMIP6/tas/v20200101"; m_name := "b.nc"; m_size := 20;
      m_digest := "bb"; m_link := Some "../files/d20200101/b.nc" |};
   {| m_dir := "/incoming"; m_name := "a.nc"; m_size := 10;
      m_digest := digest; m_link := None |}].

End example.

(** ** Vocabulary of the statements *)

Section main_vocabulary.
Import main.
Variable env : Env.
Variable cctx : ProcessContext.

(** The file resolves: the handler, the attributes, the facets and the DRS
    path are obtained, the file is not ignored and the path starts with the
    project; [process] then reaches the checks against the latest version. *)
Definition resolves (ffp : string) (fh : File) (fph : DRSPath) : Prop :=
  File_attributes env ffp = inr (filename fh, size fh)
  /\ main.ffp fh = ffp
  /\ (filename fh ∉ ignore_from_incoming cctx)
  /\ load_attributes env fh = inr tt
  /\ check_facets env fh = inr tt
  /\ get_drs_parts env fh = inr fph
  /\ py_startswith (py_lower (path fph [])) (py_lower (project cctx)) = true.

(** What [process] does from line 64 on. *)
Definition after_resolution (fh : File) (fph : DRSPath) : M exception State pyresult :=
  let* is_duplicate := check_latest env cctx fh fph in
  do (if negb is_duplicate then
        do create_leaf (version_leaf fh fph) in
        do create_leaf (latest_leaf fph) in
        do create_leaf (files_leaf cctx fh fph) in
        if upgrade_from_latest cctx then upgrade_leaves env cctx fh fph else ret tt
      else duplicate_leaf env cctx fh fph) in
  do record_incoming fh fph in
  do modify (logging (LogInfo (path fph [("f_part", false)]) (filename fh))) in
  ret PyTrue.

(** A leaf copied from the latest version: a symbolic link in the version
    folder. *)
Definition copied (fph : DRSPath) (l : DRSLeaf) : Prop :=
  nodes l = items fph [("root", true)] /\ mode l = "symlink".

(** The names of the latest version that the walk copies: all but the name
    of the processed file and the ignored ones. *)
Definition to_copy (fh : File) (filenames : list string) : list string :=
  List.filter (fun name => negb (bool_decide (name = filename fh))
                           && negb (bool_decide (name ∈ ignore_from_latest cctx)))%bool
              filenames.

(** The leaf that copies [name] of folder [root] into the version folder,
    when the link of that file can be read. *)
Definition copy_leaf (fph : DRSPath) (root name : string) : option DRSLeaf :=
  match os_readlink env (os_path_join root [name]) with
  | inr target =>
      Some {| nodes := items fph [("root", true)];
              leaf := name;
              label := name +:+ LINK_SEPARATOR +:+ target;
              src := target;
              mode := "symlink";
              origin := Some (os_path_realpath env (os_path_join root [name])) |}
  | inl _ => None
  end.

(** The leaves of a whole walk, folder after folder. *)
Definition copy_leaves (fh : File) (fph : DRSPath) : list (option DRSLeaf) :=
  flat_map (fun '(root, filenames) => map (copy_leaf fph root) (to_copy fh filenames))
    (os_walk env (path fph [("f_part", false); ("latest", true); ("root", true)])).

(** The state with more leaves queued. *)
Definition queued (ls : list DRSLeaf) (s : State) : State :=
  with_tree (fun t =>
    {| leaves := leaves t ++ ls; duplicates := duplicates t;
       paths := paths t; hash := hash t; commands_file := commands_file t |}) s.
End main_vocabulary.

Section make_vocabulary.
Import make.
Variable env : Env.
Variable self : Process.

(** The file resolves in state [s]: it is not ignored, its attributes are
    read, the directory structure is built and the latest version of the
    path is looked up. *)
Definition make_resolves (source : Path) (s : State)
    (current_attrs : gmap string string) (current_path : Path)
    (latest_path : option Path) : Prop :=
  (name source ∉ ignore_from_incoming self)
  /\ (exists attrs drs,
        get_ncattrs env source = inr attrs
        /\ current_attrs = <["dataset-version" := drs_version (tree s)]>
                             (<["filename" := name source]> attrs)
        /\ drs_path env current_attrs = inr (Some drs)
        /\ current_path = joinpath (joinpath (root self) drs) (of_name (name source)))
  /\ with_latest_version env current_path = inr latest_path.

(** What [__call__] does from line 146 on. *)
Definition make_after_resolution (source : Path)
    (current_attrs : gmap string string) (current_path : Path)
    (latest_path : option Path) : M exception State pyresult :=
  let* '(latest_version, is_duplicate) :=
    check_latest env self current_attrs current_path latest_path in
  do (if negb is_duplicate then
        do create_leaf (version_leaf env current_path) in
        do (let* s := get in create_leaf (latest_leaf env (tree s) current_path)) in
        do create_leaf (files_leaf env self current_path) in
        upgrade_leaves env self current_path latest_path
      else duplicate_leaf env self source current_path latest_path) in
  do record_entry env source current_path is_duplicate latest_version in
  ret PyTrue.
End make_vocabulary.

(** The dataset of the examples on the duplicate detector: [a.nc] resolves
    to v20200101 and the latest version, v20200102, holds a file [a.nc] of
    the given tracking ID, size and digest. *)
Definition two_versions (id : option string) (sz : Z) (digest : string)
  : list example.efile :=
  [{| example.f_path := example.tas "v20200101" "a.nc";
      example.f_tracking_id := Some "hdl:21.14100/1";
      example.f_size := 10; example.f_digest := "aa" |};
   {| example.f_path := example.tas "v20200102" "a.nc";
      example.f_tracking_id := id;
      example.f_size := sz; example.f_digest := digest |}].

Definition a_attrs : gmap string string := {["tracking_id" := "hdl:21.14100/1"]}.

(** The same dataset with the incoming [a.nc], a copy of the file of
    version v20200101. *)
Definition duplicate_disk : list example.efile :=
  two_versions (Some "hdl:21.14100/1") 10 "aa"
  ++ [{| example.f_path := example.incoming_file "a.nc";
         example.f_tracking_id := Some "hdl:21.14100/1";
         example.f_size := 10; example.f_digest := "aa" |}].

(** Version v20200101 of the dataset holds [a.nc] and [b.nc]; [file] comes
    in with a tracking ID of its own. *)
Definition latest_disk (file : string) : list example.efile :=
  [{| example.f_path := example.tas "v20200101" "a.nc";
      example.f_tracking_id := Some "hdl:21.14100/1";
      example.f_size := 10; example.f_digest := "aa" |};
   {| example.f_path := example.tas "v20200101" "b.nc";
      example.f_tracking_id := Some "hdl:21.14100/2";
      example.f_size := 20; example.f_digest := "bb" |};
   {| example.f_path := example.incoming_file file;
      example.f_tracking_id := Some "hdl:21.14100/3";
      example.f_size := 30; example.f_digest := "cc" |}].

(** An environment whose [os.walk] answers [w] for every path. *)
Definition with_os_walk (env : make.Env) (w : list (string * list string)) : make.Env :=
  {| make.get_ncattrs := make.get_ncattrs env;
     make.drs_path := make.drs_path env;
     make.with_latest_version := make.with_latest_version env;
     make.exists_ := make.exists_ env;
     make.get_version := make.get_version env;
     make.get_tracking_id := make.get_tracking_id env;
     make.st_size := make.st_size env;
     make.get_checksum := make.get_checksum env;
     make.os_walk := fun _ => w;
     make.os_readlink := make.os_readlink env;
     make.get_drs_down := make.get_drs_down env;
     make.get_drs_up := make.get_drs_up env;
     make.with_file_folder := make.with_file_folder env;
     make.dataset_path := make.dataset_path env |}.


Definition interrupted_main_env (env : main.Env) : main.Env :=
  {| main.File_attributes := main.File_attributes env;
     main.load_attributes := fun _ => inl KeyboardInterrupt;
     main.check_facets := main.check_facets env;
     main.get_drs_parts := main.get_drs_parts env;
     main.TREE_VERSION := main.TREE_VERSION env;
     main.checksum := main.checksum env;
     main.os_walk := main.os_walk env;
     main.os_path_exists := main.os_path_exists env;
     main.os_readlink := main.os_readlink env;
     main.os_path_realpath := main.os_path_realpath env |}.

(** A run by user [alice]: a fresh tree, no progress bar, an [evaluate]
    that accepts the results when none of them is [None]. *)
Definition alice : main.RunEnv :=
  {| main.USER := "alice";
     main.manager_tree := main.tree example.main_start;
     main.manager_pbar := None;
     main.evaluate := forallb (fun r => negb (bool_decide (r = PyNone)));
     main.check_uniqueness := fun t _ => inr t;
     main.get_display_lengths := fun t => t |}.

Definition alice_ctx (scan : bool) (commands_file : option string) (action : string)
  : main.ProcessingContext :=
  {| main.use_pool := false;
     main.scan := scan;
     main.sources := ["/incoming/a.nc"];
     main.ctx_commands_file := commands_file;
     main.ctx_no_checksum := false;
     main.ctx_checksum_type := "sha256";
     main.action := action;
     main.getattribute := fun key =>
       if String.eqb key "mode" then main.VStr "move"
       else if String.eqb key "root" then main.VStr "/data"
       else if String.eqb key "directory" then main.VList ["/incoming"]
       else if String.eqb key "no_checksum" then main.VBool false
       else if String.eqb key "upgrade_from_latest" then main.VBool false
       else main.VNone;
     main.process_vars := example.main_cctx false false "move" |}.

Definition empty_world : main.World :=
  {| main.files := ∅;
     main.scan_files := 0;
     main.scan_errors := 0;
     main.scan_err_log := main.VStr "/tmp/esgprep.err";
     main.shared := example.main_start;
     main.invoked := [] |}.

(** An environment with another checksum function. *)
Definition with_get_checksum (env : make.Env)
    (f : make.Path -> string -> option string -> res make.exception string)
  : make.Env :=
  {| make.get_ncattrs := make.get_ncattrs env;
     make.drs_path := make.drs_path env;
     make.with_latest_version := make.with_latest_version env;
     make.exists_ := make.exists_ env;
     make.get_version := make.get_version env;
     make.get_tracking_id := make.get_tracking_id env;
     make.st_size := make.st_size env;
     make.get_checksum := f;
     make.os_walk := make.os_walk env;
     make.os_readlink := make.os_readlink env;
     make.get_drs_down := make.get_drs_down env;
     make.get_drs_up := make.get_drs_up env;
     make.with_file_folder := make.with_file_folder env;
     make.dataset_path := make.dataset_path env |}.

(** Version v20200101 holds [a.nc] and [b.nc]; a new file [c.nc] and a
    changed [a.nc] come in. *)
Definition mixed_disk : list example.efile :=
  latest_disk "c.nc"
  ++ [{| example.f_path := example.incoming_file "a.nc";
         example.f_tracking_id := Some "hdl:21.14100/4";
         example.f_size := 11; example.f_digest := "dd" |}].


(** ** More of the two files: definitions *)

(** *** [initializer] of main.py *)

(** [{key: values[i] for i, key in enumerate(keys)}], from index [i] on: the
    entries are set in the order of the keys, so that a key met twice keeps
    the later value. *)
Fixpoint dict_of_keys {V} (i : nat) (keys : list string) (values : list V)
    (acc : gmap string V) : res main.exception (gmap string V) :=
  match keys with
  | [] => inr acc
  | key :: keys' =>
      match values !! i with
      | Some v => dict_of_keys (S i) keys' values (<[key := v]> acc)
      | None => inl (Exception (main.Raised "IndexError"))
      end
  end.

(** [initializer(keys, values)]: the result is the dictionary that becomes
    the global process context [cctx]. *)
Definition initializer {V} (keys : list string) (values : list V)
  : res main.exception (gmap string V) :=
  if Nat.eqb (length keys) (length values)
  then dict_of_keys 0 keys values ∅
  else inl (Exception (main.AssertionError "")).

(** *** What a computation may do to the state *)

Section footprints.
Context {E S : Type}.

(** A computation keeps [R] when the state it leaves, whatever its outcome,
    is related by [R] to the state it starts from. *)
Definition keeps {A} (R : S -> S -> Prop) (m : M E S A) : Prop :=
  forall s, R s (fst (m s)).
End footprints.

(** The tree of [main.py] only grows: leaves, duplicates and log are
    extended at the end, the records of a dataset are extended at the end,
    an entry of [tree.hash] stays as it is, [commands_file] is untouched. *)
Definition main_grows (s s' : main.State) : Prop :=
  main.leaves (main.tree s) `prefix_of` main.leaves (main.tree s')
  /\ main.duplicates (main.tree s) `prefix_of` main.duplicates (main.tree s')
  /\ main.log s `prefix_of` main.log s'
  /\ main.commands_file (main.tree s') = main.commands_file (main.tree s)
  /\ (forall key l, main.paths (main.tree s) !! key = Some l ->
        exists l', main.paths (main.tree s') !! key = Some (l ++ l'))
  /\ (forall key h, main.hash (main.tree s) !! key = Some h ->
        main.hash (main.tree s') !! key = Some h).

(** The tree of [make.py] only grows: leaves and duplicates are extended at
    the end, the files of a dataset are extended at the end and its latest
    version stays, the version of the tree is untouched, the counters do
    not decrease. *)
Definition make_grows (s s' : make.State) : Prop :=
  make.leaves (make.tree s) `prefix_of` make.leaves (make.tree s')
  /\ make.duplicates (make.tree s) `prefix_of` make.duplicates (make.tree s')
  /\ make.drs_version (make.tree s') = make.drs_version (make.tree s)
  /\ (forall key e, make.paths (make.tree s) !! key = Some e ->
        exists e', make.paths (make.tree s') !! key = Some e'
                   /\ make.latest e' = make.latest e
                   /\ make.files e `prefix_of` make.files e')
  /\ (make.errors s <= make.errors s')%nat
  /\ (make.progress s <= make.progress s')%nat.

(** [tree.paths] and [tree.duplicates] of [main.py] are as they were. *)
Definition main_same_records (s s' : main.State) : Prop :=
  main.paths (main.tree s') = main.paths (main.tree s)
  /\ main.duplicates (main.tree s') = main.duplicates (main.tree s).

Section outcomes.
Context {E S : Type}.

(** The values a computation can return all satisfy [P]. *)
Definition returns_only {A} (P : A -> Prop) (m : M E S A) : Prop :=
  forall s a, snd (m s) = inr a -> P a.
End outcomes.

(** The entry [process] records for a file, lines 150-154. *)
Definition incoming_of (ffp name : string) (sz : Z) (fph : main.DRSPath)
  : main.incoming :=
  {| main.in_src := ffp;
     main.in_dst := main.path fph [("root", true)];
     main.in_filename := name;
     main.in_latest := py_or (main.v_latest fph) "Initial";
     main.in_size := sz |}.

(** The counters of [make.py] are as they were. *)
Definition make_same_counters (s s' : make.State) : Prop :=
  make.errors s' = make.errors s /\ make.progress s' = make.progress s.

(** The files met by a walk, each with its folder. *)
Definition walked (walk : list (string * list string)) : list (string * string) :=
  flat_map (fun '(root, filenames) => map (fun name => (root, name)) filenames) walk.

(** *** The destination of a file in [make.py] *)

Section make_destination.
Import make.
Variable env : Env.
Variable self : Process.

(** [current_path] is the path [__call__] builds for [source] in state
    [s], lines 122-135: the root, the directory structure of the
    attributes of the file completed with its name and the version of the
    tree, and the name of the file. *)
Definition destination (source : Path) (s : State) (current_path : Path) : Prop :=
  exists attrs drs,
    get_ncattrs env source = inr attrs
    /\ drs_path env (<["dataset-version" := drs_version (tree s)]>
                       (<["filename" := name source]> attrs)) = inr (Some drs)
    /\ current_path = joinpath (joinpath (root self) drs) (of_name (name source)).

(** The leaf of a duplicate, lines 249-253: a symbolic link at the
    destination, to what the file of the latest version links to. *)
Definition duplicate_link (current_path : Path) (target : string) : DRSLeaf :=
  {| nodes := current_path;
     label := name current_path +:+ LINK_SEPARATOR +:+ target;
     src := SrcStr target;
     mode := "symlink";
     force := false |}.
End make_destination.

(** *** Versions *)

Fixpoint all_digits (s : string) : bool :=
  match s with
  | EmptyString => true
  | String c t =>
      match digit_of c with
      | Some _ => all_digits t
      | None => false
      end
  end.

(** A version folder name: [v], then at least one decimal digit and nothing
    else. *)
Definition is_version (v : string) : bool :=
  match v with
  | String c d =>
      Ascii.eqb c "v" && negb (String.eqb d "") && all_digits d
  | EmptyString => false
  end.

(** *** More of the example dataset *)

(** An environment with another [drs_path]. *)
Definition with_drs_path (env : make.Env)
    (f : gmap string string -> res make.exception (option make.Path)) : make.Env :=
  {| make.get_ncattrs := make.get_ncattrs env;
     make.drs_path := f;
     make.with_latest_version := make.with_latest_version env;
     make.exists_ := make.exists_ env;
     make.get_version := make.get_version env;
     make.get_tracking_id := make.get_tracking_id env;
     make.st_size := make.st_size env;
     make.get_checksum := make.get_checksum env;
     make.os_walk := make.os_walk env;
     make.os_readlink := make.os_readlink env;
     make.get_drs_down := make.get_drs_down env;
     make.get_drs_up := make.get_drs_up env;
     make.with_file_folder := make.with_file_folder env;
     make.dataset_path := make.dataset_path env |}.

(** A process context that ignores the incoming files named in [names]. *)
Definition ignoring_cctx (names : list string) : main.ProcessContext :=
  {| main.ignore_from_incoming := names;
     main.project := "cmip6";
     main.no_checksum := false;
     main.checksum_type := "sha256";
     main.cctx_mode := "move";
     main.upgrade_from_latest := false;
     main.ignore_from_latest := [] |}.

(** Version v20200101 of the dataset holds [a.nc]; an [a.nc] of the same
    tracking ID and size and of the given digest comes in. *)
Definition rerun_disk (digest : string) : list example.efile :=
  [{| example.f_path := example.tas "v20200101" "a.nc";
      example.f_tracking_id := Some "hdl:21.14100/1";
      example.f_size := 10; example.f_digest := "aa" |};
   {| example.f_path := example.incoming_file "a.nc";
      example.f_tracking_id := Some "hdl:21.14100/1";
      example.f_size := 10; example.f_digest := digest |}].

(** The checksums of the files of [example.upgrade_disk], by name. *)
Definition upgrade_digest (root name : string) : string :=
  if String.eqb name "a.nc" then "aa" else "bb".
(** * Properties *)

(** ** The version check *)

Section main_version_check.
Import main.
Variable env : Env.

(** [int(v[1:])] on a version that reads as a number. *)
Lemma int_of_version_value v n (s : State) :
  py_int (py_tail v) = Some n -> int_of_version v s = (s, inr n).
Proof. intros H. unfold int_of_version. now rewrite H. Qed.

(** [main.process]: with both versions reading as numbers, the check raises
    [OlderUpgrade(TREE_VERSION, v_latest)] exactly when the upgrade version
    is at most the latest one, and otherwise falls through with the state
    untouched. *)
Lemma main_version_check_spec fph (s : State) upgrade latest :
  py_int (py_tail (TREE_VERSION env)) = Some upgrade ->
  py_int (py_tail (default "" (v_latest fph))) = Some latest ->
  version_check env fph s =
    (s, if upgrade <=? latest
        then inl (Exception (OlderUpgrade (TREE_VERSION env) (v_latest fph)))
        else inr tt).
Proof.
  intros Hu Hl. unfold version_check, bind.
  rewrite (int_of_version_value _ _ _ Hu), (int_of_version_value _ _ _ Hl).
  now destruct (upgrade <=? latest).
Qed.
End main_version_check.

Section make_version_check.
Import make.

(** [make.__call__], any environment: once the file exists in the latest
    version, [OlderUpgrade] is raised when the latest version is below the
    current one. *)
Lemma make_version_check_raises env self attrs current_path lp (s : State) :
  exists_ env lp = true ->
  py_str_lt (get_version env lp) (get_version env current_path) = true ->
  check_latest env self attrs current_path (Some lp) s =
    (s, inl (Exception (OlderUpgrade (get_version env current_path)
                                     (get_version env lp)))).
Proof. intros He Hlt. unfold check_latest. now rewrite He, Hlt. Qed.
End make_version_check.

(** C1 (the code departs from the claim in [make.py]).  The incoming file
    [a.nc] resolves to version v20200102 and the latest version of its
    dataset, v20200101, holds [a.nc]: the worker raises
    [OlderUpgrade("v20200102", "v20200101")] and returns [None], though the
    new version is strictly greater.  With the versions exchanged the check
    lets the older upgrade through and the file is processed. *)
Theorem C1_make_version_check_inverted :
  let newer := example.make_env (Some "v20200101")
                 [{| example.f_path := example.tas "v20200101" "a.nc";
                     example.f_tracking_id := Some "hdl:21.14100/1";
                     example.f_size := 10; example.f_digest := "aa" |};
                  {| example.f_path := example.incoming_file "a.nc";
                     example.f_tracking_id := Some "hdl:21.14100/2";
                     example.f_size := 12; example.f_digest := "bb" |}] in
  let older := example.make_env (Some "v20200102")
                 [{| example.f_path := example.tas "v20200102" "a.nc";
                     example.f_tracking_id := Some "hdl:21.14100/1";
                     example.f_size := 10; example.f_digest := "aa" |};
                  {| example.f_path := example.incoming_file "a.nc";
                     example.f_tracking_id := Some "hdl:21.14100/2";
                     example.f_size := 12; example.f_digest := "bb" |}] in
  let self := example.make_self false false "move" in
  let source := example.incoming_file "a.nc" in
  snd (make.call_body newer self source (example.make_start "v20200102"))
    = inl (Exception (make.OlderUpgrade "v20200102" "v20200101"))
  /\ snd (make.__call__ newer self source (example.make_start "v20200102"))
    = inr PyNone
  /\ snd (make.__call__ older self source (example.make_start "v20200101"))
    = inr PyTrue.
Proof. repeat split; vm_compute; reflexivity. Qed.

(** ** The duplicate detector of [make.py] *)

(** C2 (the code departs from the claim in [make.py]).  The latest version
    of the dataset, v20200101, holds [a.nc].
    - An identical [a.nc] comes in for v20200102: the detector is not
      reached, the version test raises [OlderUpgrade] and the worker
      returns [None] with no leaf queued.
    - An [a.nc] of the same tracking ID and size but of another digest
      comes in for v20200101 again: sizes and checksums are read at
      [current_path], the destination, where the file of the latest
      version lies, and not at the incoming file; the changed file is
      found a duplicate, its link is queued, the incoming path goes to
      [tree.duplicates] and the worker returns [True];
      [UnchangedTrackingID] is not raised. *)
Theorem C2_detector_reads_destination :
  let self := example.make_self false false "move" in
  let source := example.incoming_file "a.nc" in
  let lp := example.tas "v20200101" "a.nc" in
  let upgrade := example.make_env (Some "v20200101") (rerun_disk "aa") in
  let rerun := example.make_env (Some "v20200101") (rerun_disk "zz") in
  let r1 := make.__call__ upgrade self source (example.make_start "v20200102") in
  let r2 := make.__call__ rerun self source (example.make_start "v20200101") in
  (make.get_ncattrs upgrade source = make.get_ncattrs upgrade lp
   /\ make.st_size upgrade source = make.st_size upgrade lp
   /\ make.get_checksum upgrade source "sha256" None
      = make.get_checksum upgrade lp "sha256" None
   /\ snd (make.call_body upgrade self source (example.make_start "v20200102"))
      = inl (Exception (make.OlderUpgrade "v20200102" "v20200101"))
   /\ snd r1 = inr PyNone
   /\ make.leaves (make.tree (fst r1)) = [])
  /\ (make.get_ncattrs rerun source = inr a_attrs
      /\ make.get_ncattrs rerun lp = inr a_attrs
      /\ make.get_tracking_id rerun a_attrs = Some "hdl:21.14100/1"
      /\ make.st_size rerun source = make.st_size rerun lp
      /\ make.get_checksum rerun source "sha256" None = inr "zz"
      /\ make.get_checksum rerun lp "sha256" None = inr "aa"
      /\ snd r2 = inr PyTrue
      /\ make.leaves (make.tree (fst r2))
         = [duplicate_link lp "../files/d20200101/a.nc"]
      /\ make.duplicates (make.tree (fst r2)) = [source]).
Proof. repeat split; vm_compute; reflexivity. Qed.

(** ** Loops and what they leave untouched *)

Section loops.
Context {E S : Type}.

(** A relation between the states before and after that every iteration
    respects is respected by the loop. *)
Lemma for_invariant {A} (R : S -> S -> Prop) (l : list A) (body : A -> M E S unit) :
  (forall s, R s s) ->
  (forall s1 s2 s3, R s1 s2 -> R s2 s3 -> R s1 s3) ->
  (forall x s, R s (fst (body x s))) ->
  forall s, R s (fst (for_ l body s)).
Proof.
  intros Hrefl Htrans Hbody. induction l as [|x l IH]; intros s; cbn.
  - apply Hrefl.
  - unfold bind. specialize (Hbody x s).
    destruct (body x s) as [s1 [e|[]]]; cbn in *.
    + exact Hbody.
    + eapply Htrans; [exact Hbody | apply IH].
Qed.

(** A projection of the state that no iteration changes. *)
Lemma for_preserves {A B} (f : S -> B) (l : list A) (body : A -> M E S unit) :
  (forall x s, f (fst (body x s)) = f s) ->
  forall s, f (fst (for_ l body s)) = f s.
Proof.
  intros Hbody.
  apply (for_invariant (fun s1 s2 => f s2 = f s1)).
  - reflexivity.
  - intros s1 s2 s3 H1 H2. now rewrite H2.
  - exact Hbody.
Qed.
End loops.

(** ** [main.process]: the leaves it queues *)

Section main_leaves.
Import main.
Variable env : Env.
Variable cctx : ProcessContext.

Lemma process_body_resolved ffp fh fph s :
  resolves env cctx ffp fh fph ->
  process_body env cctx ffp s = after_resolution env cctx fh fph s.
Proof.
  intros (Hattr & Hffp & Hign & Hload & Hfacets & Hparts & Hproject).
  unfold process_body, new_File, bind at 1 2, call at 1. rewrite Hattr. cbn.
  assert (Hfh : {| ffp := ffp; filename := filename fh; size := size fh |} = fh)
    by (destruct fh; cbn in *; congruence).
  rewrite Hfh, (bool_decide_eq_false_2 _ Hign).
  unfold bind at 1, call at 1. rewrite Hload.
  unfold bind at 1, call at 1. rewrite Hfacets.
  unfold bind at 1, call at 1. rewrite Hparts.
  unfold bind at 1. rewrite Hproject. reflexivity.
Qed.

(** The checks against the latest version only write [tree.hash]. *)
Lemma check_latest_frame fh fph s :
  let s' := fst (check_latest env cctx fh fph s) in
  leaves (tree s') = leaves (tree s)
  /\ duplicates (tree s') = duplicates (tree s)
  /\ paths (tree s') = paths (tree s).
Proof.
  set (keep := fun s : State => (leaves (tree s), duplicates (tree s), paths (tree s))).
  enough (H : keep (fst (check_latest env cctx fh fph s)) = keep s).
  { cbn. unfold keep in H. split; [|split]; congruence. }
  unfold check_latest. destruct (truthy (v_latest fph)); [|reflexivity].
  unfold bind at 1.
  assert (Hv : forall s0, fst (version_check env fph s0) = s0).
  { intros s0. unfold version_check, bind, int_of_version.
    destruct (py_int (py_tail (TREE_VERSION env))); [|reflexivity]. cbn.
    destruct (py_int (py_tail (default "" (v_latest fph)))); [|reflexivity]. cbn.
    now destruct (_ <=? _). }
  specialize (Hv s). destruct (version_check env fph s) as [s0 [e|[]]];
    cbn in Hv; subst s0; [reflexivity|].
  unfold bind at 1.
  assert (Hh : forall s0, keep (fst (hash_latest env cctx fph s0)) = keep s0).
  { intros s0. unfold hash_latest. destruct (no_checksum cctx); [reflexivity|].
    unfold bind at 1, get. destruct (bool_decide _); [reflexivity|].
    unfold bind at 1. cbn.
    rewrite (for_preserves keep); [reflexivity|].
    intros [root filenames] s1. apply (for_preserves keep).
    intros filename s2. unfold bind, call.
    now destruct (checksum env _ _) as [e|c]. }
  specialize (Hh s). destruct (hash_latest env cctx fph s) as [s1 [e|[]]];
    cbn in Hh; [exact Hh|].
  rewrite <- Hh. unfold compare_latest.
  destruct (os_path_exists env _); [|reflexivity].
  unfold bind, call.
  destruct (checksum env _ _) as [e|c1]; [reflexivity|].
  now destruct (checksum env _ _) as [e|c2].
Qed.

(** The walk through the latest version only appends copied leaves. *)
Lemma upgrade_leaves_appends fh fph s :
  let s' := fst (upgrade_leaves env cctx fh fph s) in
  exists extra,
    leaves (tree s') = leaves (tree s) ++ extra
    /\ Forall (copied fph) extra
    /\ duplicates (tree s') = duplicates (tree s)
    /\ paths (tree s') = paths (tree s).
Proof.
  set (R := fun s1 s2 : State => exists extra,
    leaves (tree s2) = leaves (tree s1) ++ extra
    /\ Forall (copied fph) extra
    /\ duplicates (tree s2) = duplicates (tree s1)
    /\ paths (tree s2) = paths (tree s1)).
  assert (Hrefl : forall s0, R s0 s0).
  { intros s0. exists []. rewrite app_nil_r. repeat split. constructor. }
  assert (Htrans : forall s1 s2 s3, R s1 s2 -> R s2 s3 -> R s1 s3).
  { intros s1 s2 s3 (e1 & H1 & F1 & D1 & P1) (e2 & H2 & F2 & D2 & P2).
    exists (e1 ++ e2). rewrite H2, H1, app_assoc.
    repeat split; try congruence. now apply Forall_app. }
  cbn. unfold upgrade_leaves. apply (for_invariant R); [exact Hrefl|exact Htrans|].
  intros [root filenames] s1. apply (for_invariant R); [exact Hrefl|exact Htrans|].
  intros name s2. destruct (_ && _)%bool; [|apply Hrefl].
  unfold bind, call. destruct (os_readlink env _) as [e|target]; [apply Hrefl|].
  cbn. eexists [_]. repeat split. constructor; [|constructor]. now split.
Qed.
End main_leaves.

(** ** [main.process]: the copy from the latest version *)

Section main_copy.
Import main.
Variable env : Env.
Variable cctx : ProcessContext.

Lemma queued_nil s : queued [] s = s.
Proof.
  destruct s as [[l d p h c] b g]. unfold queued, with_tree. cbn.
  now rewrite app_nil_r.
Qed.

Lemma queued_app l1 l2 s : queued l2 (queued l1 s) = queued (l1 ++ l2) s.
Proof. unfold queued, with_tree. cbn. now rewrite app_assoc. Qed.

(** One folder of the walk: every name to copy whose link can be read gets
    its leaf, in the order of the names. *)
Lemma upgrade_folder_spec fh fph root filenames ls s :
  map (copy_leaf env fph root) (to_copy cctx fh filenames) = map Some ls ->
  for_ filenames (fun name =>
    if (negb (bool_decide (name = filename fh))
        && negb (bool_decide (name ∈ ignore_from_latest cctx)))%bool
    then
      let src := os_path_join root [name] in
      let* target := call (os_readlink env src) in
      let* target' := call (os_readlink env src) in
      create_leaf {| nodes := items fph [("root", true)];
                     leaf := name;
                     label := name +:+ LINK_SEPARATOR +:+ target;
                     src := target';
                     mode := "symlink";
                     origin := Some (os_path_realpath env src) |}
    else ret tt) s
  = (queued ls s, inr tt).
Proof.
  revert ls s. induction filenames as [|name filenames IH]; intros ls s Hls.
  - destruct ls; [|discriminate]. cbn. now rewrite queued_nil.
  - cbn [for_]. unfold bind at 1. cbn [to_copy List.filter] in Hls.
    destruct (negb (bool_decide (name = filename fh))
              && negb (bool_decide (name ∈ ignore_from_latest cctx)))%bool.
    + destruct ls as [|l ls]; [discriminate|]. cbn [map] in Hls.
      injection Hls as Hl Hls. unfold copy_leaf in Hl. cbn zeta.
      unfold bind at 1 2, call.
      destruct (os_readlink env (os_path_join root [name])) as [e|target];
        [discriminate|].
      injection Hl as <-. unfold create_leaf at 1, modify at 1. cbv beta iota.
      rewrite (IH ls _ Hls).
      exact (f_equal (fun x => (x, inr tt)) (queued_app [_] ls s)).
    + unfold ret at 1. cbv beta iota. apply IH. exact Hls.
Qed.

(** [main.process] copies the latest version forward: when every link to
    copy can be read, the walk queues one symbolic link per name of the
    latest version that is neither the processed file nor ignored, with the
    link target of that file as its source. *)
Lemma main_upgrade_leaves_spec fh fph ls s :
  copy_leaves env cctx fh fph = map Some ls ->
  upgrade_leaves env cctx fh fph s = (queued ls s, inr tt).
Proof.
  unfold copy_leaves, upgrade_leaves.
  generalize (os_walk env (path fph [("f_part", false); ("latest", true); ("root", true)])).
  intros walk. revert ls s.
  induction walk as [|[root filenames] walk IH]; intros ls s Hls.
  - destruct ls; [|discriminate]. cbn. now rewrite queued_nil.
  - cbn [flat_map] in Hls.
    symmetry in Hls. apply map_eq_app in Hls as (l1 & l2 & -> & H1 & H2).
    symmetry in H1, H2.
    cbn [for_]. unfold bind at 1. cbv beta iota.
    pose proof (upgrade_folder_spec fh fph root filenames l1 s H1) as Hfolder.
    cbv zeta in Hfolder. rewrite Hfolder.
    rewrite (IH l2 _ H2). now rewrite queued_app.
Qed.
End main_copy.

(** ** [make.__call__]: the leaves it queues *)

Section make_leaves.
Import make.
Variable env : Env.
Variable self : Process.

Lemma call_body_resolved source s current_attrs current_path latest_path :
  make_resolves env self source s current_attrs current_path latest_path ->
  call_body env self source s
    = make_after_resolution env self source current_attrs current_path latest_path s.
Proof.
  intros (Hign & (attrs & drs & Hattrs & -> & Hdrs & ->) & Hlatest).
  unfold call_body. rewrite (bool_decide_eq_false_2 _ Hign).
  unfold bind at 1, call at 1. rewrite Hattrs.
  unfold bind at 1, get at 1. unfold bind at 1, build_path at 1. rewrite Hdrs.
  unfold bind at 1, call at 1. rewrite Hlatest. reflexivity.
Qed.

(** The checks against the latest version leave the state as it is. *)
Lemma make_check_latest_state attrs current_path latest_path s :
  fst (check_latest env self attrs current_path latest_path s) = s.
Proof.
  unfold check_latest. destruct latest_path as [lp|]; [|reflexivity].
  destruct (exists_ env lp); [|reflexivity].
  destruct (py_str_lt _ _); [reflexivity|].
  unfold bind, call.
  destruct (get_ncattrs env lp) as [e|latest_attrs]; [reflexivity|].
  destruct (bool_decide _); [|reflexivity].
  destruct (st_size env current_path) as [e|sz1]; [reflexivity|].
  destruct (st_size env lp) as [e|sz2]; [reflexivity|].
  destruct (_ && _)%bool.
  - destruct (get_checksum env current_path _ _) as [e|c1]; [reflexivity|].
    destruct (get_checksum env lp _ _) as [e|c2]; [reflexivity|].
    destruct (bool_decide _); [reflexivity|].
    now destruct (_ && _)%bool.
  - now destruct (_ && _)%bool.
Qed.

(** The walk through the latest version never queues a leaf: it meets no
    file to copy, or it raises. *)
Lemma make_upgrade_leaves_state current_path latest_path s :
  fst (upgrade_leaves env self current_path latest_path s) = s.
Proof.
  unfold upgrade_leaves. destruct latest_path as [lp|]; [|reflexivity].
  destruct (_ && _)%bool; [|reflexivity].
  apply (for_preserves (fun s => s)). intros [root filenames] s1.
  apply (for_preserves (fun s => s)). intros latest_name s2.
  now destruct (_ && _)%bool.
Qed.

Lemma record_entry_leaves source current_path dup version s :
  let s' := fst (record_entry env source current_path dup version s) in
  leaves (tree s') = leaves (tree s) /\ duplicates (tree s') = duplicates (tree s).
Proof.
  unfold record_entry, bind, get. cbn.
  destruct (paths (tree s) !! _) as [e|]; cbn; [|now split].
  now destruct (String.eqb _ _).
Qed.
End make_leaves.

(** ** Files that are no duplicates *)

(** C3, as amended.  For every file that resolves, is found to be no
    duplicate and is processed with success, the leaves queued start with
    three leaves in this order: the symbolic link of the file in the version
    folder, whose source goes up from there and down into the shared
    folder; the symbolic link [latest], whose source is the upgrade version;
    the leaf of the file in the shared folder, with the link mode of the
    run and, in [main.process], the incoming path as its source.  After them
    [main.process] queues only symbolic links in the version folder, copied
    from the latest version, and none unless upgrade-from-latest is set;
    [make.__call__] queues nothing. *)
Theorem C3_three_leaves_then_copies :
  (forall env cctx ffp fh fph s s1 s',
     resolves env cctx ffp fh fph ->
     main.check_latest env cctx fh fph s = (s1, inr false) ->
     main.process env cctx ffp s = (s', inr PyTrue) ->
     (exists extra,
        main.leaves (main.tree s')
          = main.leaves (main.tree s)
            ++ [main.version_leaf fh fph; main.latest_leaf fph;
                main.files_leaf cctx fh fph] ++ extra
        /\ Forall (copied fph) extra
        /\ (main.upgrade_from_latest cctx = false -> extra = []))
     /\ main.mode (main.version_leaf fh fph) = "symlink"
     /\ main.nodes (main.version_leaf fh fph) = main.items fph [("root", true)]
     /\ main.src (main.version_leaf fh fph)
        = main.join_all
            (repeat ".." (length (main.items fph [("d_part", false)]))
             ++ main.items fph [("d_part", false); ("file_folder", true)]
             ++ [main.filename fh])
     /\ main.leaf (main.latest_leaf fph) = "latest"
     /\ main.src (main.latest_leaf fph) = main.v_upgrade fph
     /\ main.mode (main.files_leaf cctx fh fph) = main.cctx_mode cctx
     /\ main.src (main.files_leaf cctx fh fph) = ffp)
  /\ (forall env self source s current_attrs current_path latest_path version s',
        make_resolves env self source s current_attrs current_path latest_path ->
        make.check_latest env self current_attrs current_path latest_path s
          = (s, inr (version, false)) ->
        make.__call__ env self source s = (s', inr PyTrue) ->
        make.leaves (make.tree s')
          = make.leaves (make.tree s)
            ++ [make.version_leaf env current_path;
                make.latest_leaf env (make.tree s) current_path;
                make.files_leaf env self current_path]
        /\ make.mode (make.version_leaf env current_path) = "symlink"
        /\ make.nodes (make.version_leaf env current_path) = current_path
        /\ make.src (make.version_leaf env current_path)
           = make.SrcStr (make.join_all
               (repeat ".." (length (make.get_drs_down env current_path))
                ++ ["files"]
                ++ make.get_drs_down env (make.with_file_folder env current_path)))
        /\ make.nodes (make.latest_leaf env (make.tree s) current_path)
           = make.parent (make.dataset_path env current_path) ++ ["latest"]
        /\ make.src (make.latest_leaf env (make.tree s) current_path)
           = make.SrcStr (make.drs_version (make.tree s))
        /\ make.mode (make.files_leaf env self current_path) = make.self_mode self).
Proof.
  split.
  - intros env cctx ffp fh fph s s1 s' Hres Hcheck Hproc.
    split; [|repeat split; apply Hres].
    unfold main.process, try_worker in Hproc.
    rewrite (process_body_resolved env cctx ffp fh fph s Hres) in Hproc.
    unfold after_resolution, bind at 1 in Hproc. rewrite Hcheck in Hproc.
    cbn [negb] in Hproc.
    pose proof (check_latest_frame env cctx fh fph s) as (Hl1 & _).
    rewrite Hcheck in Hl1. cbn in Hl1.
    unfold bind at 1 2 3 4, main.create_leaf, modify in Hproc. cbn in Hproc.
    set (s3 := main.with_tree _ _) in Hproc.
    assert (Hl3 : main.leaves (main.tree s3)
                  = main.leaves (main.tree s)
                    ++ [main.version_leaf fh fph; main.latest_leaf fph;
                        main.files_leaf cctx fh fph]).
    { subst s3. cbn. rewrite Hl1, <- !app_assoc. reflexivity. }
    clearbody s3.
    destruct (main.upgrade_from_latest cctx) eqn:Hup.
    + pose proof (upgrade_leaves_appends env cctx fh fph s3) as (extra & He & HF & _).
      destruct (main.upgrade_leaves env cctx fh fph s3) as [s4 [e|[]]];
        cbn in He, Hproc.
      * destruct e; discriminate.
      * injection Hproc as <-. exists extra. cbn.
        rewrite He, Hl3, <- app_assoc. repeat split; [exact HF | discriminate].
    + cbn in Hproc. injection Hproc as <-. exists []. cbn.
      rewrite Hl3. repeat split. constructor.
  - intros env self source s current_attrs current_path latest_path version s'
           Hres Hcheck Hproc.
    split; [|repeat split].
    unfold make.__call__, try_worker in Hproc.
    rewrite (call_body_resolved env self source s _ _ _ Hres) in Hproc.
    unfold make_after_resolution, bind at 1 in Hproc. rewrite Hcheck in Hproc.
    cbn [negb] in Hproc.
    unfold bind at 1 2 3 4 5, make.create_leaf, modify, get in Hproc. cbn in Hproc.
    set (s3 := make.with_tree _ _) in Hproc.
    pose proof (make_upgrade_leaves_state env self current_path latest_path s3) as Hs.
    destruct (make.upgrade_leaves env self current_path latest_path s3)
      as [s4 [e|[]]]; cbn in Hs, Hproc; subst s4.
    + destruct e; discriminate.
    + pose proof (record_entry_leaves env source current_path false version s3)
        as (Hl & _).
      unfold bind in Hproc.
      destruct (make.record_entry env source current_path false version s3)
        as [s5 [e|[]]]; cbn in Hl, Hproc.
      * destruct e; discriminate.
      * injection Hproc as <-. cbn. rewrite Hl. subst s3. cbn.
        rewrite <- !app_assoc. reflexivity.
Qed.

(** The theorem at work: [main.process] upgrading [a.nc] without
    upgrade-from-latest, [make.__call__] on the first version of a
    dataset. *)
Lemma C3_three_leaves_then_copies_witness :
  let env := example.main_env (Some "v20200101") "v20200102" (example.upgrade_disk "cc") in
  let cctx := example.main_cctx false false "move" in
  let fh := {| main.ffp := "/incoming/a.nc"; main.filename := "a.nc"; main.size := 10 |} in
  let fph := example.tas_path (Some "v20200101") "v20200102" in
  let s' := fst (main.process env cctx "/incoming/a.nc" example.main_start) in
  let menv := example.make_env None
                [{| example.f_path := example.incoming_file "a.nc";
                    example.f_tracking_id := Some "hdl:21.14100/1";
                    example.f_size := 10; example.f_digest := "aa" |}] in
  let self := example.make_self false false "move" in
  let cur := example.tas "v20200101" "a.nc" in
  let ms := example.make_start "v20200101" in
  let ms' := fst (make.__call__ menv self (example.incoming_file "a.nc") ms) in
  (exists extra,
     main.leaves (main.tree s')
       = main.leaves (main.tree example.main_start)
         ++ [main.version_leaf fh fph; main.latest_leaf fph;
             main.files_leaf cctx fh fph] ++ extra
     /\ Forall (copied fph) extra
     /\ (main.upgrade_from_latest cctx = false -> extra = []))
  /\ make.leaves (make.tree ms')
     = make.leaves (make.tree ms)
       ++ [make.version_leaf menv cur; make.latest_leaf menv (make.tree ms) cur;
           make.files_leaf menv self cur].
Proof.
  intros env cctx fh fph s' menv self cur ms ms'. split.
  - refine (proj1 (proj1 C3_three_leaves_then_copies env cctx "/incoming/a.nc" fh fph
              example.main_start
              (fst (main.check_latest env cctx fh fph example.main_start)) s'
              _ _ _)).
    + repeat split; try reflexivity. apply not_elem_of_nil.
    + vm_compute. reflexivity.
    + vm_compute. reflexivity.
  - refine (proj1 (proj2 C3_three_leaves_then_copies menv self
              (example.incoming_file "a.nc") ms
              (<["dataset-version" := "v20200101"]>
                 (<["filename" := "a.nc"]> {["tracking_id" := "hdl:21.14100/1"]}))
              cur None "Initial" ms' _ _ _)).
    + split; [apply not_elem_of_nil|]. split; [|reflexivity].
      exists {["tracking_id" := "hdl:21.14100/1"]}, ["CMIP6"; "tas"; "v20200101"].
      repeat split; vm_compute; reflexivity.
    + reflexivity.
    + vm_compute. reflexivity.
Defined.

(** C3, as the claim states it, fails under upgrade-from-latest in
    [main.process]: [a.nc] is no duplicate and is processed with success,
    and four leaves are queued, the fourth one for [b.nc] of the latest
    version. *)
Lemma C3_counterexample :
  let env := example.main_env (Some "v20200101") "v20200102" (example.upgrade_disk "cc") in
  let cctx := example.main_cctx false true "move" in
  let fh := {| main.ffp := "/incoming/a.nc"; main.filename := "a.nc"; main.size := 10 |} in
  let fph := example.tas_path (Some "v20200101") "v20200102" in
  let r := main.process env cctx "/incoming/a.nc" example.main_start in
  snd (main.check_latest env cctx fh fph example.main_start) = inr false
  /\ snd r = inr PyTrue
  /\ length (main.leaves (main.tree (fst r))) = 4%nat
  /\ main.leaf <$> main.leaves (main.tree (fst r)) = ["a.nc"; "latest"; "a.nc"; "b.nc"].
Proof. repeat split; vm_compute; reflexivity. Qed.

(** ** Duplicates *)

(** C4.  For every file that resolves and is found to be a duplicate of the
    file of the same name in the latest version, in [main.process] and in
    [make.__call__] alike:
    - under upgrade-from-latest the body raises
      [DuplicatedFile(latest path, source)], the worker returns [None] and
      no leaf is queued;
    - otherwise, with [target] the link read from the latest file, exactly
      one leaf is queued, a symbolic link in the version folder whose source
      is [target], and the incoming path is appended to [tree.duplicates]
      when the link mode is ['move'], and [tree.duplicates] is unchanged
      when it is not. *)
Theorem C4_duplicate_files :
  (forall env cctx ffp fh fph s s1,
     resolves env cctx ffp fh fph ->
     main.check_latest env cctx fh fph s = (s1, inr true) ->
     let latest_file :=
       os_path_join (main.path fph [("latest", true); ("root", true)])
                    [main.filename fh] in
     let r := main.process env cctx ffp s in
     (main.upgrade_from_latest cctx = true ->
      snd (main.process_body env cctx ffp s)
        = inl (Exception (main.DuplicatedFile latest_file ffp))
      /\ snd r = inr PyNone
      /\ main.leaves (main.tree (fst r)) = main.leaves (main.tree s)
      /\ main.duplicates (main.tree (fst r)) = main.duplicates (main.tree s))
     /\ (main.upgrade_from_latest cctx = false ->
         forall target,
           main.os_readlink env latest_file = inr target ->
           snd r = inr PyTrue
           /\ main.leaves (main.tree (fst r))
              = main.leaves (main.tree s)
                ++ [{| main.nodes := main.items fph [("root", true)];
                       main.leaf := main.filename fh;
                       main.label := main.filename fh +:+ LINK_SEPARATOR +:+ target;
                       main.src := target;
                       main.mode := "symlink";
                       main.origin := Some ffp |}]
           /\ (main.cctx_mode cctx = "move" ->
               main.duplicates (main.tree (fst r))
                 = main.duplicates (main.tree s) ++ [ffp])
           /\ (main.cctx_mode cctx <> "move" ->
               main.duplicates (main.tree (fst r)) = main.duplicates (main.tree s))))
  /\ (forall env self source s current_attrs current_path latest_path version,
        make_resolves env self source s current_attrs current_path latest_path ->
        make.check_latest env self current_attrs current_path latest_path s
          = (s, inr (version, true)) ->
        let r := make.__call__ env self source s in
        (make.upgrade_from_latest self = true ->
         snd (make.call_body env self source s)
           = inl (Exception (make.DuplicatedFile latest_path source))
         /\ snd r = inr PyNone
         /\ make.leaves (make.tree (fst r)) = make.leaves (make.tree s)
         /\ make.duplicates (make.tree (fst r)) = make.duplicates (make.tree s))
        /\ (make.upgrade_from_latest self = false ->
            forall lp target,
              latest_path = Some lp ->
              make.os_readlink env lp = inr target ->
              make.leaves (make.tree (fst r))
                = make.leaves (make.tree s)
                  ++ [{| make.nodes := current_path;
                         make.label := make.name current_path +:+ LINK_SEPARATOR
                                       +:+ target;
                         make.src := make.SrcStr target;
                         make.mode := "symlink";
                         make.force := false |}]
              /\ (make.self_mode self = "move" ->
                  make.duplicates (make.tree (fst r))
                    = make.duplicates (make.tree s) ++ [source])
              /\ (make.self_mode self <> "move" ->
                  make.duplicates (make.tree (fst r))
                    = make.duplicates (make.tree s)))).
Proof.
  split.
  - intros env cctx ffp fh fph s s1 Hres Hcheck latest_file r.
    pose proof (check_latest_frame env cctx fh fph s) as (Hl & Hd & _).
    rewrite Hcheck in Hl, Hd. cbn in Hl, Hd.
    assert (Hffp : main.ffp fh = ffp) by apply Hres.
    pose proof (process_body_resolved env cctx ffp fh fph s Hres) as Hbody.
    unfold after_resolution, bind at 1 in Hbody. rewrite Hcheck in Hbody.
    cbn [negb] in Hbody. unfold main.duplicate_leaf in Hbody.
    fold latest_file in Hbody. rewrite Hffp in Hbody.
    subst r. unfold main.process, try_worker. split.
    + intros Hup. rewrite Hup in Hbody. unfold bind, raise in Hbody.
      rewrite Hbody. cbn. auto.
    + intros Hup target Htarget. rewrite Hup in Hbody.
      unfold bind at 1 2, call in Hbody. rewrite Htarget in Hbody.
      unfold bind at 1 in Hbody. cbn in Hbody.
      destruct (String.eqb_spec (main.cctx_mode cctx) "move") as [Hm|Hm];
        cbn in Hbody; rewrite Hbody; cbn; rewrite Hl, Hd;
        repeat split; intros; congruence.
  - intros env self source s current_attrs current_path latest_path version
           Hres Hcheck r.
    pose proof (call_body_resolved env self source s _ _ _ Hres) as Hbody.
    unfold make_after_resolution, bind at 1 in Hbody. rewrite Hcheck in Hbody.
    cbn [negb] in Hbody. unfold make.duplicate_leaf in Hbody.
    subst r. unfold make.__call__, try_worker. split.
    + intros Hup. rewrite Hup in Hbody. unfold bind, raise in Hbody.
      rewrite Hbody. cbn. auto.
    + intros Hup lp target -> Htarget. rewrite Hup in Hbody.
      unfold bind at 1 2 3, call in Hbody. rewrite Htarget in Hbody.
      assert (Hdup : exists s2,
                 make.leaves (make.tree s2)
                   = make.leaves (make.tree s)
                     ++ [{| make.nodes := current_path;
                            make.label := make.name current_path +:+ LINK_SEPARATOR
                                          +:+ target;
                            make.src := make.SrcStr target;
                            make.mode := "symlink";
                            make.force := false |}]
                 /\ make.duplicates (make.tree s2)
                    = make.duplicates (make.tree s)
                      ++ (if String.eqb (make.self_mode self) "move"
                          then [source] else [])
                 /\ make.call_body env self source s
                    = (let* _ := make.record_entry env source current_path true version in
                       ret PyTrue) s2).
      { destruct (String.eqb (make.self_mode self) "move"); cbn in Hbody;
          eexists; (split; [|split; [|exact Hbody]]); cbn;
          [reflexivity | reflexivity | reflexivity | now rewrite app_nil_r]. }
      destruct Hdup as (s2 & Hl2 & Hd2 & Hrest). rewrite Hrest. unfold bind.
      pose proof (record_entry_leaves env source current_path true version s2)
        as (Hl & Hd).
      destruct (make.record_entry env source current_path true version s2)
        as [s3 [[|e]|[]]]; cbn in *; rewrite Hl, Hd, Hl2, Hd2;
        (split; [reflexivity|]);
        destruct (String.eqb_spec (make.self_mode self) "move");
        split; intros; try congruence; now rewrite app_nil_r.
Qed.

(** The theorem at work: the incoming [a.nc] is a copy of the latest one,
    with and without upgrade-from-latest, for both workers. *)
Lemma C4_duplicate_files_witness :
  let env := example.main_env (Some "v20200101") "v20200102" (example.upgrade_disk "aa") in
  let menv := example.make_env (Some "v20200102") duplicate_disk in
  let source := example.incoming_file "a.nc" in
  let ms := example.make_start "v20200101" in
  snd (main.process env (example.main_cctx false true "move") "/incoming/a.nc"
         example.main_start) = inr PyNone
  /\ main.duplicates (main.tree (fst
       (main.process env (example.main_cctx false false "move") "/incoming/a.nc"
          example.main_start)))
     = main.duplicates (main.tree example.main_start) ++ ["/incoming/a.nc"]
  /\ snd (make.__call__ menv (example.make_self false true "move") source ms)
     = inr PyNone
  /\ make.duplicates (make.tree (fst
       (make.__call__ menv (example.make_self false false "move") source ms)))
     = make.duplicates (make.tree ms) ++ [source].
Proof.
  intros env menv source ms.
  set (fh := {| main.ffp := "/incoming/a.nc"; main.filename := "a.nc";
                main.size := 10 |}).
  set (fph := example.tas_path (Some "v20200101") "v20200102").
  assert (Hres : forall up, resolves env (example.main_cctx false up "move")
                              "/incoming/a.nc" fh fph).
  { intros up. repeat split; try reflexivity. apply not_elem_of_nil. }
  set (attrs := <["dataset-version" := "v20200101"]>
                  (<["filename" := "a.nc"]> a_attrs)).
  set (cur := example.tas "v20200101" "a.nc").
  set (lp := example.tas "v20200102" "a.nc").
  assert (Hmres : forall up, make_resolves menv (example.make_self false up "move")
                               source ms attrs cur (Some lp)).
  { intros up. split; [apply not_elem_of_nil|]. split; [|reflexivity].
    exists a_attrs, ["CMIP6"; "tas"; "v20200101"].
    repeat split; vm_compute; reflexivity. }
  pose proof (proj1 C4_duplicate_files env (example.main_cctx false true "move")
                "/incoming/a.nc" fh fph example.main_start
                (fst (main.check_latest env (example.main_cctx false true "move")
                        fh fph example.main_start))
                (Hres true) eq_refl) as [Hup _].
  pose proof (proj1 C4_duplicate_files env (example.main_cctx false false "move")
                "/incoming/a.nc" fh fph example.main_start
                (fst (main.check_latest env (example.main_cctx false false "move")
                        fh fph example.main_start))
                (Hres false) eq_refl) as [_ Hmove].
  pose proof (proj2 C4_duplicate_files menv (example.make_self false true "move")
                source ms attrs cur (Some lp) "v20200102" (Hmres true) eq_refl)
    as [Hmup _].
  pose proof (proj2 C4_duplicate_files menv (example.make_self false false "move")
                source ms attrs cur (Some lp) "v20200102" (Hmres false) eq_refl)
    as [_ Hmmove].
  split; [|split; [|split]].
  - apply (Hup eq_refl).
  - apply (Hmove eq_refl "../files/d20200101/a.nc" eq_refl). reflexivity.
  - apply (Hmup eq_refl).
  - apply (Hmmove eq_refl lp "../files/d20200102/a.nc" eq_refl eq_refl). reflexivity.
Defined.

(** ** The copy from the latest version in [make.py] *)

(** C5 (the code departs from the claim in [make.py]).  Upgrade-from-latest
    is set and version v20200101, the latest one, holds [a.nc] and [b.nc].
    - A changed [a.nc] comes in for v20200101 again: the walk starts at the
      path of the latest [a.nc], which is no folder and yields nothing; the
      worker returns [True] with the three leaves of [a.nc] and none for
      [b.nc].
    - [c.nc] comes in for v20200102: no [c.nc] exists in the latest version
      and the walk does not start; the worker returns [True] with the three
      leaves of [c.nc] and none for [a.nc] or [b.nc].
    - Were the walk to yield the names of the folder, the [nodes] of the
      first leaf to copy raise [AttributeError]: the worker returns [None],
      with the three leaves of [a.nc] queued and none for [b.nc]. *)
Theorem C5_make_copies_nothing :
  let self := example.make_self false true "move" in
  let folder := ["/"; "data"; "CMIP6"; "tas"; "v20200101"] in
  let a := example.incoming_file "a.nc" in
  let c := example.incoming_file "c.nc" in
  let env_a := example.make_env (Some "v20200101") (latest_disk "a.nc") in
  let env_c := example.make_env (Some "v20200101") (latest_disk "c.nc") in
  let env_w := with_os_walk env_a [("/data/CMIP6/tas/v20200101", ["a.nc"; "b.nc"])] in
  let r_a := make.__call__ env_a self a (example.make_start "v20200101") in
  let r_c := make.__call__ env_c self c (example.make_start "v20200102") in
  let r_w := make.__call__ env_w self a (example.make_start "v20200101") in
  make.os_walk env_a folder = [("/data/CMIP6/tas/v20200101", ["a.nc"; "b.nc"])]
  /\ make.os_walk env_a (example.tas "v20200101" "a.nc") = []
  /\ snd r_a = inr PyTrue
  /\ make.nodes <$> make.leaves (make.tree (fst r_a))
     = [example.tas "v20200101" "a.nc";
        ["/"; "data"; "CMIP6"; "tas"; "latest"];
        ["/"; "data"; "CMIP6"; "tas"; "files"; "d20200101"; "a.nc"]]
  /\ snd r_c = inr PyTrue
  /\ make.nodes <$> make.leaves (make.tree (fst r_c))
     = [example.tas "v20200102" "c.nc";
        ["/"; "data"; "CMIP6"; "tas"; "latest"];
        ["/"; "data"; "CMIP6"; "tas"; "files"; "d20200102"; "c.nc"]]
  /\ snd (make.call_body env_w self a (example.make_start "v20200101"))
     = inl (Exception (make.AttributeError "'tuple' object has no attribute 'append'"))
  /\ snd r_w = inr PyNone
  /\ make.nodes <$> make.leaves (make.tree (fst r_w))
     = [example.tas "v20200101" "a.nc";
        ["/"; "data"; "CMIP6"; "tas"; "latest"];
        ["/"; "data"; "CMIP6"; "tas"; "files"; "d20200101"; "a.nc"]].
Proof. repeat split; vm_compute; reflexivity. Qed.

(** The sibling path at work: [main.process] on the same upgrade queues the
    three leaves of [a.nc] and the link of [b.nc], with the target [b.nc]
    has in the latest version. *)
Lemma main_copies_forward :
  let env := example.main_env (Some "v20200101") "v20200102" (example.upgrade_disk "cc") in
  let cctx := example.main_cctx false true "move" in
  let r := main.process env cctx "/incoming/a.nc" example.main_start in
  snd r = inr PyTrue
  /\ (fun l => (main.leaf l, main.src l, main.mode l))
       <$> drop 3 (main.leaves (main.tree (fst r)))
     = [("b.nc", "../files/d20200101/b.nc", "symlink")].
Proof. split; vm_compute; reflexivity. Qed.

(** ** The worker boundary *)

(** No [Exception] leaves [main.process]. *)
Lemma process_no_exception env cctx ffp s e :
  snd (main.process env cctx ffp s) <> inl (Exception e).
Proof.
  unfold main.process, try_worker.
  now destruct (main.process_body env cctx ffp s) as [s' [[|e']|v]].
Qed.



(** ** [main.run]: the scan, the checkpoint and the gate *)

Section run_facts.
Import main.
Variable env : Env.
Variable renv : RunEnv.

(** A worker never lets an [Exception] through, so neither does a scan. *)
Lemma scan_sources_no_exception cctx l s e :
  snd (scan_sources env cctx l s) <> inl (Exception e).
Proof.
  revert s. induction l as [|ffp l IH]; intros s; cbn; [discriminate|].
  unfold bind at 1.
  pose proof (process_no_exception env cctx ffp s) as Hno.
  destruct (process env cctx ffp s) as [s1 [[|e1]|x]]; cbn;
    [discriminate | now destruct (Hno e1) |].
  unfold bind. specialize (IH s1).
  destruct (scan_sources env cctx l s1) as [s2 [[|e2]|xs]]; cbn in *;
    [discriminate | exact IH | discriminate].
Qed.

(** A scan returns one result per source. *)
Lemma scan_sources_length cctx l s s' results :
  scan_sources env cctx l s = (s', inr results) -> length results = length l.
Proof.
  revert s s' results. induction l as [|ffp l IH]; intros s s' results; cbn.
  - intros [= <- <-]. reflexivity.
  - unfold bind at 1. destruct (process env cctx ffp s) as [s1 [e|x]]; [discriminate|].
    unfold bind. destruct (scan_sources env cctx l s1) as [s2 [e|xs]] eqn:Hxs;
      [discriminate|].
    cbn. intros [= <- <-]. cbn. f_equal. eapply IH, Hxs.
Qed.

(** The pool against the loop.  When the loop returns, the pool returns the
    same results in the same state; when the loop is cut short by a raise,
    the pool ends in that raise too, once every source is processed. *)
Lemma pool_sources_scan cctx l s :
  match scan_sources env cctx l s with
  | (s1, inr results) => pool_sources env cctx l s = (s1, inr results)
  | (_, inl e) => snd (pool_sources env cctx l s) = inl e
  end.
Proof.
  revert s. induction l as [|ffp l IH]; intros s; [reflexivity|].
  cbn [scan_sources]. unfold pool_sources. cbn [pool_imap]. unfold bind at 1.
  destruct (process env cctx ffp s) as [s1 [e|x]].
  - destruct (pool_imap env cctx l s1). reflexivity.
  - specialize (IH s1). unfold pool_sources in IH. unfold bind.
    destruct (scan_sources env cctx l s1) as [s2 [e|xs]],
             (pool_imap env cctx l s1) as [s3 outcomes];
      cbn in *.
    + now rewrite IH.
    + injection IH as -> ->. reflexivity.
Qed.

(** What lines 236-252 do to the world. *)
Lemma conclude_spec ctx results w :
  let w' := fst (conclude renv ctx results w) in
  files w' = <[TREE_FILE (USER renv) := checkpoint ctx w results]> (files w)
  /\ scan_files w' = length results
  /\ scan_errors w' = count_None results
  /\ scan_err_log w' = scan_err_log w
  /\ (evaluate renv results = false ->
      invoked w' = invoked w /\ shared w' = shared w)
  /\ (invoked w' = invoked w
      \/ evaluate renv results = true
         /\ exists t, invoked w' = invoked w ++ [(action ctx, t)]).
Proof.
  unfold conclude, bind at 1 2 3, modify at 1, get at 1, store, modify at 1.
  cbn -[TREE_FILE checkpoint CONTROLLED_ARGS].
  destruct (evaluate renv results).
  - unfold bind at 1.
    destruct (ctx_no_checksum ctx); cbn -[TREE_FILE checkpoint CONTROLLED_ARGS].
    + repeat split; try discriminate. right. split; [reflexivity|]. eexists. reflexivity.
    + unfold bind, call, get. cbn -[TREE_FILE checkpoint CONTROLLED_ARGS].
      destruct (check_uniqueness renv _ _) as [e|t];
        cbn -[TREE_FILE checkpoint CONTROLLED_ARGS].
      * repeat split; try discriminate. now left.
      * repeat split; try discriminate. right. split; [reflexivity|].
        eexists. reflexivity.
  - cbn -[TREE_FILE checkpoint CONTROLLED_ARGS]. repeat split. now left.
Qed.

(** Reading the checkpoint back. *)
Lemma gather_checkpoint ctx w snapshot t l r rest :
  scan ctx = false ->
  files w !! TREE_FILE (USER renv)
    = Some (snapshot :: PTree t :: PLog l :: PResults r :: rest) ->
  exists w1,
    gather env renv ctx w = (w1, inr r)
    /\ tree (shared w1) = set_commands_file (ctx_commands_file ctx) t
    /\ scan_err_log w1 = l
    /\ files w1 = files w
    /\ invoked w1 = invoked w.
Proof.
  intros Hscan Hfile. unfold gather. rewrite Hscan. cbn [negb].
  unfold bind at 1, load, bind at 1, get. rewrite Hfile.
  cbn -[TREE_FILE]. eexists. repeat split.
Qed.
End run_facts.

Lemma append_length (a b : string) :
  String.length (a +:+ b) = (String.length a + String.length b)%nat.
Proof.
  induction a as [|c a IH]; [reflexivity|].
  change (String c a +:+ b) with (String c (a +:+ b)). cbn [String.length].
  now rewrite IH.
Qed.

(** The user's name can be read off the path of the checkpoint. *)
Lemma append_inj_r (u1 u2 t : string) : u1 +:+ t = u2 +:+ t -> u1 = u2.
Proof.
  revert u2. induction u1 as [|c u1 IH]; intros [|d u2] H.
  - reflexivity.
  - apply (f_equal String.length) in H. rewrite !append_length in H.
    cbn [String.length] in H. lia.
  - apply (f_equal String.length) in H. rewrite !append_length in H.
    cbn [String.length] in H. lia.
  - change (String c (u1 +:+ t) = String d (u2 +:+ t)) in H.
    injection H as -> H. f_equal. now apply IH.
Qed.

Lemma TREE_FILE_inj u1 u2 : TREE_FILE u1 = TREE_FILE u2 -> u1 = u2.
Proof.
  unfold TREE_FILE. intros H.
  apply (String.app_inj "/tmp/DRSTree_") in H. now apply append_inj_r in H.
Qed.

Section run_frame.
Import main.
Variable env : Env.
Variable renv : RunEnv.

(** Obtaining the results invokes no tree action. *)
Lemma gather_invoked ctx w :
  invoked (fst (gather env renv ctx w)) = invoked w.
Proof.
  unfold gather. destruct (scan ctx); cbn [negb].
  - unfold lift, pool_sources.
    destruct (use_pool ctx);
      [now destruct (pool_imap env _ _ _) | now destruct (scan_sources env _ _ _)].
  - unfold bind at 1, load, bind at 1, get.
    destruct (files w !! TREE_FILE (USER renv)) as [[|a [|b [|c [|d rest]]]]|];
      try reflexivity.
    cbn -[TREE_FILE]. destruct b, c, d; reflexivity.
Qed.

Lemma run_unfold ctx w :
  run env renv ctx w
  = match gather env renv ctx (start renv w) with
    | (w1, inl e) => (w1, inl e)
    | (w1, inr results) => conclude renv ctx results w1
    end.
Proof. reflexivity. Qed.

(** A scan without a pool is the loop over the sources. *)
Lemma gather_scan ctx w :
  scan ctx = true ->
  use_pool ctx = false ->
  gather env renv ctx w
  = match scan_sources env (process_vars ctx) (sources ctx) (shared w) with
    | (s1, r) => (with_shared (fun _ => s1) w, r)
    end.
Proof. intros H Hpool. unfold gather. now rewrite H, Hpool. Qed.

(** A scan, with or without a pool: the results of the loop when it
    returns, its raise when it is cut short. *)
Lemma gather_scan_results ctx w :
  scan ctx = true ->
  match scan_sources env (process_vars ctx) (sources ctx) (shared w) with
  | (s1, inr results) =>
      gather env renv ctx w = (with_shared (fun _ => s1) w, inr results)
  | (_, inl e) => snd (gather env renv ctx w) = inl e
  end.
Proof.
  intros H. unfold gather. rewrite H. cbn [negb].
  destruct (use_pool ctx).
  - pose proof (pool_sources_scan env (process_vars ctx) (sources ctx) (shared w))
      as Hpool.
    unfold lift.
    destruct (scan_sources env (process_vars ctx) (sources ctx) (shared w))
      as [s1 [e|results]].
    + destruct (pool_sources env (process_vars ctx) (sources ctx) (shared w)).
      exact Hpool.
    + now rewrite Hpool.
  - unfold lift.
    now destruct (scan_sources env (process_vars ctx) (sources ctx) (shared w))
      as [s1 [e|results]].
Qed.
End run_frame.

(** C7.
    - After every scan that is not interrupted, [run] leaves at
      [TREE_FILE], a path fixed by the invoking user alone, a sequence of
      four elements: the controlled arguments, the tree of the scan, the
      error log, the results, in this order.
    - An invocation without scan over such a checkpoint takes the results
      and the error log from it, and its tree with [commands_file] replaced
      by the value of the new invocation and nothing else changed; it
      stores them back in the same form. *)
Theorem C7_checkpoint :
  (forall env renv ctx w,
     main.scan ctx = true ->
     snd (main.run env renv ctx w) = inl KeyboardInterrupt
     \/ exists s1 results,
          main.scan_sources env (main.process_vars ctx) (main.sources ctx)
            (main.shared (main.start renv w)) = (s1, inr results)
          /\ main.files (fst (main.run env renv ctx w)) !! TREE_FILE (main.USER renv)
             = Some [main.PArgs (map (fun key => (key, main.getattribute ctx key))
                                     CONTROLLED_ARGS);
                     main.PTree (main.tree s1);
                     main.PLog (main.scan_err_log w);
                     main.PResults results])
  /\ (forall env renv ctx w snapshot t l r,
        main.scan ctx = false ->
        main.files w !! TREE_FILE (main.USER renv)
          = Some [snapshot; main.PTree t; main.PLog l; main.PResults r] ->
        exists w1,
          main.gather env renv ctx (main.start renv w) = (w1, inr r)
          /\ main.scan_err_log w1 = l
          /\ main.tree (main.shared w1)
             = main.set_commands_file (main.ctx_commands_file ctx) t
          /\ main.commands_file (main.tree (main.shared w1)) = main.ctx_commands_file ctx
          /\ main.leaves (main.tree (main.shared w1)) = main.leaves t
          /\ main.duplicates (main.tree (main.shared w1)) = main.duplicates t
          /\ main.paths (main.tree (main.shared w1)) = main.paths t
          /\ main.hash (main.tree (main.shared w1)) = main.hash t
          /\ main.files (fst (main.run env renv ctx w)) !! TREE_FILE (main.USER renv)
             = Some [main.PArgs (map (fun key => (key, main.getattribute ctx key))
                                     CONTROLLED_ARGS);
                     main.PTree (main.set_commands_file (main.ctx_commands_file ctx) t);
                     main.PLog l;
                     main.PResults r])
  /\ (forall u1 u2, TREE_FILE u1 = TREE_FILE u2 -> u1 = u2).
Proof.
  split; [|split; [|exact TREE_FILE_inj]].
  - intros env renv ctx w Hscan.
    rewrite !run_unfold.
    pose proof (gather_scan_results env renv ctx (main.start renv w) Hscan) as Hg.
    pose proof (scan_sources_no_exception env (main.process_vars ctx)
                  (main.sources ctx) (main.shared (main.start renv w))) as Hno.
    destruct (main.scan_sources env (main.process_vars ctx) (main.sources ctx)
                (main.shared (main.start renv w))) as [s1 [[|e]|results]].
    + left. destruct (main.gather env renv ctx (main.start renv w)) as [w1 r].
      cbn in Hg. now subst r.
    + now destruct (Hno e).
    + right. exists s1, results. split; [reflexivity|]. rewrite Hg.
      pose proof (conclude_spec renv ctx results
                    (main.with_shared (fun _ => s1) (main.start renv w)))
        as (Hfiles & _).
      cbn zeta in Hfiles. rewrite Hfiles. apply lookup_insert_eq.
  - intros env renv ctx w snapshot t l r Hscan Hfile.
    destruct (gather_checkpoint env renv ctx (main.start renv w) snapshot t l r []
                Hscan Hfile) as (w1 & Hg & Ht & Hl & _).
    exists w1. split; [exact Hg|]. split; [exact Hl|]. split; [exact Ht|].
    rewrite Ht. repeat split.
    rewrite run_unfold, Hg.
    pose proof (conclude_spec renv ctx r w1) as (Hfiles & _).
    cbn zeta in Hfiles. rewrite Hfiles, lookup_insert_eq.
    unfold main.checkpoint. now rewrite Ht, Hl.
Qed.

(** The checkpoint at work: [alice] scans [a.nc], then acts without scan
    with another commands file. *)
Lemma C7_checkpoint_witness :
  let env := example.main_env (Some "v20200101") "v20200102" (example.upgrade_disk "cc") in
  let scanned := fst (main.run env alice (alice_ctx true None "upgrade") empty_world) in
  let ctx := alice_ctx false (Some "/tmp/commands.sh") "upgrade" in
  (exists t,
     main.files scanned !! "/tmp/DRSTree_alice.pkl"
     = Some [main.PArgs (map (fun key => (key, main.getattribute ctx key))
                             CONTROLLED_ARGS);
             main.PTree t;
             main.PLog (main.VStr "/tmp/esgprep.err");
             main.PResults [PyTrue]]
     /\ length (main.leaves t) = 3%nat)
  /\ (exists w1,
        main.gather env alice ctx (main.start alice scanned) = (w1, inr [PyTrue])
        /\ main.scan_err_log w1 = main.VStr "/tmp/esgprep.err"
        /\ main.commands_file (main.tree (main.shared w1)) = Some "/tmp/commands.sh"
        /\ length (main.leaves (main.tree (main.shared w1))) = 3%nat).
Proof.
  intros env scanned ctx. split.
  - destruct (proj1 C7_checkpoint env alice (alice_ctx true None "upgrade")
                empty_world eq_refl) as [Hk | (s1 & results & Hscan & Hfile)].
    + vm_compute in Hk. discriminate.
    + exists (main.tree s1). vm_compute in Hscan. injection Hscan as <- <-.
      split; [exact Hfile | reflexivity].
  - edestruct (proj1 (proj2 C7_checkpoint) env alice ctx scanned)
      as (w1 & Hg & Hl & _ & Hc & Hleaves & _).
    + reflexivity.
    + vm_compute. reflexivity.
    + exists w1. split; [exact Hg|]. split; [exact Hl|]. split; [exact Hc|].
      rewrite Hleaves. reflexivity.
Defined.

(** ** The counts and the gate *)

(** C8.  For every run that obtains its results, by a scan that is not
    interrupted or from the checkpoint: [scan_files] is the length of the
    result list and [scan_errors] the number of [None] in it; the
    checkpoint is written whatever the results are; a tree action is
    invoked only if [evaluate(results)] accepts, and when it refuses the run
    ends with the checkpoint written, no action invoked and the tree as the
    scan left it.  A scan yields one result per source. *)
Theorem C8_counts_checkpoint_gate env renv ctx w w1 results :
  main.gather env renv ctx (main.start renv w) = (w1, inr results) ->
  let r := main.run env renv ctx w in
  main.scan_files (fst r) = length results
  /\ main.scan_errors (fst r) = count_None results
  /\ main.files (fst r) !! TREE_FILE (main.USER renv)
     = Some (main.checkpoint ctx w1 results)
  /\ (main.invoked (fst r) <> main.invoked w -> main.evaluate renv results = true)
  /\ (main.evaluate renv results = false ->
      snd r = inr tt
      /\ main.invoked (fst r) = main.invoked w
      /\ main.shared (fst r) = main.shared w1)
  /\ (main.scan ctx = true -> length results = length (main.sources ctx)).
Proof.
  intros Hg r. subst r. rewrite run_unfold, Hg.
  pose proof (conclude_spec renv ctx results w1)
    as (Hfiles & Hn & He & _ & Hrefuse & Hgate).
  cbn zeta in *.
  pose proof (gather_invoked env renv ctx (main.start renv w)) as Hinv.
  rewrite Hg in Hinv. cbn in Hinv.
  split; [exact Hn|]. split; [exact He|].
  split; [rewrite Hfiles; apply lookup_insert_eq|].
  split; [|split].
  - intros Hne. destruct Hgate as [Hsame | [Hacc _]]; [|exact Hacc].
    rewrite Hsame, Hinv in Hne. now destruct Hne.
  - intros Hrej. destruct (Hrefuse Hrej) as [Hi Hs].
    split; [|split; [now rewrite Hi, Hinv | exact Hs]].
    unfold main.conclude, bind at 1 2 3, modify at 1, get at 1, main.store, modify at 1.
    cbn -[TREE_FILE main.checkpoint]. now rewrite Hrej.
  - intros Hscan.
    pose proof (gather_scan_results env renv ctx (main.start renv w) Hscan) as Hg'.
    destruct (main.scan_sources env (main.process_vars ctx) (main.sources ctx)
                (main.shared (main.start renv w))) as [s1 [e|results']] eqn:Hs.
    + rewrite Hg in Hg'. discriminate.
    + rewrite Hg in Hg'. injection Hg' as _ ->. eapply scan_sources_length, Hs.
Qed.

(** The gate at work: the upgrade version of [alice]'s scan is the latest
    one, the file is refused with [OlderUpgrade], and the run ends with the
    counts set, the checkpoint written and no action invoked. *)
Lemma C8_counts_checkpoint_gate_witness :
  let env := example.main_env (Some "v20200102") "v20200102" (example.upgrade_disk "cc") in
  let ctx := alice_ctx true None "upgrade" in
  let r := main.run env alice ctx empty_world in
  main.scan_files (fst r) = 1%nat
  /\ main.scan_errors (fst r) = 1%nat
  /\ is_Some (main.files (fst r) !! "/tmp/DRSTree_alice.pkl")
  /\ snd r = inr tt
  /\ main.invoked (fst r) = [].
Proof.
  intros env ctx r.
  pose proof (C8_counts_checkpoint_gate env alice ctx empty_world
                (fst (main.gather env alice ctx (main.start alice empty_world)))
                [PyNone] eq_refl)
    as (Hn & He & Hf & _ & Hrej & _).
  destruct (Hrej eq_refl) as (Hr & Hi & _).
  split; [exact Hn|]. split; [exact He|]. split; [|split; [exact Hr | exact Hi]].
  fold r in Hf. change (TREE_FILE (main.USER alice)) with "/tmp/DRSTree_alice.pkl" in Hf.
  rewrite Hf. eexists. reflexivity.
Defined.

(** ** Checksums disabled *)

Section make_no_checksum.
Import make.
Variable env : Env.
Variable self : Process.

(** With [no_checksum] set, [check_latest] of [make.__call__] never finds
    a duplicate and never consults the checksums.  Where the version test
    lets the file through and the sizes read at [current_path] and at the
    latest file are equal, the file is no duplicate unless the two files
    carry the same tracking ID: [UnchangedTrackingID] is raised then. *)
Lemma make_no_checksum_spec attrs current_path latest_path (s : State) :
  no_checksum self = true ->
  (forall v, snd (check_latest env self attrs current_path latest_path s)
             <> inr (v, true))
  /\ (forall f, check_latest (with_get_checksum env f) self attrs current_path
                  latest_path s
                = check_latest env self attrs current_path latest_path s)
  /\ (forall lp latest_attrs sz,
        latest_path = Some lp ->
        exists_ env lp = true ->
        py_str_lt (get_version env lp) (get_version env current_path) = false ->
        get_ncattrs env lp = inr latest_attrs ->
        st_size env current_path = inr sz ->
        st_size env lp = inr sz ->
        let current_id := get_tracking_id env attrs in
        let latest_id := get_tracking_id env latest_attrs in
        (current_id = latest_id -> truthy current_id = true ->
         check_latest env self attrs current_path latest_path s
           = (s, inl (Exception (UnchangedTrackingID lp latest_id
                                   current_path current_id))))
        /\ (current_id <> latest_id \/ truthy current_id = false ->
            check_latest env self attrs current_path latest_path s
              = (s, inr (get_version env lp, false)))).
Proof.
  intros Hnc. split; [|split].
  - intros v. unfold check_latest. rewrite Hnc.
    destruct latest_path as [lp|]; [|discriminate].
    destruct (exists_ env lp); [|discriminate].
    destruct (py_str_lt _ _); [discriminate|].
    unfold bind, call.
    destruct (get_ncattrs env lp) as [e|latest_attrs]; [discriminate|].
    destruct (bool_decide _); [|discriminate].
    destruct (st_size env current_path) as [e|sz1]; [discriminate|].
    destruct (st_size env lp) as [e|sz2]; [discriminate|].
    rewrite andb_false_r. now destruct (_ && _)%bool.
  - intros f. unfold check_latest. cbn. rewrite Hnc.
    destruct latest_path as [lp|]; [|reflexivity].
    destruct (exists_ env lp); [|reflexivity].
    destruct (py_str_lt _ _); [reflexivity|].
    unfold bind, call.
    destruct (get_ncattrs env lp) as [e|latest_attrs]; [reflexivity|].
    destruct (bool_decide _); [|reflexivity].
    destruct (st_size env current_path) as [e|sz1]; [reflexivity|].
    destruct (st_size env lp) as [e|sz2]; [reflexivity|].
    now rewrite andb_false_r.
  - intros lp latest_attrs sz -> Hex Hver Hattrs Hs1 Hs2 current_id latest_id.
    unfold check_latest, bind, call.
    rewrite Hex, Hver, Hattrs, Hnc. fold current_id latest_id. split.
    + intros Heq Ht. rewrite bool_decide_eq_true_2 by exact Heq.
      rewrite Hs1, Hs2, andb_false_r, <- Heq, Ht. reflexivity.
    + intros Hor. destruct (decide (current_id = latest_id)) as [Heq|Hne].
      * destruct Hor as [Hne|Hf]; [now destruct Hne|].
        rewrite bool_decide_eq_true_2 by exact Heq.
        rewrite Hs1, Hs2, andb_false_r, Hf. reflexivity.
      * rewrite bool_decide_eq_false_2 by exact Hne. reflexivity.
Qed.
End make_no_checksum.

(** C9 (the code departs from the claim in [make.py]).  Checksums are
    disabled; [a.nc] comes in with the tracking ID and the size of the
    [a.nc] of the latest version, and the sizes the worker reads are equal.
    The file is not treated as a non-duplicate: the branch of line 180,
    commented 'If different sizes', raises [UnchangedTrackingID]; the
    worker returns [None], queues no leaf and counts an error. *)
Theorem C9_equal_size_refused :
  let self := example.make_self true false "move" in
  let s := example.make_start "v20200101" in
  let source := example.incoming_file "a.nc" in
  let cur := example.tas "v20200101" "a.nc" in
  let lp := example.tas "v20200102" "a.nc" in
  let env := example.make_env (Some "v20200102") duplicate_disk in
  let r := make.__call__ env self source s in
  make.no_checksum self = true
  /\ make.exists_ env lp = true
  /\ make.st_size env source = make.st_size env lp
  /\ make.st_size env cur = make.st_size env lp
  /\ snd (make.call_body env self source s)
     = inl (Exception (make.UnchangedTrackingID lp (Some "hdl:21.14100/1")
                         cur (Some "hdl:21.14100/1")))
  /\ snd r = inr PyNone
  /\ make.leaves (make.tree (fst r)) = []
  /\ make.errors (fst r) = 1%nat.
Proof. repeat split; vm_compute; reflexivity. Qed.

(** ** The latest version recorded for a dataset *)

Section make_record.
Import make.
Variable env : Env.

(** A file recorded with success under a key the tree already holds agrees
    with the latest version stored for the key. *)
Lemma record_entry_agrees source current_path dup version s s' e :
  paths (tree s) !! str (parent (get_drs_up env current_path)) = Some e ->
  record_entry env source current_path dup version s = (s', inr tt) ->
  version = latest e.
Proof.
  intros He. unfold record_entry, bind at 1, get. rewrite He.
  unfold bind, set_paths, modify.
  destruct (String.eqb_spec version (latest e)); [auto | discriminate].
Qed.

(** The record is appended before the assertion is checked: whatever the
    latest version of the file, its record is in the list afterwards. *)
Lemma record_entry_appends source current_path dup version s e :
  paths (tree s) !! str (parent (get_drs_up env current_path)) = Some e ->
  paths (tree (fst (record_entry env source current_path dup version s)))
    !! str (parent (get_drs_up env current_path))
  = Some {| files := files e ++ [{| rec_src := source; rec_dst := current_path;
                                    rec_is_duplicate := dup |}];
            latest := latest e |}.
Proof.
  intros He. unfold record_entry, bind at 1, get. rewrite He.
  unfold bind, set_paths, modify. cbn.
  destruct (String.eqb version (latest e)); cbn; apply lookup_insert_eq.
Qed.

(** Queuing the leaves of a file leaves [tree.paths] as it is. *)
Lemma leaves_keep_paths self source current_path latest_path dup s :
  paths (tree (fst
    ((if negb dup then
        do create_leaf (version_leaf env current_path) in
        do (let* s := get in create_leaf (latest_leaf env (tree s) current_path)) in
        do create_leaf (files_leaf env self current_path) in
        upgrade_leaves env self current_path latest_path
      else duplicate_leaf env self source current_path latest_path) s)))
  = paths (tree s).
Proof.
  destruct dup; cbn [negb].
  - unfold duplicate_leaf. destruct (upgrade_from_latest self); [reflexivity|].
    unfold bind at 1.
    destruct latest_path as [lp|]; [|reflexivity]. unfold call.
    destruct (os_readlink env lp) as [e|target]; [reflexivity|].
    unfold bind, create_leaf, modify. cbn.
    now destruct (String.eqb _ _).
  - unfold bind at 1 2 3 4, create_leaf, modify, get. cbn.
    set (s3 := with_tree _ _).
    rewrite (make_upgrade_leaves_state env self current_path latest_path s3).
    reflexivity.
Qed.

(** Two files of a dataset that disagree on the latest version are not both
    processed with success: a file that resolves under a key the tree holds
    and returns [True] has observed the latest version stored for the key. *)
Lemma call_true_agrees self source s current_attrs current_path latest_path
    version dup e s' :
  make_resolves env self source s current_attrs current_path latest_path ->
  check_latest env self current_attrs current_path latest_path s
    = (s, inr (version, dup)) ->
  paths (tree s) !! str (parent (get_drs_up env current_path)) = Some e ->
  __call__ env self source s = (s', inr PyTrue) ->
  version = latest e.
Proof.
  intros Hres Hcheck He Hcall. unfold __call__, try_worker in Hcall.
  rewrite (call_body_resolved env self source s _ _ _ Hres) in Hcall.
  unfold make_after_resolution, bind at 1 in Hcall. rewrite Hcheck in Hcall.
  unfold bind at 1 in Hcall.
  pose proof (leaves_keep_paths self source current_path latest_path dup s) as Hp.
  match type of Hp with
  | context [fst (?gen s)] => destruct (gen s) as [s2 [[|x]|[]]]
  end; cbn in Hp; try discriminate.
  unfold bind in Hcall. rewrite <- Hp in He.
  destruct (record_entry env source current_path dup version s2)
    as [s3 [[|x]|[]]] eqn:Hrec; try discriminate.
  eapply record_entry_agrees; [exact He | exact Hrec].
Qed.
End make_record.

(** C10 (the code departs from the claim).  Version v20200101 holds [a.nc];
    the run, for v20200101 again, takes the new file [c.nc], then a changed
    [a.nc].  [c.nc] observes the latest version ["Initial"], which is
    stored for the dataset; [a.nc] observes ["v20200101"], its assertion
    fails and the worker returns [None], but its record has been appended
    to the files of the dataset before. *)
Theorem C10_record_kept_after_failed_assert :
  let env := example.make_env (Some "v20200101") mixed_disk in
  let self := example.make_self false false "move" in
  let c := example.incoming_file "c.nc" in
  let a := example.incoming_file "a.nc" in
  let s0 := example.make_start "v20200101" in
  let r1 := make.__call__ env self c s0 in
  let r2 := make.__call__ env self a (fst r1) in
  snd r1 = inr PyTrue
  /\ snd (make.call_body env self a (fst r1)) = inl (Exception make.AssertionError)
  /\ snd r2 = inr PyNone
  /\ make.paths (make.tree (fst r2)) !! "/data/CMIP6/tas"
     = Some {| make.files :=
                 [{| make.rec_src := c; make.rec_dst := example.tas "v20200101" "c.nc";
                     make.rec_is_duplicate := false |};
                  {| make.rec_src := a; make.rec_dst := example.tas "v20200101" "a.nc";
                     make.rec_is_duplicate := false |}];
               make.latest := "Initial" |}
  /\ (forall attrs, make.check_latest env self attrs
                       (example.tas "v20200101" "c.nc")
                       (Some (example.tas "v20200101" "c.nc")) s0
                     = (s0, inr ("Initial", false)))
  /\ make.check_latest env self {["tracking_id" := "hdl:21.14100/4"]}
       (example.tas "v20200101" "a.nc")
       (Some (example.tas "v20200101" "a.nc")) (fst r1)
     = (fst r1, inr ("v20200101", false)).
Proof. repeat split; vm_compute; reflexivity. Qed.

(** ** The older worker, for comparison *)

(** [main.process] on the ordering of versions: v20200102 after the latest
    version v20200101 is processed, v20200101 after the latest version
    v20200102 raises [OlderUpgrade]. *)
Lemma main_version_ordering :
  let cctx := example.main_cctx false false "move" in
  snd (main.process_body
         (example.main_env (Some "v20200101") "v20200102" (example.upgrade_disk "cc"))
         cctx "/incoming/a.nc" example.main_start)
    = inr PyTrue
  /\ snd (main.process_body
            (example.main_env (Some "v20200102") "v20200101" (example.upgrade_disk "cc"))
            cctx "/incoming/a.nc" example.main_start)
     = inl (Exception (main.OlderUpgrade "v20200101" (Some "v20200102"))).
Proof. split; vm_compute; reflexivity. Qed.

(** [main.process] has no size step and compares the checksums whether
    [no_checksum] is set or not: a copy of the latest [a.nc] is a
    duplicate. *)
Lemma main_no_checksum_still_compares fh fph env cctx s c :
  main.os_path_exists env
    (os_path_join (main.path fph [("latest", true); ("root", true)])
                  [main.filename fh]) = true ->
  main.checksum env
    (os_path_join (main.path fph [("latest", true); ("root", true)])
                  [main.filename fh]) (main.checksum_type cctx) = inr c ->
  main.checksum env (main.ffp fh) (main.checksum_type cctx) = inr c ->
  main.compare_latest env cctx fh fph s = (s, inr true).
Proof.
  intros Hex Hl Hc. unfold main.compare_latest, bind, call.
  rewrite Hex, Hl, Hc. now rewrite bool_decide_eq_true_2.
Qed.

(** * More properties of the two files *)

(** ** Footprints *)

Section keeps_rules.
Context {E S : Type} (R : S -> S -> Prop) `{!PreOrder R}.

Lemma keeps_ret {A} (a : A) : keeps (E:=E) R (ret a).
Proof. intros s. reflexivity. Qed.

Lemma keeps_raise {A} (e : E) : keeps R (raise (A:=A) e).
Proof. intros s. reflexivity. Qed.

Lemma keeps_call {A} (r : res E A) : keeps R (call r).
Proof. intros s. reflexivity. Qed.

Lemma keeps_get : keeps (E:=E) R get.
Proof. intros s. reflexivity. Qed.

Lemma keeps_modify (f : S -> S) : (forall s, R s (f s)) -> keeps (E:=E) R (modify f).
Proof. intros Hf s. apply Hf. Qed.

Lemma keeps_bind {A B} (m : M E S A) (k : A -> M E S B) :
  keeps R m -> (forall a, keeps R (k a)) -> keeps R (bind m k).
Proof.
  intros Hm Hk s. unfold bind. specialize (Hm s).
  destruct (m s) as [s1 [e|a]]; cbn in *; [exact Hm|].
  etrans; [exact Hm | apply Hk].
Qed.

Lemma keeps_for {A} (l : list A) (body : A -> M E S unit) :
  (forall x, keeps R (body x)) -> keeps R (for_ l body).
Proof.
  intros Hbody s. apply (for_invariant R).
  - intros; reflexivity.
  - intros s1 s2 s3 H1 H2. etrans; eassumption.
  - intros x s1. apply Hbody.
Qed.

Lemma keeps_try_worker (body : M E S pyresult) on_interrupt on_error final :
  keeps R body ->
  (forall s, R s (on_interrupt s)) ->
  (forall e s, R s (on_error e s)) ->
  (forall s, R s (final s)) ->
  keeps R (try_worker body on_interrupt on_error final).
Proof.
  intros Hbody Hi He Hf s. unfold try_worker. specialize (Hbody s).
  destruct (body s) as [s1 [[|e]|v]]; cbn in *.
  - etrans; [exact Hbody|]. etrans; [apply Hi | apply Hf].
  - etrans; [exact Hbody|]. etrans; [apply He | apply Hf].
  - etrans; [exact Hbody | apply Hf].
Qed.
End keeps_rules.

(** One step of a footprint proof: the rule of the head of the
    computation. *)
Ltac keeps_step :=
  lazymatch goal with
  | |- keeps _ (bind _ _) => apply keeps_bind; [try apply _ | | intros ?]
  | |- keeps _ (ret _) => apply keeps_ret; apply _
  | |- keeps _ (raise _) => apply keeps_raise; apply _
  | |- keeps _ (call _) => apply keeps_call; apply _
  | |- keeps _ get => apply keeps_get; apply _
  | |- keeps _ (for_ _ _) => apply keeps_for; [try apply _ | intros ?]
  | |- keeps _ (if ?b then _ else _) => destruct b
  | |- keeps _ (match ?x with _ => _ end) => destruct x
  | |- keeps _ (let '(_, _) := ?x in _) => destruct x
  end.

Global Instance main_grows_preorder : PreOrder main_grows.
Proof.
  split.
  - intros s. repeat split; try reflexivity.
    + intros key l Hl. exists []. now rewrite app_nil_r.
    + auto.
  - intros s1 s2 s3 (Hl1 & Hd1 & Hg1 & Hc1 & Hp1 & Hh1) (Hl2 & Hd2 & Hg2 & Hc2 & Hp2 & Hh2).
    repeat split; try (etrans; eassumption).
    + intros key l Hl. destruct (Hp1 key l Hl) as (l1 & H1).
      destruct (Hp2 key _ H1) as (l2 & H2). exists (l1 ++ l2).
      now rewrite app_assoc.
    + auto.
Qed.

Global Instance make_grows_preorder : PreOrder make_grows.
Proof.
  split.
  - intros s. repeat split; try reflexivity.
    intros key e He. exists e. repeat split; [exact He | reflexivity].
  - intros s1 s2 s3 (Hl1 & Hd1 & Hv1 & Hp1 & He1 & Hg1) (Hl2 & Hd2 & Hv2 & Hp2 & He2 & Hg2).
    repeat split; try (etrans; eassumption).
    intros key e He. destruct (Hp1 key e He) as (e1 & H1 & Hlat1 & Hf1).
    destruct (Hp2 key e1 H1) as (e2 & H2 & Hlat2 & Hf2). exists e2.
    repeat split; [exact H2 | congruence | etrans; eassumption].
Qed.

(** ** [main.process]: the tree only grows *)

Section main_footprint.
Import main.
Variable env : Env.
Variable cctx : ProcessContext.

Lemma create_leaf_grows l : keeps main_grows (create_leaf l).
Proof.
  apply keeps_modify. intros s. repeat split; cbn; try reflexivity.
  - now apply prefix_app_r.
  - intros key ls Hl. exists []. now rewrite app_nil_r.
  - auto.
Qed.

Lemma duplicates_append_grows x : keeps main_grows (duplicates_append x).
Proof.
  apply keeps_modify. intros s. repeat split; cbn; try reflexivity.
  - now apply prefix_app_r.
  - intros key ls Hl. exists []. now rewrite app_nil_r.
  - auto.
Qed.

Lemma logging_grows r s : main_grows s (logging r s).
Proof.
  repeat split; cbn; try reflexivity.
  - now apply prefix_app_r.
  - intros key ls Hl. exists []. now rewrite app_nil_r.
  - auto.
Qed.

Lemma pbar_update_grows s : main_grows s (pbar_update s).
Proof.
  repeat split; cbn; try reflexivity.
  - intros key ls Hl. exists []. now rewrite app_nil_r.
  - auto.
Qed.

Lemma record_incoming_grows fh fph : keeps main_grows (record_incoming fh fph).
Proof.
  apply keeps_modify. intros s. repeat split; cbn; try reflexivity; [|auto].
  intros key ls Hl. set (k := path fph [("f_part", false)]).
  destruct (decide (k = key)) as [->|Hne].
  - rewrite Hl. rewrite lookup_insert_eq. eauto.
  - exists []. rewrite app_nil_r.
    destruct (paths (tree s) !! k); now rewrite lookup_insert_ne.
Qed.

(** The checksums of the latest version: only the entry of the dataset is
    written, and only when the dataset has none. *)
Lemma hash_latest_grows fph : keeps main_grows (hash_latest env cctx fph).
Proof.
  intros s. unfold hash_latest. destruct (no_checksum cctx); [reflexivity|].
  set (dset_nid := path fph [("f_part", false); ("latest", true); ("root", true)]).
  unfold bind at 1, get. cbn [fst snd].
  destruct (bool_decide (is_Some (hash (tree s) !! dset_nid))) eqn:Hin; [reflexivity|].
  apply bool_decide_eq_false in Hin.
  assert (Hnone : hash (tree s) !! dset_nid = None).
  { destruct (hash (tree s) !! dset_nid); [destruct Hin; eauto | reflexivity]. }
  set (R := fun s0 s1 : State =>
    leaves (tree s1) = leaves (tree s0)
    /\ duplicates (tree s1) = duplicates (tree s0)
    /\ log s1 = log s0
    /\ commands_file (tree s1) = commands_file (tree s0)
    /\ paths (tree s1) = paths (tree s0)
    /\ forall key, key <> dset_nid ->
         hash (tree s1) !! key = hash (tree s0) !! key).
  assert (HR : PreOrder R).
  { split.
    - intros s0. now repeat split.
    - intros s1 s2 s3 (?&?&?&?&?&Hh1) (?&?&?&?&?&Hh2).
      repeat split; try congruence. intros key Hk. rewrite Hh2, Hh1; auto. }
  match goal with
  | |- main_grows s (fst (?m s)) =>
      assert (Hm : keeps R m)
  end.
  { keeps_step.
    - apply keeps_modify. intros st. repeat split. intros key Hk. cbn.
      now rewrite lookup_insert_ne.
    - keeps_step. keeps_step. keeps_step. keeps_step.
      + keeps_step.
      + apply keeps_modify. intros st. repeat split. intros key Hk. cbn.
        now rewrite lookup_alter_ne. }
  destruct (Hm s) as (Hl & Hd & Hg & Hc & Hp & Hh).
  repeat split.
  - now rewrite Hl.
  - now rewrite Hd.
  - now rewrite Hg.
  - exact Hc.
  - intros key ls Hls. exists []. now rewrite app_nil_r, Hp.
  - intros key h Hkey. rewrite Hh; [exact Hkey|]. congruence.
Qed.

Lemma check_latest_grows fh fph : keeps main_grows (check_latest env cctx fh fph).
Proof.
  unfold check_latest, version_check, int_of_version, compare_latest.
  repeat first [apply hash_latest_grows | keeps_step].
Qed.

Lemma upgrade_leaves_grows fh fph : keeps main_grows (upgrade_leaves env cctx fh fph).
Proof.
  unfold upgrade_leaves.
  repeat first [apply create_leaf_grows | keeps_step].
Qed.

Lemma duplicate_leaf_grows fh fph : keeps main_grows (duplicate_leaf env cctx fh fph).
Proof.
  unfold duplicate_leaf.
  repeat first [apply create_leaf_grows | apply duplicates_append_grows | keeps_step].
Qed.

(** Whatever the file and whatever the outcome, [process] only extends the
    tree: the leaves, the duplicates and the log keep what they held, in
    front; the entries of [tree.paths] keep their records, in front; an
    entry of [tree.hash] is never rewritten; [commands_file] is
    untouched. *)
Theorem main_process_grows ffp s :
  main_grows s (fst (process env cctx ffp s)).
Proof.
  revert s. change (keeps main_grows (process env cctx ffp)).
  unfold process. apply keeps_try_worker; [apply _ | | | |].
  - unfold process_body, new_File.
    repeat first [apply check_latest_grows | apply upgrade_leaves_grows
                 | apply duplicate_leaf_grows | apply create_leaf_grows
                 | apply record_incoming_grows
                 | apply keeps_modify; apply logging_grows
                 | keeps_step].
  - reflexivity.
  - intros e s. apply logging_grows.
  - apply pbar_update_grows.
Qed.
End main_footprint.

(** ** [make.__call__]: the tree only grows *)

Section make_footprint.
Import make.
Variable env : Env.
Variable self : Process.

Lemma make_create_leaf_grows l : keeps make_grows (create_leaf l).
Proof.
  apply keeps_modify. intros s. repeat split; cbn; try reflexivity.
  - now apply prefix_app_r.
  - intros key e He. exists e. repeat split; [exact He | reflexivity].
Qed.

Lemma make_duplicates_append_grows x : keeps make_grows (duplicates_append x).
Proof.
  apply keeps_modify. intros s. repeat split; cbn; try reflexivity.
  - now apply prefix_app_r.
  - intros key e He. exists e. repeat split; [exact He | reflexivity].
Qed.


Lemma record_entry_grows source current_path dup version :
  keeps make_grows (record_entry env source current_path dup version).
Proof.
  intros s. unfold record_entry, bind at 1, get. cbn [fst snd].
  set (key := str (parent (get_drs_up env current_path))).
  destruct (paths (tree s) !! key) as [e|] eqn:Hkey.
  - unfold bind, set_paths, modify. cbn.
    assert (Hg : make_grows s
              (with_tree (fun t =>
                 {| leaves := leaves t; duplicates := duplicates t;
                    paths := <[key := {| files := files e
                                           ++ [{| rec_src := source;
                                                  rec_dst := current_path;
                                                  rec_is_duplicate := dup |}];
                                         latest := latest e |}]> (paths t);
                    drs_version := drs_version t |}) s)).
    { repeat split; cbn; try reflexivity.
      intros key' e' He'. destruct (decide (key = key')) as [<-|Hne].
      - rewrite lookup_insert_eq. eexists. split; [reflexivity|].
        rewrite Hkey in He'. injection He' as <-. cbn. split; [reflexivity|].
        now apply prefix_app_r.
      - rewrite lookup_insert_ne by exact Hne. exists e'.
        repeat split; [exact He' | reflexivity]. }
    now destruct (String.eqb version (latest e)).
  - unfold set_paths, modify. repeat split; cbn; try reflexivity.
    intros key' e' He'. destruct (decide (key = key')) as [<-|Hne].
    + congruence.
    + rewrite lookup_insert_ne by exact Hne. exists e'.
      repeat split; [exact He' | reflexivity].
Qed.

Lemma counters_grow s :
  make_grows s (errors_incr s) /\ make_grows s (progress_incr s).
Proof.
  split; repeat split; cbn; try reflexivity; try lia;
    intros key e He; exists e; repeat split; try exact He; reflexivity.
Qed.

Lemma build_path_grows attrs source : keeps make_grows (build_path env self attrs source).
Proof.
  intros s. unfold build_path.
  destruct (drs_path env attrs) as [[|[]]|[drs|]]; reflexivity.
Qed.

(** Whatever the file and whatever the outcome, [__call__] only extends the
    tree: the leaves and the duplicates keep what they held, in front; a
    dataset of [tree.paths] keeps its latest version and its files, in
    front; the version of the tree is untouched and the counters do not
    decrease. *)
Theorem make_call_grows source s :
  make_grows s (fst (__call__ env self source s)).
Proof.
  revert s. change (keeps make_grows (__call__ env self source)).
  unfold __call__. apply keeps_try_worker; [apply _ | | | |].
  - unfold call_body, check_latest, upgrade_leaves, duplicate_leaf.
    repeat first [apply record_entry_grows | apply make_create_leaf_grows
                 | apply build_path_grows
                 | apply make_duplicates_append_grows | keeps_step].
  - intros s. apply counters_grow.
  - intros e s. apply counters_grow.
  - intros s. apply counters_grow.
Qed.
End make_footprint.

(** ** [main.process]: what is recorded, and when *)

Global Instance main_same_records_preorder : PreOrder main_same_records.
Proof.
  split.
  - intros s. now split.
  - intros s1 s2 s3 [H1 H2] [H3 H4]. split; congruence.
Qed.

Section main_records.
Import main.
Variable env : Env.
Variable cctx : ProcessContext.

Lemma check_latest_same_records fh fph :
  keeps main_same_records (check_latest env cctx fh fph).
Proof.
  intros s. destruct (check_latest_frame env cctx fh fph s) as (_ & Hd & Hp).
  now split.
Qed.

Lemma new_leaves_same_records fh fph :
  keeps main_same_records
    (do create_leaf (version_leaf fh fph) in
     do create_leaf (latest_leaf fph) in
     do create_leaf (files_leaf cctx fh fph) in
     if upgrade_from_latest cctx then upgrade_leaves env cctx fh fph else ret tt).
Proof.
  unfold upgrade_leaves.
  repeat first [apply keeps_modify; intros st; now split | keeps_step].
Qed.

(** An ignored file: [process] returns [False] once the handler is built,
    whatever the other collaborators would answer; the tree and the log are
    as they were, the progress bar has moved. *)
Theorem main_ignored_file ffp name sz s :
  File_attributes env ffp = inr (name, sz) ->
  name ∈ ignore_from_incoming cctx ->
  process env cctx ffp s = (pbar_update s, inr PyFalse).
Proof.
  intros Hattr Hign. unfold process, try_worker, process_body, new_File.
  unfold bind at 1 2, call. rewrite Hattr. cbn.
  now rewrite (bool_decide_eq_true_2 _ Hign).
Qed.

(** [tree.paths] holds the files processed with success and no other: a
    call that returns [True] has appended the entry of its file to the
    records of its dataset, creating them if need be; any other call, be it
    a skip, an error or an interrupt, leaves [tree.paths] as it was.
    [tree.duplicates] changes only by the path of the file itself, under
    the link mode ['move'] and without upgrade-from-latest. *)
Theorem main_paths_hold_successes ffp s :
  let r := process env cctx ffp s in
  (match snd r with
   | inr PyTrue =>
       exists name sz fph,
         File_attributes env ffp = inr (name, sz)
         /\ get_drs_parts env {| ffp := ffp; filename := name; size := sz |} = inr fph
         /\ paths (tree (fst r))
            = <[path fph [("f_part", false)] :=
                  default [] (paths (tree s) !! path fph [("f_part", false)])
                  ++ [incoming_of ffp name sz fph]]> (paths (tree s))
   | _ => paths (tree (fst r)) = paths (tree s)
   end)
  /\ (duplicates (tree (fst r)) = duplicates (tree s)
      \/ duplicates (tree (fst r)) = duplicates (tree s) ++ [ffp]
         /\ cctx_mode cctx = "move" /\ upgrade_from_latest cctx = false).
Proof.
  intros r. assert (Hr : r = process env cctx ffp s) by reflexivity. clearbody r.
  unfold process, try_worker, process_body, new_File in Hr.
  unfold bind at 1 2, call at 1 in Hr.
  destruct (File_attributes env ffp) as [[|e]|[name sz]];
    [solve [subst r; cbn; auto] | solve [subst r; cbn; auto] |].
  unfold ret at 1 in Hr. cbv beta iota in Hr.
  set (fh := {| ffp := ffp; filename := name; size := sz |}) in *.
  destruct (bool_decide (filename fh ∈ ignore_from_incoming cctx));
    [solve [subst r; cbn; auto]|].
  unfold bind at 1, call at 1 in Hr.
  destruct (load_attributes env fh) as [[|e]|[]];
    [solve [subst r; cbn; auto] | solve [subst r; cbn; auto] |].
  unfold bind at 1, call at 1 in Hr.
  destruct (check_facets env fh) as [[|e]|[]];
    [solve [subst r; cbn; auto] | solve [subst r; cbn; auto] |].
  unfold bind at 1, call at 1 in Hr.
  destruct (get_drs_parts env fh) as [[|e]|fph] eqn:Hparts;
    [solve [subst r; cbn; auto] | solve [subst r; cbn; auto] |].
  unfold bind at 1 in Hr.
  destruct (py_startswith (py_lower (path fph [])) (py_lower (project cctx)));
    [|solve [subst r; cbn; auto]].
  unfold ret at 1 in Hr. cbv beta iota in Hr. unfold bind at 1 in Hr.
  pose proof (check_latest_same_records fh fph s) as [Hp1 Hd1].
  destruct (check_latest env cctx fh fph s) as [s1 [[|e]|dup]]; cbn in Hp1, Hd1;
    [solve [subst r; cbn; rewrite Hp1, Hd1; auto]
    | solve [subst r; cbn; rewrite Hp1, Hd1; auto] |].
  unfold bind at 1 in Hr. destruct dup; cbn [negb] in Hr.
  - (* a duplicate *)
    unfold duplicate_leaf in Hr. destruct (upgrade_from_latest cctx) eqn:Hup.
    { subst r. cbn. rewrite Hp1, Hd1. auto. }
    unfold bind at 1, call at 1 in Hr.
    destruct (os_readlink env _) as [[|e]|target];
      [solve [subst r; cbn; rewrite Hp1, Hd1; auto]
      | solve [subst r; cbn; rewrite Hp1, Hd1; auto] |].
    unfold bind at 1 in Hr. cbn in Hr.
    destruct (String.eqb_spec (cctx_mode cctx) "move") as [Hm|Hm]; cbn in Hr;
      subst r; cbn; rewrite Hp1, Hd1.
    + split; [|right; auto]. exists name, sz, fph.
      split; [reflexivity | split; [exact Hparts |]].
      destruct (paths (tree s) !! path fph [("f_part", false)]); reflexivity.
    + split; [|left; auto]. exists name, sz, fph.
      split; [reflexivity | split; [exact Hparts |]].
      destruct (paths (tree s) !! path fph [("f_part", false)]); reflexivity.
  - (* no duplicate *)
    pose proof (new_leaves_same_records fh fph s1) as [Hp2 Hd2].
    match type of Hp2 with
    | context [fst (?gen s1)] => destruct (gen s1) as [s2 [[|e]|[]]]
    end; cbn in Hp2, Hd2;
      [solve [subst r; cbn; rewrite Hp2, Hd2, Hp1, Hd1; auto]
      | solve [subst r; cbn; rewrite Hp2, Hd2, Hp1, Hd1; auto] |].
    subst r. cbn. rewrite Hp2, Hd2, Hp1, Hd1. split; [|left; auto].
    exists name, sz, fph. split; [reflexivity | split; [exact Hparts |]].
    destruct (paths (tree s) !! path fph [("f_part", false)]); reflexivity.
Qed.
End main_records.

(** ** [make.__call__]: the counters *)

Section returns_rules.
Context {E S : Type}.

Lemma returns_ret {A} (P : A -> Prop) (a : A) : P a -> returns_only (E:=E) (S:=S) P (ret a).
Proof. intros Ha s a' [= <-]. exact Ha. Qed.

Lemma returns_raise {A} (P : A -> Prop) (e : E) : returns_only (S:=S) P (raise e).
Proof. intros s a [=]. Qed.

Lemma returns_bind {A B} (P : B -> Prop) (m : M E S A) (k : A -> M E S B) :
  (forall a, returns_only P (k a)) -> returns_only P (bind m k).
Proof.
  intros Hk s b. unfold bind. destruct (m s) as [s1 [e|a]]; [intros [=]|].
  apply Hk.
Qed.
End returns_rules.

Global Instance make_same_counters_preorder : PreOrder make_same_counters.
Proof.
  split.
  - intros s. now split.
  - intros s1 s2 s3 [H1 H2] [H3 H4]. split; congruence.
Qed.

Section make_counters.
Import make.
Variable env : Env.
Variable self : Process.



End make_counters.

(** ** [make.__call__]: skips, and what a call can queue *)

Section make_outcomes.
Import make.
Variable env : Env.
Variable self : Process.

(** The directory structure of a file that is not ignored.  When
    [drs_path] gives [None] or raises [TypeError], the file is skipped: the
    answer is [False], the tree and the error counter are as they were.
    Any other exception of [drs_path] is an error: the answer is [None] and
    the error is counted. *)
Theorem make_directory_structure source attrs s :
  name source ∉ ignore_from_incoming self ->
  get_ncattrs env source = inr attrs ->
  let current_attrs := <["dataset-version" := drs_version (tree s)]>
                         (<["filename" := name source]> attrs) in
  (drs_path env current_attrs = inr None
   \/ drs_path env current_attrs = inl (Exception TypeError) ->
   __call__ env self source s = (progress_incr s, inr PyFalse))
  /\ (forall e, e <> TypeError ->
        drs_path env current_attrs = inl (Exception e) ->
        __call__ env self source s = (progress_incr (errors_incr s), inr PyNone)).
Proof.
  intros Hign Hattrs current_attrs.
  assert (Hbody : call_body env self source s
                  = (let* built := build_path env self current_attrs source in
                     match built with
                     | None => ret PyFalse
                     | Some current_path =>
                         let* latest_path := call (with_latest_version env current_path) in
                         make_after_resolution env self source current_attrs
                           current_path latest_path
                     end) s).
  { unfold call_body. rewrite (bool_decide_eq_false_2 _ Hign).
    unfold bind at 1, call at 1. rewrite Hattrs. reflexivity. }
  unfold __call__, try_worker. rewrite Hbody. unfold bind at 1 3, build_path.
  split.
  - intros [H|H]; rewrite H; reflexivity.
  - intros e He H. rewrite H. destruct e; try reflexivity. now destruct He.
Qed.

(** What a call can queue, whatever its outcome.  With [current_path] the
    destination of the file, one of three:
    - nothing;
    - the three leaves of the file, in this order: the link of
      [current_path] in the version folder, the [latest] link of its
      dataset, the leaf of [current_path] in the files folder; nothing goes
      to [tree.duplicates];
    - without upgrade-from-latest, the one symbolic link of a duplicate,
      at [current_path], to what the file of the latest version of
      [current_path] links to; [tree.duplicates] gets the incoming path
      under the link mode ['move'] and nothing otherwise.
    No leaf is ever queued for another file. *)
Theorem make_call_queues source s :
  let r := __call__ env self source s in
  exists ls ds,
    leaves (tree (fst r)) = leaves (tree s) ++ ls
    /\ duplicates (tree (fst r)) = duplicates (tree s) ++ ds
    /\ (ls = [] /\ ds = []
        \/ (exists current_path,
              destination env self source s current_path
              /\ ls = [version_leaf env current_path;
                       latest_leaf env (tree s) current_path;
                       files_leaf env self current_path]
              /\ ds = [])
        \/ (exists current_path lp target,
              destination env self source s current_path
              /\ with_latest_version env current_path = inr (Some lp)
              /\ os_readlink env lp = inr target
              /\ ls = [duplicate_link current_path target]
              /\ upgrade_from_latest self = false
              /\ (self_mode self = "move" /\ ds = [source]
                  \/ self_mode self <> "move" /\ ds = []))).
Proof.
  intros r. assert (Hr : r = __call__ env self source s) by reflexivity. clearbody r.
  match goal with
  | |- ?G => assert (Hnothing : tree (fst r) = tree s -> G)
  end.
  { intros H. exists [], []. rewrite H, !app_nil_r. auto. }
  unfold __call__, try_worker, call_body in Hr.
  destruct (bool_decide (name source ∈ ignore_from_incoming self));
    [subst r; now apply Hnothing|].
  unfold bind at 1, call at 1 in Hr.
  destruct (get_ncattrs env source) as [[|e]|attrs] eqn:Hattrs;
    [subst r; now apply Hnothing | subst r; now apply Hnothing |].
  unfold bind at 1, get at 1 in Hr. unfold bind at 1, build_path at 1 in Hr.
  destruct (drs_path env _) as [[|e]|[drs|]] eqn:Hdrs;
    [subst r; now apply Hnothing | destruct e; subst r; now apply Hnothing
    | | subst r; now apply Hnothing].
  set (current_path := joinpath (joinpath (root self) drs) (of_name (name source))) in *.
  assert (Hdest : destination env self source s current_path)
    by (exists attrs, drs; auto).
  clear Hnothing.
  unfold bind at 1, call at 1 in Hr.
  destruct (with_latest_version env current_path) as [[|e]|latest_path] eqn:Hlatest;
    [subst r; exists [], []; rewrite !app_nil_r; auto
    | subst r; exists [], []; rewrite !app_nil_r; auto |].
  unfold bind at 1 in Hr.
  pose proof (make_check_latest_state env self
                (<["dataset-version" := drs_version (tree s)]>
                   (<["filename" := name source]> attrs))
                current_path latest_path s) as Hs1.
  destruct (check_latest env self _ current_path latest_path s)
    as [s1 [[|e]|[version dup]]]; cbn in Hs1; subst s1;
    [subst r; exists [], []; rewrite !app_nil_r; auto
    | subst r; exists [], []; rewrite !app_nil_r; auto |].
  unfold bind at 1 in Hr. destruct dup; cbn [negb] in Hr.
  - (* a duplicate *)
    unfold duplicate_leaf in Hr. destruct (upgrade_from_latest self) eqn:Hup;
      [subst r; exists [], []; rewrite !app_nil_r; auto|].
    unfold bind at 1 in Hr. destruct latest_path as [lp|];
      [|subst r; exists [], []; rewrite !app_nil_r; auto].
    unfold call at 1 in Hr.
    destruct (os_readlink env lp) as [[|e]|target] eqn:Hlink;
      [subst r; exists [], []; rewrite !app_nil_r; auto
      | subst r; exists [], []; rewrite !app_nil_r; auto |].
    unfold bind at 1, create_leaf at 1, modify at 1 in Hr. cbv beta iota in Hr.
    fold (duplicate_link current_path target) in Hr.
    destruct (String.eqb_spec (self_mode self) "move") as [Hm|Hm].
    + unfold duplicates_append, modify in Hr. cbv beta iota in Hr.
      unfold bind at 1 in Hr.
      match type of Hr with
      | context [record_entry env source current_path true version ?s2] =>
          pose proof (record_entry_leaves env source current_path true version s2)
            as [Hl Hd];
          destruct (record_entry env source current_path true version s2)
            as [s3 [[|e]|[]]]
      end; cbn in Hl, Hd; subst r; cbn; rewrite Hl, Hd;
        exists [duplicate_link current_path target], [source];
        (split; [reflexivity|]); (split; [reflexivity|]);
        right; right; exists current_path, lp, target;
        (split; [exact Hdest|]); (split; [exact Hlatest|]);
        (split; [exact Hlink|]); (split; [reflexivity|]);
        (split; [reflexivity|]); left; now split.
    + unfold ret at 1 in Hr. cbv beta iota in Hr. unfold bind at 1 in Hr.
      match type of Hr with
      | context [record_entry env source current_path true version ?s2] =>
          pose proof (record_entry_leaves env source current_path true version s2)
            as [Hl Hd];
          destruct (record_entry env source current_path true version s2)
            as [s3 [[|e]|[]]]
      end; cbn in Hl, Hd; subst r; cbn; rewrite Hl, Hd;
        exists [duplicate_link current_path target], [];
        (split; [reflexivity|]); (split; [now rewrite app_nil_r|]);
        right; right; exists current_path, lp, target;
        (split; [exact Hdest|]); (split; [exact Hlatest|]);
        (split; [exact Hlink|]); (split; [reflexivity|]);
        (split; [reflexivity|]); right; now split.
  - (* no duplicate *)
    unfold bind at 1 2 3 4, create_leaf, modify, get in Hr. cbv beta iota in Hr.
    cbn [fst snd] in Hr.
    match type of Hr with
    | context [upgrade_leaves env self current_path latest_path ?s3] =>
        pose proof (make_upgrade_leaves_state env self current_path latest_path s3)
          as Hs3;
        destruct (upgrade_leaves env self current_path latest_path s3)
          as [s4 [[|e]|[]]]; cbn in Hs3; subst s4
    end.
    1,2: subst r; cbn; eexists _, []; (split; [rewrite <- !app_assoc; reflexivity|]);
         (split; [now rewrite app_nil_r|]); right; left;
         exists current_path; (split; [exact Hdest | split; reflexivity]).
    unfold bind at 1 in Hr.
    match type of Hr with
    | context [record_entry env source current_path false version ?s2] =>
        pose proof (record_entry_leaves env source current_path false version s2)
          as [Hl Hd];
        destruct (record_entry env source current_path false version s2)
          as [s3 [[|e]|[]]]
    end; cbn in Hl, Hd; subst r; cbn; rewrite Hl, Hd; cbn;
      eexists _, []; (split; [rewrite <- !app_assoc; reflexivity|]);
      (split; [now rewrite app_nil_r|]); right; left;
      exists current_path; (split; [exact Hdest | split; reflexivity]).
Qed.
End make_outcomes.

(** ** The duplicate verdicts *)

Section main_verdict.
Import main.
Variable env : Env.
Variable cctx : ProcessContext.

(** What a verdict of [main.process] means.  Without a latest version the
    file is no duplicate and nothing is consulted.  With one, a verdict is
    reached only for an upgrade version that reads as a number strictly
    above the latest one, and the file is a duplicate exactly when the file
    of its name exists in the latest version with the same checksum, with
    [no_checksum] set or not. *)
Theorem main_verdict_meaning fh fph s s1 dup :
  check_latest env cctx fh fph s = (s1, inr dup) ->
  let latest_file :=
    os_path_join (path fph [("latest", true); ("root", true)]) [filename fh] in
  if truthy (v_latest fph) then
    (exists upgrade latest,
       py_int (py_tail (TREE_VERSION env)) = Some upgrade
       /\ py_int (py_tail (default "" (v_latest fph))) = Some latest
       /\ latest < upgrade)
    /\ (dup = true <->
        os_path_exists env latest_file = true
        /\ exists c, checksum env latest_file (checksum_type cctx) = inr c
                     /\ checksum env (ffp fh) (checksum_type cctx) = inr c)
  else dup = false /\ s1 = s.
Proof.
  intros Hcheck latest_file. unfold check_latest in Hcheck.
  destruct (truthy (v_latest fph)); [|now injection Hcheck as <- <-].
  unfold bind at 1, version_check, bind at 1 2, int_of_version in Hcheck.
  destruct (py_int (py_tail (TREE_VERSION env))) as [upgrade|]; [|discriminate].
  cbn [ret raise] in Hcheck.
  destruct (py_int (py_tail (default "" (v_latest fph)))) as [latest|];
    [|discriminate].
  cbn [ret raise] in Hcheck.
  destruct (Z.leb_spec upgrade latest) as [Hle|Hlt]; [discriminate|].
  split; [exists upgrade, latest; auto|].
  cbn [ret] in Hcheck. unfold bind at 1 in Hcheck.
  destruct (hash_latest env cctx fph s) as [s0 [e|[]]]; [discriminate|].
  unfold compare_latest in Hcheck. fold latest_file in Hcheck.
  destruct (os_path_exists env latest_file).
  - unfold bind, call in Hcheck.
    destruct (checksum env latest_file (checksum_type cctx)) as [e|c1];
      [discriminate|].
    destruct (checksum env (ffp fh) (checksum_type cctx)) as [e|c2];
      [discriminate|].
    injection Hcheck as _ <-. split.
    + intros Hd. apply bool_decide_eq_true in Hd. subst c2. eauto.
    + intros (_ & c & [= ->] & [= ->]). now apply bool_decide_eq_true.
  - injection Hcheck as _ <-. split; [discriminate|]. now intros [[=] _].
Qed.
End main_verdict.

Section make_verdict.
Import make.
Variable env : Env.
Variable self : Process.

(** What a verdict of [make.__call__] means.  The latest version it reports
    is ["Initial"], or the version of an existing latest file.  A duplicate
    is a file whose namesake exists in the latest version with the same
    tracking ID, be it none on both sides, the same size and the same
    checksum, checksums being enabled. *)
Theorem make_verdict_meaning attrs current_path latest_path s s1 version dup :
  check_latest env self attrs current_path latest_path s = (s1, inr (version, dup)) ->
  s1 = s
  /\ (version = "Initial" /\ dup = false
      \/ exists lp, latest_path = Some lp /\ exists_ env lp = true
                    /\ version = get_version env lp
                    /\ py_str_lt version (get_version env current_path) = false)
  /\ (dup = true ->
      no_checksum self = false
      /\ exists lp latest_attrs sz c,
           latest_path = Some lp
           /\ get_ncattrs env lp = inr latest_attrs
           /\ get_tracking_id env attrs = get_tracking_id env latest_attrs
           /\ st_size env current_path = inr sz /\ st_size env lp = inr sz
           /\ get_checksum env current_path (checksum_type self) (checksums_from self)
              = inr c
           /\ get_checksum env lp (checksum_type self) (checksums_from self) = inr c).
Proof.
  intros Hcheck.
  pose proof (make_check_latest_state env self attrs current_path latest_path s) as Hs.
  rewrite Hcheck in Hs. cbn in Hs. split; [exact Hs|]. clear Hs.
  unfold check_latest in Hcheck.
  destruct latest_path as [lp|];
    [|injection Hcheck as _ <- <-; split; [auto | discriminate]].
  destruct (exists_ env lp) eqn:Hex;
    [|injection Hcheck as _ <- <-; split; [auto | discriminate]].
  destruct (py_str_lt _ _) eqn:Hver; [discriminate|].
  unfold bind at 1, call at 1 in Hcheck.
  destruct (get_ncattrs env lp) as [e|latest_attrs] eqn:Hattrs; [discriminate|].
  destruct (bool_decide _) eqn:Hid;
    [|injection Hcheck as _ <- <-; split; [right; eauto | discriminate]].
  apply bool_decide_eq_true in Hid.
  unfold bind at 1, call at 1 in Hcheck.
  destruct (st_size env current_path) as [e|sz1] eqn:Hs1; [discriminate|].
  unfold bind at 1, call at 1 in Hcheck.
  destruct (st_size env lp) as [e|sz2] eqn:Hs2; [discriminate|].
  destruct (Z.eqb_spec sz1 sz2) as [->|Hsz]; cbn [andb] in Hcheck.
  - destruct (no_checksum self) eqn:Hnc; cbn [negb] in Hcheck.
    + destruct (_ && _)%bool; [discriminate|].
      injection Hcheck as _ <- <-. split; [right; eauto | discriminate].
    + unfold bind, call in Hcheck.
      destruct (get_checksum env current_path _ _) as [e|c1] eqn:Hc1; [discriminate|].
      destruct (get_checksum env lp _ _) as [e|c2] eqn:Hc2; [discriminate|].
      destruct (bool_decide (c1 = c2)) eqn:Hc.
      * apply bool_decide_eq_true in Hc. subst c2.
        injection Hcheck as _ <- <-. split; [right; eauto|].
        intros _. split; [reflexivity|]. exists lp, latest_attrs, sz2, c1. auto 10.
      * destruct (_ && _)%bool; [discriminate|].
        injection Hcheck as _ <- <-. split; [right; eauto | discriminate].
  - destruct (_ && _)%bool; [discriminate|].
    injection Hcheck as _ <- <-. split; [right; eauto | discriminate].
Qed.

(** Files without a tracking ID are told apart by size and checksum and are
    never refused: when the incoming file has no tracking ID, or an empty
    one, and the attributes, sizes and checksums are read, the verdict is a
    duplicate exactly when the latest file has none either (or the same
    empty one), the sizes and the checksums are equal and checksums are
    enabled. *)
Theorem make_without_tracking_id attrs current_path lp latest_attrs sz1 sz2 c1 c2 s :
  exists_ env lp = true ->
  py_str_lt (get_version env lp) (get_version env current_path) = false ->
  get_ncattrs env lp = inr latest_attrs ->
  st_size env current_path = inr sz1 ->
  st_size env lp = inr sz2 ->
  get_checksum env current_path (checksum_type self) (checksums_from self) = inr c1 ->
  get_checksum env lp (checksum_type self) (checksums_from self) = inr c2 ->
  truthy (get_tracking_id env attrs) = false ->
  check_latest env self attrs current_path (Some lp) s
  = (s, inr (get_version env lp,
             bool_decide (get_tracking_id env attrs = get_tracking_id env latest_attrs)
             && (sz1 =? sz2) && negb (no_checksum self) && bool_decide (c1 = c2))%bool).
Proof.
  intros Hex Hver Hattrs Hs1 Hs2 Hc1 Hc2 Hid.
  unfold check_latest, bind, call. rewrite Hex, Hver, Hattrs.
  destruct (bool_decide _); [|reflexivity].
  rewrite Hs1, Hs2. cbn [andb].
  destruct ((sz1 =? sz2) && negb (no_checksum self))%bool eqn:Hsz.
  - rewrite Hc1, Hc2. destruct (bool_decide (c1 = c2)); [reflexivity|].
    now rewrite Hid.
  - now rewrite Hid.
Qed.
End make_verdict.

(** ** [main.process]: the checksums of the latest version *)

Section main_hash.
Import main.
Variable env : Env.
Variable cctx : ProcessContext.

(** The walk that fills [tree.hash] is made at most once per dataset.  With
    checksums enabled, whatever way the walk of lines 70-77 ends, the
    dataset has its entry in [tree.hash] afterwards; from then on, in
    whatever state the tree has grown to and for the handler of any file
    of that dataset, the walk is skipped and the state is left as it is.
    A walk that a failing checksum cuts short is not taken up again.  (The
    comparison of lines 81-83 is another matter: it reads the checksum of
    the latest file for every processed file.) *)
Theorem main_hash_latest_once fph s :
  no_checksum cctx = false ->
  let args := [("f_part", false); ("latest", true); ("root", true)] in
  let s1 := fst (hash_latest env cctx fph s) in
  is_Some (hash (tree s1) !! path fph args)
  /\ forall fph' s2,
       path fph' args = path fph args ->
       main_grows s1 s2 ->
       hash_latest env cctx fph' s2 = (s2, inr tt).
Proof.
  intros Hnc args s1. set (dset_nid := path fph args).
  assert (Hin : is_Some (hash (tree s1) !! dset_nid)).
  { subst s1. unfold hash_latest. rewrite Hnc. fold args. fold dset_nid.
    unfold bind at 1, get. cbn [fst snd].
    destruct (bool_decide (is_Some (hash (tree s) !! dset_nid))) eqn:Hin.
    - now apply bool_decide_eq_true in Hin.
    - unfold bind at 1, set_hash at 1, modify at 1. cbv beta iota.
      set (R := fun s0 s1 : State =>
        is_Some (hash (tree s0) !! dset_nid) -> is_Some (hash (tree s1) !! dset_nid)).
      assert (HR : PreOrder R).
      { split; [intros s0; exact (fun H => H) | intros s0 s2 s3 H1 H2 H; auto]. }
      match goal with
      | |- is_Some (hash (tree (fst (?m ?s0))) !! dset_nid) =>
          assert (Hm : keeps R m); [|apply (Hm s0)]
      end.
      + keeps_step. keeps_step. keeps_step. keeps_step; [keeps_step|].
        apply keeps_modify. intros st Hst. cbn.
        rewrite lookup_alter_eq. destruct Hst as [h Hh]. rewrite Hh. cbn. eauto.
      + cbn. rewrite lookup_insert_eq. eauto. }
  split; [exact Hin|].
  intros fph' s2 Hsame (_ & _ & _ & _ & _ & Hh). destruct Hin as [h Hin].
  unfold hash_latest. rewrite Hnc. fold args. rewrite Hsame. fold dset_nid.
  unfold bind, get.
  rewrite bool_decide_eq_true_2; [reflexivity|]. rewrite (Hh _ _ Hin). eauto.
Qed.

(** One folder of the walk, all of its checksums being read. *)
Lemma hash_folder_spec (digest : string -> string -> string) dset_nid root filenames :
  forall m s,
    (forall name, name ∈ filenames ->
       checksum env (os_path_join root [name]) (checksum_type cctx)
       = inr (digest root name)) ->
    hash (tree s) !! dset_nid = Some {["latest" := m]} ->
    exists s',
      for_ filenames (fun filename =>
        let* c := call (checksum env (os_path_join root [filename])
                                 (checksum_type cctx)) in
        set_hash (alter (alter (fun d => <[filename := c]> d) "latest") dset_nid)) s
      = (s', inr tt)
      /\ hash (tree s') !! dset_nid
         = Some {["latest" := foldl (fun d name => <[name := digest root name]> d)
                                    m filenames]}.
Proof.
  induction filenames as [|name filenames IH]; intros m s Hsum Hm.
  - exists s. split; [reflexivity | exact Hm].
  - cbn [for_ foldl]. unfold bind at 1 2, call at 1.
    rewrite (Hsum name) by (left). cbn [set_hash modify fst snd].
    unfold set_hash at 1, modify at 1.
    apply IH.
    + intros name' Hin. apply Hsum. now right.
    + cbn. rewrite lookup_alter_eq, Hm. cbn. now rewrite alter_singleton_eq.
Qed.

Lemma foldl_folder (digest : string -> string -> string) root filenames
    (m : gmap string string) :
  foldl (fun d rn => <[rn.2 := digest rn.1 rn.2]> d) m
        (map (fun name => (root, name)) filenames)
  = foldl (fun d name => <[name := digest root name]> d) m filenames.
Proof.
  revert m. induction filenames as [|name filenames IH]; intros m;
    [reflexivity | apply IH].
Qed.

Lemma hash_walk_spec (digest : string -> string -> string) dset_nid walk :
  forall m s,
    (forall root name, (root, name) ∈ walked walk ->
       checksum env (os_path_join root [name]) (checksum_type cctx)
       = inr (digest root name)) ->
    hash (tree s) !! dset_nid = Some {["latest" := m]} ->
    exists s',
      for_ walk (fun '(root, filenames) =>
        for_ filenames (fun filename =>
          let* c := call (checksum env (os_path_join root [filename])
                                   (checksum_type cctx)) in
          set_hash (alter (alter (fun d => <[filename := c]> d) "latest") dset_nid))) s
      = (s', inr tt)
      /\ hash (tree s') !! dset_nid
         = Some {["latest" := foldl (fun d rn => <[rn.2 := digest rn.1 rn.2]> d)
                                    m (walked walk)]}.
Proof.
  induction walk as [|[root filenames] walk IH]; intros m s Hsum Hm.
  - exists s. split; [reflexivity | exact Hm].
  - cbn [for_]. unfold bind at 1.
    destruct (hash_folder_spec digest dset_nid root filenames m s) as (s1 & Hfor & Hm1).
    { intros name Hin. apply Hsum. cbn. apply elem_of_app. left.
      apply list_elem_of_In, in_map, list_elem_of_In, Hin. }
    { exact Hm. }
    rewrite Hfor.
    destruct (IH (foldl (fun d name => <[name := digest root name]> d) m filenames) s1)
      as (s2 & Hfor2 & Hm2).
    { intros root' name Hin. apply Hsum. cbn. apply elem_of_app. now right. }
    { exact Hm1. }
    exists s2. split; [exact Hfor2|].
    rewrite Hm2. cbn [walked flat_map]. now rewrite foldl_app, foldl_folder.
Qed.

Lemma foldl_digest_lookup (digest : string -> string -> string) l :
  forall (m : gmap string string) name,
    (forall c, foldl (fun d rn => <[rn.2 := digest rn.1 rn.2]> d) m l !! name = Some c ->
       m !! name = Some c \/ exists root, (root, name) ∈ l /\ c = digest root name)
    /\ (is_Some (m !! name) \/ (exists root, (root, name) ∈ l) ->
        is_Some (foldl (fun d rn => <[rn.2 := digest rn.1 rn.2]> d) m l !! name)).
Proof.
  induction l as [|[root n] l IH]; intros m name; cbn [foldl]; split.
  - auto.
  - intros [H|[root H]]; [exact H | now apply elem_of_nil in H].
  - intros c Hc. destruct (proj1 (IH _ name) c Hc) as [Hm|(root' & Hin & ->)].
    + cbn in Hm. destruct (decide (n = name)) as [->|Hne].
      * rewrite lookup_insert_eq in Hm. injection Hm as <-.
        right. exists root. split; [left | reflexivity].
      * rewrite lookup_insert_ne in Hm by exact Hne. now left.
    + right. exists root'. split; [now right | reflexivity].
  - intros H. apply (IH _ name). cbn.
    destruct (decide (n = name)) as [->|Hne].
    + left. rewrite lookup_insert_eq. eauto.
    + rewrite lookup_insert_ne by exact Hne.
      destruct H as [H|[root' H]]; [now left|].
      apply elem_of_cons in H as [[= -> ->]|H]; [now destruct Hne | right; eauto].
Qed.

(** The content of the entry.  With checksums enabled, for a dataset that
    has no entry yet and whose files of the latest version can all be
    read, the computation succeeds and stores under the dataset, below
    ['latest'], one checksum per file name met by the walk, and no other
    name: the checksum of a file of that name, the last one walked when
    folders share a name. *)
Theorem main_hash_latest_content (digest : string -> string -> string) fph s :
  let dset_nid := path fph [("f_part", false); ("latest", true); ("root", true)] in
  no_checksum cctx = false ->
  hash (tree s) !! dset_nid = None ->
  (forall root name, (root, name) ∈ walked (os_walk env dset_nid) ->
     checksum env (os_path_join root [name]) (checksum_type cctx)
     = inr (digest root name)) ->
  exists s' m,
    hash_latest env cctx fph s = (s', inr tt)
    /\ hash (tree s') !! dset_nid = Some {["latest" := m]}
    /\ (forall name, is_Some (m !! name) <->
          exists root, (root, name) ∈ walked (os_walk env dset_nid))
    /\ (forall name c, m !! name = Some c ->
          exists root, (root, name) ∈ walked (os_walk env dset_nid)
                       /\ checksum env (os_path_join root [name]) (checksum_type cctx)
                          = inr c).
Proof.
  intros dset_nid Hnc Hnone Hsum. unfold hash_latest. rewrite Hnc. fold dset_nid.
  unfold bind at 1, get. cbn [fst snd].
  rewrite bool_decide_eq_false_2 by (rewrite Hnone; now intros [? [=]]).
  unfold bind at 1, set_hash at 1, modify at 1. cbv beta iota.
  match goal with
  | |- context [for_ _ _ ?s0] =>
      destruct (hash_walk_spec digest dset_nid (os_walk env dset_nid) ∅ s0 Hsum)
        as (s' & Hfor & Hm)
  end.
  { cbn. now rewrite lookup_insert_eq. }
  eexists s', _. split; [exact Hfor|]. split; [exact Hm|]. split.
  - intros name. split.
    + intros [c Hc].
      destruct (proj1 (foldl_digest_lookup digest _ ∅ name) c Hc)
        as [He|(root & Hin & _)]; [now rewrite lookup_empty in He | eauto].
    + intros H. apply (foldl_digest_lookup digest). now right.
  - intros name c Hc.
    destruct (proj1 (foldl_digest_lookup digest _ ∅ name) c Hc)
      as [He|(root & Hin & ->)]; [now rewrite lookup_empty in He|].
    exists root. split; [exact Hin | now apply Hsum].
Qed.
End main_hash.

(** ** [main.process]: the meaning of [None] *)

Section main_none.
Import main.
Variable env : Env.
Variable cctx : ProcessContext.

Lemma process_body_not_none ffp :
  returns_only (fun v => v <> PyNone) (process_body env cctx ffp).
Proof.
  unfold process_body. apply returns_bind. intros fh.
  destruct (bool_decide _); [now apply returns_ret|].
  do 6 (apply returns_bind; intros ?). apply returns_bind. intros _.
  now apply returns_ret.
Qed.

(** In [main.py] the answer [None] always stands for an exception: the
    body of [process] returns [True] or [False] only, so a file is answered
    with [None] exactly when its processing raised an [Exception], which is
    then in the log. *)
Theorem main_none_is_an_error ffp s :
  snd (process env cctx ffp s) = inr PyNone
  <-> exists e, snd (process_body env cctx ffp s) = inl (Exception e).
Proof.
  unfold process, try_worker.
  pose proof (process_body_not_none ffp s) as Hnone.
  destruct (process_body env cctx ffp s) as [s1 [[|e]|v]]; cbn in *.
  - split; [discriminate | intros [e [=]]].
  - split; eauto.
  - split; [intros [= ->]; now destruct (Hnone PyNone) | intros [e [=]]].
Qed.
End main_none.

(** ** [main.run]: interrupts, the action phase, acting again *)

Section run_more.
Import main.
Variable env : Env.
Variable renv : RunEnv.

(** A scan in two batches. *)
Lemma scan_sources_app cctx l1 l2 s :
  scan_sources env cctx (l1 ++ l2) s
  = match scan_sources env cctx l1 s with
    | (s1, inl e) => (s1, inl e)
    | (s1, inr r1) =>
        match scan_sources env cctx l2 s1 with
        | (s2, inl e) => (s2, inl e)
        | (s2, inr r2) => (s2, inr (r1 ++ r2))
        end
    end.
Proof.
  revert s. induction l1 as [|ffp l1 IH]; intros s; cbn [app scan_sources].
  - unfold ret. cbn. now destruct (scan_sources env cctx l2 s) as [s2 [e|r2]].
  - unfold bind. destruct (process env cctx ffp s) as [s1 [e|x]];
      [reflexivity|].
    rewrite IH.
    destruct (scan_sources env cctx l1 s1) as [s2 [e|r1]]; [reflexivity|].
    cbv beta iota delta [ret].
    destruct (scan_sources env cctx l2 s2) as [s3 [e|r2]]; reflexivity.
Qed.

(** An interrupt during a scan without a pool.  When the files before
    [ffp] are scanned and [ffp] is interrupted, [run] ends in
    [KeyboardInterrupt] in the state the interrupted worker left: the files
    after [ffp] are not processed, no checkpoint is written, no count is
    set and no action is invoked. *)
Theorem run_interrupted ctx w l1 ffp l2 s1 results s2 :
  scan ctx = true ->
  use_pool ctx = false ->
  sources ctx = l1 ++ ffp :: l2 ->
  scan_sources env (process_vars ctx) l1 (shared (start renv w)) = (s1, inr results) ->
  process env (process_vars ctx) ffp s1 = (s2, inl KeyboardInterrupt) ->
  let r := run env renv ctx w in
  snd r = inl KeyboardInterrupt
  /\ shared (fst r) = s2
  /\ files (fst r) = files w
  /\ scan_files (fst r) = scan_files w
  /\ scan_errors (fst r) = scan_errors w
  /\ invoked (fst r) = invoked w.
Proof.
  intros Hscan Hpool Hsrc Hl1 Hffp r. subst r.
  assert (Hall : scan_sources env (process_vars ctx) (sources ctx)
                   (shared (start renv w)) = (s2, inl KeyboardInterrupt)).
  { rewrite Hsrc, scan_sources_app, Hl1. cbn [scan_sources]. unfold bind.
    now rewrite Hffp. }
  rewrite run_unfold, (gather_scan env renv ctx _ Hscan Hpool), Hall. cbn. auto 10.
Qed.

(** The action phase.  Once the results are obtained and accepted by
    [evaluate], the checkpoint holds the tree as the scan left it, and:
    - with [no_checksum], one action is invoked, the one named by
      [ctx.action], on the tree brought through [get_display_lengths];
    - without, the uniqueness check comes first: when it passes, the one
      action is invoked on the tree it gives, brought through
      [get_display_lengths]; when it raises, [run] ends in that exception
      with no action invoked. *)
Theorem run_action_phase ctx w w1 results :
  gather env renv ctx (start renv w) = (w1, inr results) ->
  evaluate renv results = true ->
  let r := run env renv ctx w in
  files (fst r) !! TREE_FILE (USER renv) = Some (checkpoint ctx w1 results)
  /\ (ctx_no_checksum ctx = true ->
      snd r = inr tt
      /\ invoked (fst r)
         = invoked w ++ [(action ctx, get_display_lengths renv (tree (shared w1)))])
  /\ (ctx_no_checksum ctx = false ->
      match check_uniqueness renv (tree (shared w1)) (ctx_checksum_type ctx) with
      | inr t =>
          snd r = inr tt
          /\ invoked (fst r) = invoked w ++ [(action ctx, get_display_lengths renv t)]
      | inl e => snd r = inl e /\ invoked (fst r) = invoked w
      end).
Proof.
  intros Hg Hacc r. subst r. rewrite run_unfold, Hg.
  pose proof (gather_invoked env renv ctx (start renv w)) as Hinv.
  rewrite Hg in Hinv. cbn in Hinv.
  pose proof (conclude_spec renv ctx results w1) as (Hfiles & _).
  cbn zeta in Hfiles. split; [rewrite Hfiles; apply lookup_insert_eq|].
  unfold conclude, bind at 1 2 3, modify at 1, get at 1, store, modify at 1.
  cbn -[TREE_FILE checkpoint]. rewrite Hacc. split.
  - intros ->. cbn -[TREE_FILE checkpoint]. now rewrite Hinv.
  - intros ->. unfold bind, call, get. cbn -[TREE_FILE checkpoint].
    destruct (check_uniqueness renv (tree (shared w1)) (ctx_checksum_type ctx))
      as [e|t]; cbn -[TREE_FILE checkpoint]; now rewrite Hinv.
Qed.

Lemma run_checkpoint_noscan ctx w snapshot t l r :
  scan ctx = false ->
  files w !! TREE_FILE (USER renv)
    = Some [snapshot; PTree t; PLog l; PResults r] ->
  files (fst (run env renv ctx w)) !! TREE_FILE (USER renv)
  = Some [PArgs (map (fun key => (key, getattribute ctx key)) CONTROLLED_ARGS);
          PTree (set_commands_file (ctx_commands_file ctx) t);
          PLog l;
          PResults r].
Proof.
  intros Hscan Hfile.
  destruct (gather_checkpoint env renv ctx (start renv w) snapshot t l r []
              Hscan Hfile) as (w1 & Hg & Ht & Hl & _).
  rewrite run_unfold, Hg.
  pose proof (conclude_spec renv ctx r w1) as (Hfiles & _).
  cbn zeta in Hfiles. rewrite Hfiles, lookup_insert_eq.
  unfold checkpoint. now rewrite Ht, Hl.
Qed.

(** Acting again.  The checkpoint is written before the action phase and is
    not touched by it: an invocation without scan that follows another one
    leaves the checkpoint it would have left had it come first, with the
    tree, the log and the results of the scan and its own commands file,
    whatever the first invocation did to the tree. *)
Theorem run_act_again ctx1 ctx2 w snapshot t l r :
  scan ctx1 = false ->
  scan ctx2 = false ->
  files w !! TREE_FILE (USER renv)
    = Some [snapshot; PTree t; PLog l; PResults r] ->
  files (fst (run env renv ctx2 (fst (run env renv ctx1 w)))) !! TREE_FILE (USER renv)
  = files (fst (run env renv ctx2 w)) !! TREE_FILE (USER renv).
Proof.
  intros H1 H2 Hfile.
  rewrite (run_checkpoint_noscan ctx2 w snapshot t l r H2 Hfile).
  erewrite (run_checkpoint_noscan ctx2 (fst (run env renv ctx1 w))); [|exact H2|].
  2: { apply (run_checkpoint_noscan ctx1 w snapshot t l r H1 Hfile). }
  reflexivity.
Qed.
End run_more.

(** ** [initializer] *)

Section initializer_facts.
Context {V : Type}.

Lemma dict_of_keys_spec (keys : list string) (values : list V) :
  forall i acc,
    (i + length keys <= length values)%nat ->
    exists m,
      dict_of_keys i keys values acc = inr m
      /\ (forall j k, keys !! j = Some k ->
            (forall j', (j < j')%nat -> keys !! j' <> Some k) ->
            m !! k = values !! (i + j)%nat)
      /\ (forall k, k ∉ keys -> m !! k = acc !! k).
Proof.
  induction keys as [|key keys IH]; intros i acc Hlen; cbn [dict_of_keys].
  - exists acc. split; [reflexivity|]. split; [intros j k [=] | reflexivity].
  - cbn [length] in Hlen.
    destruct (values !! i) as [v|] eqn:Hv;
      [|apply lookup_ge_None in Hv; lia].
    destruct (IH (S i) (<[key := v]> acc)) as (m & Hm & Hlast & Hout); [lia|].
    exists m. split; [exact Hm|]. split.
    + intros [|j] k Hk Hlater; cbn in Hk.
      * injection Hk as <-. rewrite Hout, Nat.add_0_r, lookup_insert_eq; [now rewrite Hv|].
        intros Hin. apply list_elem_of_lookup in Hin as [j Hj].
        apply (Hlater (S j)); [lia | exact Hj].
      * replace (i + S j)%nat with (S i + j)%nat by lia. apply Hlast; [exact Hk|].
        intros j' Hlt. apply (Hlater (S j')). lia.
    + intros k Hk. apply not_elem_of_cons in Hk as [Hne Hk].
      rewrite Hout by exact Hk. now apply lookup_insert_ne.
Qed.

Lemma initializer_same_length (keys : list string) (values : list V) :
  length keys = length values ->
  exists m,
    initializer keys values = inr m
    /\ (forall j k, keys !! j = Some k ->
          (forall j', (j < j')%nat -> keys !! j' <> Some k) ->
          m !! k = values !! j)
    /\ (forall k, k ∉ keys -> m !! k = None).
Proof.
  unfold initializer. intros Hlen. rewrite (proj2 (Nat.eqb_eq _ _) Hlen).
  destruct (dict_of_keys_spec keys values 0 ∅) as (m & Hm & Hlast & Hout); [lia|].
  exists m. split; [exact Hm|]. split; [exact Hlast|].
  intros k Hk. now rewrite Hout.
Qed.

(** The context a worker gets.  With as many values as keys, [initializer]
    builds the dictionary in which every key has the value of its own
    position, of its last position when it comes several times, and which
    holds no other key.  With a different number of values the assertion
    fails. *)
Theorem initializer_entries (keys : list string) (values : list V) :
  (length keys = length values ->
   exists m,
     initializer keys values = inr m
     /\ (forall j k, keys !! j = Some k ->
           (forall j', (j < j')%nat -> keys !! j' <> Some k) ->
           m !! k = values !! j)
     /\ (forall k, k ∉ keys -> m !! k = None))
  /\ (length keys <> length values ->
      initializer keys values = inl (Exception (main.AssertionError ""))).
Proof.
  split.
  - apply initializer_same_length.
  - intros Hlen. unfold initializer. now rewrite (proj2 (Nat.eqb_neq _ _) Hlen).
Qed.

(** The round trip of [run]: [initializer] called, as [run] calls it, on
    the keys and the values of a dictionary, listed in one order, gives the
    dictionary back. *)
Theorem initializer_round_trip (cctx : gmap string V) :
  initializer (map_to_list cctx).*1 (map_to_list cctx).*2 = inr cctx.
Proof.
  destruct (initializer_same_length (map_to_list cctx).*1 (map_to_list cctx).*2)
    as (m & Hm & Hlast & Hout); [now rewrite !length_fmap|].
  rewrite Hm. f_equal. apply map_eq. intros k.
  destruct (cctx !! k) as [v|] eqn:Hk.
  - apply elem_of_map_to_list, list_elem_of_lookup in Hk as [j Hj].
    rewrite (Hlast j k).
    + now rewrite list_lookup_fmap, Hj.
    + now rewrite list_lookup_fmap, Hj.
    + intros j' Hlt Hj'.
      pose proof (NoDup_fst_map_to_list cctx) as Hnd.
      assert (Hjk : (map_to_list cctx).*1 !! j = Some k)
        by now rewrite list_lookup_fmap, Hj.
      pose proof (NoDup_lookup _ _ _ _ Hnd Hjk Hj'). lia.
  - apply Hout. intros Hin. apply list_elem_of_fmap in Hin as ([k' v] & -> & Hin).
    apply elem_of_map_to_list in Hin. cbn in Hk. congruence.
Qed.
End initializer_facts.

(** ** The two orders on versions *)

Lemma digit_of_bounds c d :
  digit_of c = Some d -> (48 <= nat_of_ascii c <= 57)%nat /\ d = Z.of_nat (nat_of_ascii c - 48).
Proof.
  unfold digit_of.
  destruct (Nat.leb 48 (nat_of_ascii c) && Nat.leb (nat_of_ascii c) 57)%bool eqn:H;
    [|discriminate].
  intros [= <-]. apply andb_true_iff in H as [H1 H2].
  apply Nat.leb_le in H1, H2. auto.
Qed.

Lemma digit_compare c1 c2 d1 d2 :
  digit_of c1 = Some d1 -> digit_of c2 = Some d2 ->
  (d1 ?= d2) = Ascii.compare c1 c2.
Proof.
  intros H1 H2. apply digit_of_bounds in H1 as [B1 ->], H2 as [B2 ->].
  unfold Ascii.compare, nat_of_ascii in *.
  destruct (N.compare_spec (N_of_ascii c1) (N_of_ascii c2)) as [He|Hl|Hg].
  - rewrite He. apply Z.compare_refl.
  - apply Z.compare_lt_iff. lia.
  - apply Z.compare_gt_iff. lia.
Qed.

(** Digit strings of one length: reading them as numbers orders them as
    comparing them as strings does. *)
Lemma digits_compare a :
  forall b x y,
    all_digits a = true -> all_digits b = true ->
    String.length a = String.length b ->
    exists vx vy,
      digits_value x a = Some vx /\ digits_value y b = Some vy
      /\ (vx ?= vy) = match x ?= y with
                      | Eq => String.compare a b
                      | c => c
                      end.
Proof.
  induction a as [|c a IH]; intros [|d b] x y Ha Hb Hlen; try discriminate.
  - exists x, y. cbn. now destruct (x ?= y).
  - cbn [all_digits digits_value] in *.
    destruct (digit_of c) as [dc|] eqn:Hc; [|discriminate].
    destruct (digit_of d) as [dd|] eqn:Hd; [|discriminate].
    injection Hlen as Hlen.
    destruct (IH b (10 * x + dc) (10 * y + dd) Ha Hb Hlen) as (vx & vy & Hx & Hy & Hcmp).
    exists vx, vy. split; [exact Hx|]. split; [exact Hy|].
    rewrite Hcmp. cbn [String.compare]. rewrite <- (digit_compare c d dc dd Hc Hd).
    apply digit_of_bounds in Hc as [Bc Ec], Hd as [Bd Ed].
    destruct (Z.compare_spec x y) as [->|Hl|Hg].
    + replace (10 * y + dc ?= 10 * y + dd) with (dc ?= dd); [reflexivity|].
      symmetry. apply Z.add_compare_mono_l.
    + replace (10 * x + dc ?= 10 * y + dd) with Lt; [reflexivity|].
      symmetry. apply Z.compare_lt_iff. lia.
    + replace (10 * x + dc ?= 10 * y + dd) with Gt; [reflexivity|].
      symmetry. apply Z.compare_gt_iff. lia.
Qed.

Lemma digit_not_space c d : digit_of c = Some d -> is_space c = false.
Proof.
  intros H. apply digit_of_bounds in H as [[H1 H2] _]. unfold is_space.
  apply orb_false_iff. split.
  - apply Nat.eqb_neq. lia.
  - apply andb_false_iff. right. apply Nat.leb_gt. lia.
Qed.

Lemma rstrip_digits s : all_digits s = true -> rstrip s = s.
Proof.
  induction s as [|c s IH]; [reflexivity|]. cbn [all_digits rstrip].
  destruct (digit_of c) as [d|] eqn:Hc; [|discriminate].
  intros Hs. rewrite (IH Hs). destruct s; [|reflexivity].
  now rewrite (digit_not_space c d Hc).
Qed.

(** [int] on a non-empty digit string reads the digits. *)
Lemma py_int_digits s :
  all_digits s = true -> s <> "" -> py_int s = digits_value 0 s.
Proof.
  intros Hs Hne. unfold py_int.
  assert (Hl : lstrip s = s).
  { destruct s as [|c s]; [reflexivity|]. cbn [lstrip all_digits] in *.
    destruct (digit_of c) as [d|] eqn:Hc; [|discriminate].
    now rewrite (digit_not_space c d Hc). }
  rewrite Hl, (rstrip_digits s Hs).
  destruct s as [|c s]; [now destruct Hne|]. cbn [all_digits] in Hs.
  destruct (digit_of c) as [d|] eqn:Hc; [|discriminate].
  apply digit_of_bounds in Hc as [[H1 H2] _].
  assert (Hminus : Ascii.eqb c "-" = false).
  { apply Ascii.eqb_neq. intros ->. vm_compute in H1. lia. }
  assert (Hplus : Ascii.eqb c "+" = false).
  { apply Ascii.eqb_neq. intros ->. vm_compute in H1. lia. }
  now rewrite Hminus, Hplus.
Qed.

(** On version folder names of one length the test of [main.py] on numbers
    is the comparison of strings: [process] lets the upgrade pass the
    version check exactly when the latest version is below the upgrade
    version as a string, and raises [OlderUpgrade] otherwise.  It is on
    that same condition, and not on its converse, that [make.py] raises
    [OlderUpgrade]. *)
Theorem version_orders_agree env fph latest (s : main.State)
    menv self attrs current_path lp (ms : make.State) :
  main.v_latest fph = Some latest ->
  is_version (main.TREE_VERSION env) = true ->
  is_version latest = true ->
  String.length (main.TREE_VERSION env) = String.length latest ->
  main.version_check env fph s
  = (s, if py_str_lt latest (main.TREE_VERSION env)
        then inr tt
        else inl (Exception (main.OlderUpgrade (main.TREE_VERSION env) (Some latest))))
  /\ (make.exists_ menv lp = true ->
      make.get_version menv lp = latest ->
      make.get_version menv current_path = main.TREE_VERSION env ->
      py_str_lt latest (main.TREE_VERSION env) = true ->
      make.check_latest menv self attrs current_path (Some lp) ms
      = (ms, inl (Exception (make.OlderUpgrade (main.TREE_VERSION env) latest)))).
Proof.
  intros Hlat Hup Hl Hlen. split.
  - destruct (main.TREE_VERSION env) as [|cu up] eqn:Hv; [discriminate|].
    destruct latest as [|cl lat]; [discriminate|].
    cbn [is_version] in Hup, Hl.
    apply andb_true_iff in Hup as [Hup Hdu], Hl as [Hl Hdl].
    apply andb_true_iff in Hup as [Hcu Hnu], Hl as [Hcl Hnl].
    apply Ascii.eqb_eq in Hcu, Hcl. subst cu cl.
    apply negb_true_iff, String.eqb_neq in Hnu, Hnl.
    injection Hlen as Hlen.
    destruct (digits_compare up lat 0 0 Hdu Hdl Hlen) as (vu & vl & Hvu & Hvl & Hcmp).
    cbn [Z.compare] in Hcmp.
    rewrite (main_version_check_spec env fph s vu vl).
    + rewrite Hlat. unfold py_str_lt, String.ltb, Z.leb. rewrite Hcmp.
      change (String.compare (String "v" lat) (String "v" up))
        with (String.compare lat up).
      rewrite (String.compare_antisym up lat), Hv.
      now destruct (String.compare lat up).
    + rewrite Hv. cbn [py_tail]. now rewrite py_int_digits.
    + rewrite Hlat. cbn [default py_tail]. now rewrite py_int_digits.
  - intros Hex Hgl Hgc Hlt. rewrite <- Hgl, <- Hgc in *.
    now apply make_version_check_raises.
Qed.

(** ** The properties at work on the example dataset *)

(** [a.nc] comes in while the context ignores it. *)
Lemma main_ignored_file_witness :
  let env := example.main_env (Some "v20200101") "v20200102" (example.upgrade_disk "cc") in
  main.process env (ignoring_cctx ["a.nc"]) "/incoming/a.nc" example.main_start
  = (main.pbar_update example.main_start, inr PyFalse).
Proof.
  intros env.
  apply (main_ignored_file env (ignoring_cctx ["a.nc"]) "/incoming/a.nc" "a.nc" 10).
  - reflexivity.
  - constructor.
Defined.

(** [a.nc] comes in while no directory structure can be built for it, then
    while building it fails on a missing attribute. *)
Lemma make_directory_structure_witness :
  let env := example.make_env None (latest_disk "a.nc") in
  let self := example.make_self false false "move" in
  let source := example.incoming_file "a.nc" in
  let s := example.make_start "v20200102" in
  make.__call__ (with_drs_path env (fun _ => inr None)) self source s
  = (make.progress_incr s, inr PyFalse)
  /\ make.__call__ (with_drs_path env (fun _ => inl (Exception (make.Raised "KeyError"))))
       self source s
     = (make.progress_incr (make.errors_incr s), inr PyNone).
Proof.
  intros env self source s.
  assert (Hign : make.name source ∉ make.ignore_from_incoming self)
    by apply not_elem_of_nil.
  split.
  - apply (proj1 (make_directory_structure (with_drs_path env (fun _ => inr None))
                    self source _ s Hign eq_refl)).
    left. reflexivity.
  - apply (proj2 (make_directory_structure
                    (with_drs_path env
                       (fun _ => inl (Exception (make.Raised "KeyError"))))
                    self source _ s Hign eq_refl) (make.Raised "KeyError")).
    + discriminate.
    + reflexivity.
Defined.

(** A copy of [a.nc] of version v20200101 comes in for v20200102: the
    verdict is a duplicate. *)
Lemma main_verdict_meaning_witness :
  let env := example.main_env (Some "v20200101") "v20200102" (example.upgrade_disk "aa") in
  let cctx := example.main_cctx false false "move" in
  let latest_file := "/data/CMIP6/tas/v20200101/a.nc" in
  snd (main.check_latest env cctx
         {| main.ffp := "/incoming/a.nc"; main.filename := "a.nc"; main.size := 10 |}
         (example.tas_path (Some "v20200101") "v20200102") example.main_start)
  = inr true
  /\ (exists upgrade latest,
        py_int (py_tail (main.TREE_VERSION env)) = Some upgrade
        /\ py_int "20200101" = Some latest
        /\ latest < upgrade)
  /\ main.os_path_exists env latest_file = true
  /\ exists c, main.checksum env latest_file "sha256" = inr c
               /\ main.checksum env "/incoming/a.nc" "sha256" = inr c.
Proof.
  intros env cctx latest_file.
  set (fh := {| main.ffp := "/incoming/a.nc"; main.filename := "a.nc"; main.size := 10 |}).
  set (fph := example.tas_path (Some "v20200101") "v20200102").
  assert (Hcheck : main.check_latest env cctx fh fph example.main_start
                   = (fst (main.check_latest env cctx fh fph example.main_start),
                      inr true))
    by (vm_compute; reflexivity).
  pose proof (main_verdict_meaning env cctx fh fph _ _ _ Hcheck) as [Hv Hdup].
  split; [now rewrite Hcheck|]. split; [exact Hv|]. now apply Hdup.
Defined.

(** [a.nc] resolves to v20200101 while the latest version, v20200102, holds
    a file of the same name, tracking ID, size and checksum. *)
Lemma make_verdict_meaning_witness :
  let env := example.make_env (Some "v20200102")
               (two_versions (Some "hdl:21.14100/1") 10 "aa") in
  let self := example.make_self false false "move" in
  let cur := example.tas "v20200101" "a.nc" in
  let lp := example.tas "v20200102" "a.nc" in
  make.check_latest env self a_attrs cur (Some lp) (example.make_start "v20200101")
  = (example.make_start "v20200101", inr ("v20200102", true))
  /\ make.exists_ env lp = true
  /\ exists sz c,
       make.st_size env cur = inr sz /\ make.st_size env lp = inr sz
       /\ make.get_checksum env cur "sha256" None = inr c
       /\ make.get_checksum env lp "sha256" None = inr c.
Proof.
  intros env self cur lp.
  assert (Hcheck : make.check_latest env self a_attrs cur (Some lp)
                     (example.make_start "v20200101")
                   = (example.make_start "v20200101", inr ("v20200102", true)))
    by reflexivity.
  pose proof (make_verdict_meaning env self a_attrs cur (Some lp) _ _ _ _ Hcheck)
    as (_ & Hversion & Hdup).
  split; [exact Hcheck|].
  destruct (Hdup eq_refl) as (_ & lp' & la & sz & c & [= <-] & _ & _ & H1 & H2 & H3 & H4).
  split.
  - destruct Hversion as [[_ [=]] | (lp' & [= <-] & Hex & _)]. exact Hex.
  - exists sz, c. auto.
Defined.

(** Neither the incoming [a.nc] nor the one of the latest version has a
    tracking ID; sizes and checksums are the same. *)
Lemma make_without_tracking_id_witness :
  let env := example.make_env (Some "v20200102") (two_versions None 10 "aa") in
  let self := example.make_self false false "move" in
  make.check_latest env self ∅ (example.tas "v20200101" "a.nc")
    (Some (example.tas "v20200102" "a.nc")) (example.make_start "v20200101")
  = (example.make_start "v20200101", inr ("v20200102", true)).
Proof.
  intros env self.
  rewrite (make_without_tracking_id env self ∅ (example.tas "v20200101" "a.nc")
             (example.tas "v20200102" "a.nc") ∅ 10 10 "aa" "aa"
             (example.make_start "v20200101")) by reflexivity.
  vm_compute. reflexivity.
Defined.

(** The checksums of v20200101 are computed once: a second computation, in
    the state the first one leaves, is skipped. *)
Lemma main_hash_latest_once_witness :
  let env := example.main_env (Some "v20200101") "v20200102" (example.upgrade_disk "cc") in
  let cctx := example.main_cctx false false "move" in
  let fph := example.tas_path (Some "v20200101") "v20200102" in
  let s1 := fst (main.hash_latest env cctx fph example.main_start) in
  is_Some (main.hash (main.tree s1) !! "/data/CMIP6/tas/v20200101")
  /\ main.hash_latest env cctx fph s1 = (s1, inr tt).
Proof.
  intros env cctx fph s1.
  destruct (main_hash_latest_once env cctx fph example.main_start eq_refl)
    as [Hin Hskip].
  split; [exact Hin|].
  apply Hskip; [reflexivity|]. apply (@PreOrder_Reflexive _ _ main_grows_preorder).
Defined.

(** The entry of v20200101, which holds [a.nc] and [b.nc]. *)
Lemma main_hash_latest_content_witness :
  let env := example.main_env (Some "v20200101") "v20200102" (example.upgrade_disk "cc") in
  let cctx := example.main_cctx false false "move" in
  let fph := example.tas_path (Some "v20200101") "v20200102" in
  exists s' m,
    main.hash_latest env cctx fph example.main_start = (s', inr tt)
    /\ main.hash (main.tree s') !! "/data/CMIP6/tas/v20200101" = Some {["latest" := m]}
    /\ is_Some (m !! "a.nc") /\ is_Some (m !! "b.nc") /\ m !! "c.nc" = None.
Proof.
  intros env cctx fph.
  destruct (main_hash_latest_content env cctx upgrade_digest fph example.main_start)
    as (s' & m & Hrun & Hentry & Hnames & _).
  - reflexivity.
  - reflexivity.
  - intros root name Hin. vm_compute in Hin.
    repeat (apply elem_of_cons in Hin as [[= -> ->]|Hin]; [reflexivity|]).
    now apply elem_of_nil in Hin.
  - exists s', m. split; [exact Hrun|]. split; [exact Hentry|].
    split; [|split].
    + apply Hnames. exists "/data/CMIP6/tas/v20200101". vm_compute.
      constructor.
    + apply Hnames. exists "/data/CMIP6/tas/v20200101". vm_compute.
      constructor. constructor.
    + apply eq_None_not_Some. intros Hc. apply Hnames in Hc as [root Hc].
      vm_compute in Hc.
      repeat (apply elem_of_cons in Hc as [[=]|Hc]).
      now apply elem_of_nil in Hc.
Defined.

(** A file that is not there: the handler raises, the answer is [None]. *)
Lemma main_none_is_an_error_witness :
  let env := example.main_env (Some "v20200101") "v20200102" (example.upgrade_disk "cc") in
  let cctx := example.main_cctx false false "move" in
  snd (main.process env cctx "/incoming/z.nc" example.main_start) = inr PyNone.
Proof.
  intros env cctx.
  apply (proj2 (main_none_is_an_error env cctx "/incoming/z.nc" example.main_start)).
  exists (main.Raised "IOError"). reflexivity.
Defined.

(** [alice] interrupts the scan on its one file. *)
Lemma run_interrupted_witness :
  let env := interrupted_main_env
               (example.main_env (Some "v20200101") "v20200102"
                  (example.upgrade_disk "cc")) in
  let r := main.run env alice (alice_ctx true None "upgrade") empty_world in
  snd r = inl KeyboardInterrupt
  /\ main.files (fst r) = ∅
  /\ main.invoked (fst r) = [].
Proof.
  intros env.
  pose proof (run_interrupted env alice (alice_ctx true None "upgrade") empty_world
                [] "/incoming/a.nc" []
                (main.shared (main.start alice empty_world)) []
                (fst (main.process env (example.main_cctx false false "move")
                        "/incoming/a.nc"
                        (main.shared (main.start alice empty_world))))
                eq_refl eq_refl eq_refl eq_refl) as H.
  cbv zeta in H. destruct H as (Hr & _ & Hf & _ & _ & Hi).
  - vm_compute. reflexivity.
  - intros r. split; [exact Hr|]. split; [exact Hf | exact Hi].
Defined.

(** [alice] scans [a.nc] with success: the checkpoint is written, the
    uniqueness check passes and the one action invoked is [upgrade]. *)
Lemma run_action_phase_witness :
  let env := example.main_env (Some "v20200101") "v20200102" (example.upgrade_disk "cc") in
  let ctx := alice_ctx true None "upgrade" in
  let r := main.run env alice ctx empty_world in
  snd r = inr tt
  /\ is_Some (main.files (fst r) !! TREE_FILE (main.USER alice))
  /\ map fst (main.invoked (fst r)) = ["upgrade"].
Proof.
  intros env ctx.
  pose proof (run_action_phase env alice ctx empty_world
                (fst (main.gather env alice ctx (main.start alice empty_world)))
                [PyTrue]) as H.
  cbv zeta in H. destruct H as (Hfile & _ & Hact).
  - vm_compute. reflexivity.
  - reflexivity.
  - intros r. destruct (Hact eq_refl) as [Hr Hi].
    split; [exact Hr|]. split.
    + eexists. exact Hfile.
    + subst r. rewrite Hi. reflexivity.
Defined.

(** [alice] scans, acts, then acts again with a commands file. *)
Lemma run_act_again_witness :
  let env := example.main_env (Some "v20200101") "v20200102" (example.upgrade_disk "cc") in
  let scanned := fst (main.run env alice (alice_ctx true None "upgrade") empty_world) in
  let ctx1 := alice_ctx false None "upgrade" in
  let ctx2 := alice_ctx false (Some "/tmp/commands.sh") "list" in
  main.files (fst (main.run env alice ctx2 (fst (main.run env alice ctx1 scanned))))
    !! "/tmp/DRSTree_alice.pkl"
  = main.files (fst (main.run env alice ctx2 scanned)) !! "/tmp/DRSTree_alice.pkl".
Proof.
  intros env scanned ctx1 ctx2.
  assert (Hfile : exists snapshot t l r,
            main.files scanned !! TREE_FILE (main.USER alice)
            = Some [snapshot; main.PTree t; main.PLog l; main.PResults r])
    by (vm_compute; do 4 eexists; reflexivity).
  destruct Hfile as (snapshot & t & l & r & Hfile).
  exact (run_act_again env alice ctx1 ctx2 scanned snapshot t l r eq_refl eq_refl Hfile).
Defined.

(** Two keys and two values; one key and no value. *)
Lemma initializer_entries_witness :
  (exists m : gmap string string,
     initializer ["mode"; "root"] ["move"; "/data"] = inr m
     /\ m !! "mode" = Some "move" /\ m !! "root" = Some "/data"
     /\ m !! "version" = None)
  /\ initializer (V:=string) ["mode"] [] = inl (Exception (main.AssertionError "")).
Proof.
  split.
  - destruct (proj1 (initializer_entries ["mode"; "root"] ["move"; "/data"]) eq_refl)
      as (m & Hm & Hlast & Hout).
    exists m. split; [exact Hm|]. split; [|split].
    + apply (Hlast 0%nat); [reflexivity|].
      intros [|[|[|j']]] Hlt; try discriminate. lia.
    + apply (Hlast 1%nat); [reflexivity|].
      intros [|[|[|j']]] Hlt; try discriminate; lia.
    + apply Hout. intros Hin.
      repeat (apply elem_of_cons in Hin as [[=]|Hin]).
      now apply elem_of_nil in Hin.
  - apply (proj2 (initializer_entries (V:=string) ["mode"] [])). discriminate.
Defined.

(** Upgrade to v20200102 over v20200101: [main.py] lets the file pass where
    [make.py] raises. *)
Lemma version_orders_agree_witness :
  let env := example.main_env (Some "v20200101") "v20200102" (example.upgrade_disk "cc") in
  let menv := example.make_env (Some "v20200101") (latest_disk "a.nc") in
  let self := example.make_self false false "move" in
  main.version_check env (example.tas_path (Some "v20200101") "v20200102")
    example.main_start
  = (example.main_start, inr tt)
  /\ make.check_latest menv self a_attrs (example.tas "v20200102" "a.nc")
       (Some (example.tas "v20200101" "a.nc")) (example.make_start "v20200102")
     = (example.make_start "v20200102",
        inl (Exception (make.OlderUpgrade "v20200102" "v20200101"))).
Proof.
  intros env menv self.
  destruct (version_orders_agree env (example.tas_path (Some "v20200101") "v20200102")
              "v20200101" example.main_start menv self a_attrs
              (example.tas "v20200102" "a.nc") (example.tas "v20200101" "a.nc")
              (example.make_start "v20200102") eq_refl eq_refl eq_refl eq_refl)
    as [Hmain Hmake].
  split; [exact Hmain | now apply Hmake].
Defined.
